(** * AdStreamr server: storage layer and HTTP route handlers

    A shallow embedding of [server/storage.ts] (class [MemStorage]) and of
    the request handlers of [server/routes.ts], followed by the properties
    of the route layer that the specification states.

    JavaScript objects are finite maps from property names to values,
    ES6 [Map]s are insertion-ordered association lists, [async] handler
    bodies are computations in a state-and-exception monad over the
    server's world (storage, disk, pending timers, console). *)

From Stdlib Require Import ZArith Ascii String List Bool.
From stdpp Require Import base option gmap strings list fin_maps pretty.

Local Open Scope string_scope.
Local Open Scope Z_scope.

(** ** JavaScript values *)

(** Numbers are integers here: every number the server computes is an
    identifier, a counter, a size or a timestamp.  [VNaN] is what
    [parseInt] yields on a non-numeric string.  [VUndefined] as the value
    of a property is distinct from the property being absent. *)
#[warnings="-register-all"]
Inductive value : Type :=
  | VUndefined
  | VNull
  | VBool (b : bool)
  | VNum (n : Z)
  | VNaN
  | VStr (s : string)
  | VDate (t : Z)
  | VArr (items : list value)
  | VObj (props : gmap string value).

Abbreviation obj := (gmap string value).

(** [o.k]: reading a property that is absent yields [undefined]. *)
Definition field (o : obj) (k : string) : value :=
  default VUndefined (o !! k).

(** ToBoolean. *)
Definition truthy (v : value) : bool :=
  match v with
  | VUndefined | VNull | VNaN => false
  | VBool b => b
  | VNum n => negb (n =? 0)
  | VStr s => negb (String.eqb s "")
  | VDate _ | VArr _ | VObj _ => true
  end.

(** [a === b].  Two objects are equal only when they are the same
    reference; the two sides of every comparison in the handlers come from
    different places (a stored record and the session, or a stored record
    and a literal), so object operands compare unequal. *)
Definition strict_eq (a b : value) : bool :=
  match a, b with
  | VUndefined, VUndefined => true
  | VNull, VNull => true
  | VBool x, VBool y => Bool.eqb x y
  | VNum x, VNum y => (x =? y)
  | VStr x, VStr y => String.eqb x y
  | _, _ => false
  end.

(** [a || b]. *)
Definition js_or (a b : value) : value := if truthy a then a else b.

(** The own enumerable properties copied by [{...v}]: those of an object,
    the indices of an array, none for [undefined], [null], booleans and
    numbers. *)
Definition spread (v : value) : obj :=
  match v with
  | VObj o => o
  | VArr l => list_to_map (imap (fun i x => (pretty i, x)) l)
  | _ => ∅
  end.

(** [{...a, ...b}]: the properties of [b] win. *)
Definition merge (a b : obj) : obj := b ∪ a.

(** ** Library functions the server calls

    [parseInt], [String.prototype.toLowerCase], [JSON.parse],
    [path.extname], [path.join], bcryptjs ([bcrypt_hash password rounds
    salt], the salt being the randomness it draws), zod's e-mail check
    and the check that drizzle-zod makes of the number given for an
    [integer] column are not part of the repository; [dirname] is the
    directory the server runs from.  The handlers are written against
    this interface and the theorems hold for every implementation of
    it. *)
Class Runtime := {
  parseInt : value -> value;
  toLowerCase : string -> string;
  JSON_parse : value -> option value;
  path_extname : string -> string;
  bcrypt_hash : string -> Z -> string -> string;
  bcrypt_compare : string -> string -> bool;
  z_email : string -> bool;
  z_integer : Z -> bool;
  path_join : list string -> string;
  dirname : string
}.

(** ** ES6 [Map] with numeric keys *)

Module JsMap.

Definition t (A : Type) : Type := list (Z * A).

Definition empty {A : Type} : t A := [].

Fixpoint get {A : Type} (k : Z) (m : t A) : option A :=
  match m with
  | [] => None
  | (k', v) :: m' => if k' =? k then Some v else get k m'
  end.

(** An existing key keeps its position, a new key goes last. *)
Fixpoint set {A : Type} (k : Z) (v : A) (m : t A) : t A :=
  match m with
  | [] => [(k, v)]
  | (k', v') :: m' =>
      if k' =? k then (k, v) :: m' else (k', v') :: set k v m'
  end.

Definition delete {A : Type} (k : Z) (m : t A) : t A :=
  List.filter (fun p => negb (fst p =? k)) m.

Definition values {A : Type} (m : t A) : list A := List.map snd m.

End JsMap.

(** ** Exceptions and the state-and-exception monad

    A thrown exception does not undo the mutations made before it, so the
    state is returned next to the outcome in both cases. *)

Inductive Error : Type :=
  | NotFound (entity : string) (id : value)
  | TypeError (what : string)
  | SyntaxError
  | IllegalArguments
  | ENOENT (path : string).

Inductive outcome (A : Type) : Type :=
  | Ret (a : A)
  | Throw (e : Error).
Arguments Ret {A} a.
Arguments Throw {A} e.

Definition St (S A : Type) : Type := S -> outcome A * S.

Definition ret {S A : Type} (a : A) : St S A := fun s => (Ret a, s).

Definition throw {S A : Type} (e : Error) : St S A := fun s => (Throw e, s).

Definition bind {S A B : Type} (c : St S A) (k : A -> St S B) : St S B :=
  fun s =>
    match c s with
    | (Ret a, s') => k a s'
    | (Throw e, s') => (Throw e, s')
    end.

(** [try { c } catch (error) { h }] where the handler cannot throw. *)
Definition try_catch {S A : Type} (c : St S A) (h : Error -> S -> A * S)
  : S -> A * S :=
  fun s =>
    match c s with
    | (Ret a, s') => (a, s')
    | (Throw e, s') => h e s'
    end.

Notation "x <- c ;; k" := (bind c (fun x => k))
  (at level 100, c at next level, right associativity).
Notation "c ;;; k" := (bind c (fun _ => k))
  (at level 100, right associativity).

(** ** The storage layer: class [MemStorage] of [server/storage.ts] *)

Module MemStorage.

Record t : Type := mk {
  users : JsMap.t obj;
  companyProfiles : JsMap.t obj;
  creatorProfiles : JsMap.t obj;
  campaigns : JsMap.t obj;
  ads : JsMap.t obj;
  videos : JsMap.t obj;
  videoAds : JsMap.t obj;
  userId : Z;
  companyProfileId : Z;
  creatorProfileId : Z;
  campaignId : Z;
  adId : Z;
  videoId : Z;
  videoAdId : Z
}.

(** The constructor. *)
Definition new : t :=
  mk JsMap.empty JsMap.empty JsMap.empty JsMap.empty JsMap.empty
     JsMap.empty JsMap.empty 1 1 1 1 1 1 1.

(** Field assignments [this.f = ...]. *)
Definition with_users (m : JsMap.t obj) (n : Z) (s : t) : t :=
  mk m (companyProfiles s) (creatorProfiles s) (campaigns s) (ads s)
     (videos s) (videoAds s) n (companyProfileId s) (creatorProfileId s)
     (campaignId s) (adId s) (videoId s) (videoAdId s).

Definition with_companyProfiles (m : JsMap.t obj) (n : Z) (s : t) : t :=
  mk (users s) m (creatorProfiles s) (campaigns s) (ads s)
     (videos s) (videoAds s) (userId s) n (creatorProfileId s)
     (campaignId s) (adId s) (videoId s) (videoAdId s).

Definition with_creatorProfiles (m : JsMap.t obj) (n : Z) (s : t) : t :=
  mk (users s) (companyProfiles s) m (campaigns s) (ads s)
     (videos s) (videoAds s) (userId s) (companyProfileId s) n
     (campaignId s) (adId s) (videoId s) (videoAdId s).

Definition with_campaigns (m : JsMap.t obj) (n : Z) (s : t) : t :=
  mk (users s) (companyProfiles s) (creatorProfiles s) m (ads s)
     (videos s) (videoAds s) (userId s) (companyProfileId s)
     (creatorProfileId s) n (adId s) (videoId s) (videoAdId s).

Definition with_ads (m : JsMap.t obj) (n : Z) (s : t) : t :=
  mk (users s) (companyProfiles s) (creatorProfiles s) (campaigns s) m
     (videos s) (videoAds s) (userId s) (companyProfileId s)
     (creatorProfileId s) (campaignId s) n (videoId s) (videoAdId s).

Definition with_videos (m : JsMap.t obj) (n : Z) (s : t) : t :=
  mk (users s) (companyProfiles s) (creatorProfiles s) (campaigns s)
     (ads s) m (videoAds s) (userId s) (companyProfileId s)
     (creatorProfileId s) (campaignId s) (adId s) n (videoAdId s).

Definition with_videoAds (m : JsMap.t obj) (n : Z) (s : t) : t :=
  mk (users s) (companyProfiles s) (creatorProfiles s) (campaigns s)
     (ads s) (videos s) m (userId s) (companyProfileId s)
     (creatorProfileId s) (campaignId s) (adId s) (videoId s) n.

(** [map.get(id)], [map.set(id, v)] and [map.delete(id)] for an [id] of
    type [number]: the keys of every map are the integers handed out by
    the counters, so [NaN] is never a key. *)
Definition map_get (id : value) (m : JsMap.t obj) : option obj :=
  match id with VNum n => JsMap.get n m | _ => None end.

Definition map_set (id : value) (v : obj) (m : JsMap.t obj) : JsMap.t obj :=
  match id with VNum n => JsMap.set n v m | _ => m end.

Definition map_delete (id : value) (m : JsMap.t obj) : JsMap.t obj :=
  match id with VNum n => JsMap.delete n m | _ => m end.

(** [Array.prototype.find] with a callback that may throw. *)
Fixpoint find (p : obj -> outcome bool) (l : list obj)
  : outcome (option obj) :=
  match l with
  | [] => Ret None
  | x :: l' =>
      match p x with
      | Throw e => Throw e
      | Ret true => Ret (Some x)
      | Ret false => find p l'
      end
  end.

Section Methods.
Context `{Runtime}.

(** [a.toLowerCase() === b.toLowerCase()], left operand first; calling
    [toLowerCase] on anything but a string is a TypeError. *)
Definition same_lowercase (a b : value) : outcome bool :=
  match a with
  | VStr x =>
      match b with
      | VStr y => Ret (String.eqb (toLowerCase x) (toLowerCase y))
      | _ => Throw (TypeError "toLowerCase")
      end
  | _ => Throw (TypeError "toLowerCase")
  end.

(* User methods *)

Definition getUser (id : value) : St t (option obj) :=
  fun s => (Ret (map_get id (users s)), s).

Definition getUserByUsername (username : value) : St t (option obj) :=
  fun s =>
    (find (fun user => same_lowercase (field user "username") username)
          (JsMap.values (users s)), s).

Definition getUserByEmail (email : value) : St t (option obj) :=
  fun s =>
    (find (fun user => same_lowercase (field user "email") email)
          (JsMap.values (users s)), s).

Definition createUser (user : obj) (now : Z) : St t obj :=
  fun s =>
    let id := userId s in
    let newUser :=
      <["createdAt" := VDate now]> (<["id" := VNum id]> user) in
    (Ret newUser, with_users (JsMap.set id newUser (users s)) (id + 1) s).

(* Profile methods *)

Definition createCompanyProfile (profile : obj) : St t obj :=
  fun s =>
    let id := companyProfileId s in
    let newProfile := <["id" := VNum id]> profile in
    (Ret newProfile,
     with_companyProfiles
       (JsMap.set id newProfile (companyProfiles s)) (id + 1) s).

Definition createCreatorProfile (profile : obj) : St t obj :=
  fun s =>
    let id := creatorProfileId s in
    let newProfile := <["id" := VNum id]> profile in
    (Ret newProfile,
     with_creatorProfiles
       (JsMap.set id newProfile (creatorProfiles s)) (id + 1) s).

(* Campaign methods *)

Definition getCampaign (id : value) : St t (option obj) :=
  fun s => (Ret (map_get id (campaigns s)), s).

Definition createCampaign (campaign : obj) (now : Z) : St t obj :=
  fun s =>
    let id := campaignId s in
    let newCampaign :=
      <["createdAt" := VDate now]> (<["id" := VNum id]> campaign) in
    (Ret newCampaign,
     with_campaigns (JsMap.set id newCampaign (campaigns s)) (id + 1) s).

Definition updateCampaign (id : value) (campaignData : value)
  : St t obj :=
  fun s =>
    match map_get id (campaigns s) with
    | None => (Throw (NotFound "Campaign" id), s)
    | Some campaign =>
        let updatedCampaign := merge campaign (spread campaignData) in
        (Ret updatedCampaign,
         with_campaigns (map_set id updatedCampaign (campaigns s))
                        (campaignId s) s)
    end.

Definition deleteCampaign (id : value) : St t unit :=
  fun s =>
    match map_get id (campaigns s) with
    | None => (Throw (NotFound "Campaign" id), s)
    | Some _ =>
        (Ret tt,
         with_campaigns (map_delete id (campaigns s)) (campaignId s) s)
    end.

(* Ad methods *)

Definition getAd (id : value) : St t (option obj) :=
  fun s => (Ret (map_get id (ads s)), s).

Definition createAd (ad : obj) (now : Z) : St t obj :=
  fun s =>
    let id := adId s in
    let newAd := <["createdAt" := VDate now]> (<["id" := VNum id]> ad) in
    (Ret newAd, with_ads (JsMap.set id newAd (ads s)) (id + 1) s).

Definition updateAd (id : value) (adData : value) : St t obj :=
  fun s =>
    match map_get id (ads s) with
    | None => (Throw (NotFound "Ad" id), s)
    | Some ad =>
        let updatedAd := merge ad (spread adData) in
        (Ret updatedAd,
         with_ads (map_set id updatedAd (ads s)) (adId s) s)
    end.

Definition deleteAd (id : value) : St t unit :=
  fun s =>
    match map_get id (ads s) with
    | None => (Throw (NotFound "Ad" id), s)
    | Some _ => (Ret tt, with_ads (map_delete id (ads s)) (adId s) s)
    end.

(* Video methods *)

Definition getVideo (id : value) : St t (option obj) :=
  fun s => (Ret (map_get id (videos s)), s).

Definition createVideo (video : obj) (now : Z) : St t obj :=
  fun s =>
    let id := videoId s in
    let newVideo :=
      <["duration" := VUndefined]>
        (<["processedFilePath" := VUndefined]>
           (<["thumbnailPath" := VUndefined]>
              (<["views" := VNum 0]>
                 (<["createdAt" := VDate now]>
                    (<["id" := VNum id]> video))))) in
    (Ret newVideo,
     with_videos (JsMap.set id newVideo (videos s)) (id + 1) s).

Definition updateVideo (id : value) (videoData : value) : St t obj :=
  fun s =>
    match map_get id (videos s) with
    | None => (Throw (NotFound "Video" id), s)
    | Some video =>
        let updatedVideo := merge video (spread videoData) in
        (Ret updatedVideo,
         with_videos (map_set id updatedVideo (videos s)) (videoId s) s)
    end.

Definition deleteVideo (id : value) : St t unit :=
  fun s =>
    match map_get id (videos s) with
    | None => (Throw (NotFound "Video" id), s)
    | Some _ =>
        (Ret tt, with_videos (map_delete id (videos s)) (videoId s) s)
    end.

(* The remaining methods of the class *)

Definition updateUser (id : value) (userData : value) : St t obj :=
  fun s =>
    match map_get id (users s) with
    | None => (Throw (NotFound "User" id), s)
    | Some user =>
        let updatedUser := merge user (spread userData) in
        (Ret updatedUser,
         with_users (map_set id updatedUser (users s)) (userId s) s)
    end.

Definition deleteUser (id : value) : St t unit :=
  fun s =>
    match map_get id (users s) with
    | None => (Throw (NotFound "User" id), s)
    | Some _ => (Ret tt, with_users (map_delete id (users s)) (userId s) s)
    end.

Definition getCompanyProfile (id : value) : St t (option obj) :=
  fun s => (Ret (map_get id (companyProfiles s)), s).

Definition getCompanyProfileByUserId (userId : value)
  : St t (option obj) :=
  fun s =>
    (Ret (List.find (fun profile => strict_eq (field profile "userId") userId)
                    (JsMap.values (companyProfiles s))), s).

Definition updateCompanyProfile (id : value) (profileData : value)
  : St t obj :=
  fun s =>
    match map_get id (companyProfiles s) with
    | None => (Throw (NotFound "Company profile" id), s)
    | Some profile =>
        let updatedProfile := merge profile (spread profileData) in
        (Ret updatedProfile,
         with_companyProfiles
           (map_set id updatedProfile (companyProfiles s))
           (companyProfileId s) s)
    end.

Definition deleteCompanyProfile (id : value) : St t unit :=
  fun s =>
    match map_get id (companyProfiles s) with
    | None => (Throw (NotFound "Company profile" id), s)
    | Some _ =>
        (Ret tt,
         with_companyProfiles (map_delete id (companyProfiles s))
                              (companyProfileId s) s)
    end.

Definition getCreatorProfile (id : value) : St t (option obj) :=
  fun s => (Ret (map_get id (creatorProfiles s)), s).

Definition getCreatorProfileByUserId (userId : value)
  : St t (option obj) :=
  fun s =>
    (Ret (List.find (fun profile => strict_eq (field profile "userId") userId)
                    (JsMap.values (creatorProfiles s))), s).

Definition updateCreatorProfile (id : value) (profileData : value)
  : St t obj :=
  fun s =>
    match map_get id (creatorProfiles s) with
    | None => (Throw (NotFound "Creator profile" id), s)
    | Some profile =>
        let updatedProfile := merge profile (spread profileData) in
        (Ret updatedProfile,
         with_creatorProfiles
           (map_set id updatedProfile (creatorProfiles s))
           (creatorProfileId s) s)
    end.

Definition deleteCreatorProfile (id : value) : St t unit :=
  fun s =>
    match map_get id (creatorProfiles s) with
    | None => (Throw (NotFound "Creator profile" id), s)
    | Some _ =>
        (Ret tt,
         with_creatorProfiles (map_delete id (creatorProfiles s))
                              (creatorProfileId s) s)
    end.

Definition getCampaignsByUserId (userId : value) : St t (list obj) :=
  fun s =>
    (Ret (List.filter
            (fun campaign => strict_eq (field campaign "userId") userId)
            (JsMap.values (campaigns s))), s).

Definition getAdsByUserId (userId : value) : St t (list obj) :=
  fun s =>
    (Ret (List.filter (fun ad => strict_eq (field ad "userId") userId)
                      (JsMap.values (ads s))), s).

Definition getAdsByCampaignId (campaignId : value) : St t (list obj) :=
  fun s =>
    (Ret (List.filter
            (fun ad => strict_eq (field ad "campaignId") campaignId)
            (JsMap.values (ads s))), s).

Definition getVideosByUserId (userId : value) : St t (list obj) :=
  fun s =>
    (Ret (List.filter (fun video => strict_eq (field video "userId") userId)
                      (JsMap.values (videos s))), s).

Definition getVideoAd (id : value) : St t (option obj) :=
  fun s => (Ret (map_get id (videoAds s)), s).

Definition getVideoAdsByVideoId (videoId : value) : St t (list obj) :=
  fun s =>
    (Ret (List.filter
            (fun videoAd => strict_eq (field videoAd "videoId") videoId)
            (JsMap.values (videoAds s))), s).

Definition getVideoAdsByAdId (adId : value) : St t (list obj) :=
  fun s =>
    (Ret (List.filter (fun videoAd => strict_eq (field videoAd "adId") adId)
                      (JsMap.values (videoAds s))), s).

Definition createVideoAd (videoAd : obj) (now : Z) : St t obj :=
  fun s =>
    let id := videoAdId s in
    let newVideoAd :=
      <["createdAt" := VDate now]> (<["id" := VNum id]> videoAd) in
    (Ret newVideoAd,
     with_videoAds (JsMap.set id newVideoAd (videoAds s)) (id + 1) s).

Definition updateVideoAd (id : value) (videoAdData : value) : St t obj :=
  fun s =>
    match map_get id (videoAds s) with
    | None => (Throw (NotFound "VideoAd" id), s)
    | Some videoAd =>
        let updatedVideoAd := merge videoAd (spread videoAdData) in
        (Ret updatedVideoAd,
         with_videoAds (map_set id updatedVideoAd (videoAds s))
                       (videoAdId s) s)
    end.

Definition deleteVideoAd (id : value) : St t unit :=
  fun s =>
    match map_get id (videoAds s) with
    | None => (Throw (NotFound "VideoAd" id), s)
    | Some _ =>
        (Ret tt,
         with_videoAds (map_delete id (videoAds s)) (videoAdId s) s)
    end.

End Methods.

End MemStorage.

(** ** The world of the server, requests and responses *)

(** A pending [setTimeout] of the upload handler: when it was set, its
    delay in milliseconds, and what its callback captured ([video.id] and
    [req.file.path]). *)
Record Timer : Type := {
  set_at : Z;
  delay : Z;
  timer_video : value;
  timer_path : string
}.

(** What the handlers act on: the [storage] singleton, the files on
    disk, the timers set and not yet fired, the lines written with
    [console.error], and the arguments of the [fs.unlink] calls made so
    far. *)
Record World : Type := {
  storage : MemStorage.t;
  disk : gset string;
  timers : list Timer;
  console : list string;
  unlinked : list value
}.

Definition initial_world : World :=
  {| storage := MemStorage.new; disk := ∅; timers := [];
     console := []; unlinked := [] |}.

Definition with_storage (s : MemStorage.t) (w : World) : World :=
  {| storage := s; disk := disk w; timers := timers w;
     console := console w; unlinked := unlinked w |}.

Definition with_disk (d : gset string) (w : World) : World :=
  {| storage := storage w; disk := d; timers := timers w;
     console := console w; unlinked := unlinked w |}.

(** Calls of a storage method on the [storage] singleton. *)
Definition lift {A : Type} (c : St MemStorage.t A) : St World A :=
  fun w => let (r, s) := c (storage w) in (r, with_storage s w).

Definition console_error (msg : string) (w : World) : World :=
  {| storage := storage w; disk := disk w; timers := timers w;
     console := console w ++ [msg]; unlinked := unlinked w |}.

Definition setTimeout (tm : Timer) : St World unit :=
  fun w =>
    (Ret tt,
     {| storage := storage w; disk := disk w; timers := timers w ++ [tm];
        console := console w; unlinked := unlinked w |}).

(** [fs.unlink(p)]: the call is recorded in [unlinked]; it rejects when
    there is no such file (or when [p] is not a path at all). *)
Definition fs_unlink (p : value) : St World unit :=
  fun w =>
    let w' :=
      {| storage := storage w; disk := disk w; timers := timers w;
         console := console w; unlinked := unlinked w ++ [p] |} in
    match p with
    | VStr f =>
        if decide (f ∈ disk w) then (Ret tt, with_disk (disk w ∖ {[f]}) w')
        else (Throw (ENOENT f), w')
    | _ => (Throw (TypeError "path"), w')
    end.

(** [promise.catch(err => { console.error(msg, err) })]. *)
Definition catch_log (c : St World unit) (msg : string)
  : St World unit :=
  fun w =>
    match c w with
    | (Ret _, w') => (Ret tt, w')
    | (Throw _, w') => (Ret tt, console_error msg w')
    end.

Record Session : Type := {
  sess_userId : value;
  sess_userType : value
}.

(** The file part of a multipart request as multer sees it. *)
Record FilePart : Type := {
  fieldname : string;
  originalname : string;
  mimetype : string;
  size : Z
}.

(** A request together with what the handler reads from its environment:
    the clock ([Date.now()], [new Date()]), [Math.round(Math.random() *
    1E9)] for the file name, and the randomness of the password salt. *)
Record Request : Type := {
  session : option Session;
  param_id : string;
  body : value;
  file_part : option FilePart;
  now : Z;
  random9 : Z;
  salt : string
}.

(** What was sent: a JSON value, or the error report that
    [validateRequest] builds from zod's issues. *)
Inductive Content : Type :=
  | Json (v : value)
  | ZodErrors.

Record Response : Type := {
  status : Z;
  content : Content
}.

Definition json (code : Z) (v : value) : Response :=
  {| status := code; content := Json v |}.

(** An object literal. *)
Definition object (l : list (string * value)) : obj := list_to_map l.

Definition message (m : string) : value :=
  VObj (object [("message", VStr m)]).

(** [v.k] for the request body.  Where a handler reads a property of
    [req.body] the body is an object: the zod schemas accept nothing else
    and multer sets [req.body] to an object before the upload handlers
    run. *)
Definition prop (v : value) (k : string) : value :=
  match v with
  | VObj o => field o k
  | _ => VUndefined
  end.

(** [!req.session || !req.session.userId]. *)
Definition not_authenticated (req : Request) : bool :=
  match session req with
  | None => true
  | Some s => negb (truthy (sess_userId s))
  end.

(** [req.session.userId]. *)
Definition session_userId (req : Request) : value :=
  match session req with
  | Some s => sess_userId s
  | None => VUndefined
  end.

(** ** The route layer: [server/routes.ts] *)

Section Routes.
Context `{Runtime}.

Import MemStorage.

(** *** File uploads: the multer instance [upload] *)

(** [req.file] once multer has stored the part. *)
Record File : Type := {
  part : FilePart;
  path : string
}.

Inductive Multer : Type :=
  | Accepted (file : option File)
  | Rejected (err : string).

Definition destination (file : FilePart) : string :=
  let type :=
    if String.eqb (fieldname file) "adVideo" then "ads" else "videos" in
  path_join [dirname; ".."; "uploads"; type].

Definition filename (req : Request) (file : FilePart) : string :=
  let uniqueSuffix := pretty (now req) +:+ "-" +:+ pretty (random9 req) in
  let ext := path_extname (originalname file) in
  fieldname file +:+ "-" +:+ uniqueSuffix +:+ ext.

(** [limits.fileSize]: 2GB limit for videos. *)
Definition fileSize : Z := 2 * 1024 * 1024 * 1024.

(** Accept only video files. *)
Definition fileFilter (file : FilePart) : bool :=
  String.prefix "video/" (mimetype file).

(** [upload.single(name)].  A part under another field name, a part the
    filter refuses and a part longer than [fileSize] are passed to
    [next] as an error and the handler is not run; otherwise the file is
    written under [destination] and the handler sees it as [req.file].
    A request without a file part goes through with [req.file]
    undefined. *)
Definition upload_single (name : string) (req : Request)
  : World -> Multer * World :=
  fun w =>
    match file_part req with
    | None => (Accepted None, w)
    | Some f =>
        if negb (String.eqb (fieldname f) name) then
          (Rejected "Unexpected field", w)
        else if negb (fileFilter f) then
          (Rejected "Only video files are allowed", w)
        else if fileSize <? size f then
          (Rejected "File too large", w)
        else
          let p := path_join [destination f; filename req f] in
          (Accepted (Some {| part := f; path := p |}),
           with_disk (disk w ∪ {[p]}) w)
    end.

(** *** Auth routes *)

Definition is_string (v : value) : bool :=
  match v with VStr _ => true | _ => false end.

(** [registerUserSchema]: the five picked columns of [users] are
    required strings, [confirmPassword] is a string and equals
    [password]; unknown keys are not an error. *)
Definition registerUserSchema (b : value) : bool :=
  match b with
  | VObj o =>
      is_string (field o "email") && is_string (field o "username")
      && is_string (field o "password") && is_string (field o "fullName")
      && is_string (field o "userType")
      && is_string (field o "confirmPassword")
      && strict_eq (field o "password") (field o "confirmPassword")
  | _ => false
  end.

Definition loginUserSchema (b : value) : bool :=
  match b with
  | VObj o =>
      match field o "email" with VStr e => z_email e | _ => false end
      && is_string (field o "password")
  | _ => false
  end.

(** [validateRequest({ body: schema })]: answers 400 itself when the
    body does not parse and leaves [req.body] as it came otherwise. *)
Definition validateRequest (schema : value -> bool)
    (handler : Request -> World -> Response * World)
    (req : Request) : World -> Response * World :=
  fun w =>
    if schema (body req) then handler req w
    else ({| status := 400; content := ZodErrors |}, w).

(** [bcrypt.hash(s, rounds)]. *)
Definition hash (s : value) (rounds : Z) (salt : string)
  : St World value :=
  match s with
  | VStr p => ret (VStr (bcrypt_hash p rounds salt))
  | _ => throw IllegalArguments
  end.

(** [bcrypt.compare(s, hash)]. *)
Definition compare (s h : value) : St World bool :=
  match s, h with
  | VStr p, VStr x => ret (bcrypt_compare p x)
  | _, _ => throw IllegalArguments
  end.

(** The five public fields of a user. *)
Definition public_user (user : obj) : value :=
  VObj (object [("id", field user "id");
                ("email", field user "email");
                ("username", field user "username");
                ("fullName", field user "fullName");
                ("userType", field user "userType")]).

Definition register_handler (req : Request) : World -> Response * World :=
  try_catch
    (existingUserByEmail <-
       lift (getUserByEmail (prop (body req) "email")) ;;
     match existingUserByEmail with
     | Some _ => ret (json 400 (message "Email already in use"))
     | None =>
         existingUserByUsername <-
           lift (getUserByUsername (prop (body req) "username")) ;;
         match existingUserByUsername with
         | Some _ => ret (json 400 (message "Username already taken"))
         | None =>
             hashedPassword <-
               hash (prop (body req) "password") 10 (salt req) ;;
             newUser <-
               lift (createUser
                       (<["password" := hashedPassword]>
                          (spread (body req)))
                       (now req)) ;;
             (if strict_eq (prop (body req) "userType") (VStr "company")
              then
                lift (createCompanyProfile
                        (object
                           [("userId", field newUser "id");
                            ("companyName", prop (body req) "fullName");
                            ("industry", VStr "");
                            ("website", VStr "");
                            ("description", VStr "")]))
              else
                lift (createCreatorProfile
                        (object
                           [("userId", field newUser "id");
                            ("bio", VStr "");
                            ("niche", VStr "");
                            ("youtubeChannel", VStr "")]))) ;;;
             ret (json 201 (public_user newUser))
         end
     end)
    (fun _ w =>
       (json 500 (message "Failed to register user"),
        console_error "Registration error:" w)).

Definition register : Request -> World -> Response * World :=
  validateRequest registerUserSchema register_handler.

(** The handler in the two stretches in which it runs.  [await
    bcrypt.hash] hands control back to the event loop, and other
    requests are served before the handler goes on: [register_checks] is
    the handler up to that point, with [Some r] when it has answered [r]
    and [None] when it goes on to hash the password, and
    [register_creates] is the rest.  Both stretches are inside the one
    [try]. *)
Definition register_checks (req : Request)
  : World -> option Response * World :=
  try_catch
    (existingUserByEmail <-
       lift (getUserByEmail (prop (body req) "email")) ;;
     match existingUserByEmail with
     | Some _ => ret (Some (json 400 (message "Email already in use")))
     | None =>
         existingUserByUsername <-
           lift (getUserByUsername (prop (body req) "username")) ;;
         match existingUserByUsername with
         | Some _ =>
             ret (Some (json 400 (message "Username already taken")))
         | None => ret None
         end
     end)
    (fun _ w =>
       (Some (json 500 (message "Failed to register user")),
        console_error "Registration error:" w)).

Definition register_creates (req : Request) : World -> Response * World :=
  try_catch
    (hashedPassword <- hash (prop (body req) "password") 10 (salt req) ;;
     newUser <-
       lift (createUser
               (<["password" := hashedPassword]> (spread (body req)))
               (now req)) ;;
     (if strict_eq (prop (body req) "userType") (VStr "company")
      then
        lift (createCompanyProfile
                (object
                   [("userId", field newUser "id");
                    ("companyName", prop (body req) "fullName");
                    ("industry", VStr "");
                    ("website", VStr "");
                    ("description", VStr "")]))
      else
        lift (createCreatorProfile
                (object
                   [("userId", field newUser "id");
                    ("bio", VStr "");
                    ("niche", VStr "");
                    ("youtubeChannel", VStr "")]))) ;;;
     ret (json 201 (public_user newUser)))
    (fun _ w =>
       (json 500 (message "Failed to register user"),
        console_error "Registration error:" w)).

(** The login handler also writes the session; the session after the
    request is part of its result. *)
Definition login_handler (req : Request)
  : World -> (Response * option Session) * World :=
  try_catch
    (let email := prop (body req) "email" in
     let password := prop (body req) "password" in
     user <- lift (getUserByEmail email) ;;
     match user with
     | None =>
         ret (json 401 (message "Invalid credentials"), session req)
     | Some user =>
         passwordValid <- compare password (field user "password") ;;
         if negb passwordValid then
           ret (json 401 (message "Invalid credentials"), session req)
         else
           let session' :=
             match session req with
             | Some _ =>
                 Some {| sess_userId := field user "id";
                         sess_userType := field user "userType" |}
             | None => None
             end in
           ret (json 200 (public_user user), session')
     end)
    (fun _ w =>
       ((json 500 (message "Failed to login"), session req),
        console_error "Login error:" w)).

Definition login (req : Request)
  : World -> (Response * option Session) * World :=
  fun w =>
    if loginUserSchema (body req) then login_handler req w
    else (({| status := 400; content := ZodErrors |}, session req), w).

(** *** Campaign routes *)

(** [req.params.id] is a string. *)
Definition id_of (req : Request) : value := parseInt (VStr (param_id req)).

Definition get_campaign (req : Request) : World -> Response * World :=
  fun w =>
    if not_authenticated req then
      (json 401 (message "Not authenticated"), w)
    else
      try_catch
        (let campaignId := id_of req in
         campaign <- lift (getCampaign campaignId) ;;
         match campaign with
         | None => ret (json 404 (message "Campaign not found"))
         | Some campaign =>
             if negb (strict_eq (field campaign "userId")
                                (session_userId req)) then
               ret (json 403
                      (message "Not authorized to access this campaign"))
             else ret (json 200 (VObj campaign))
         end)
        (fun _ w' =>
           (json 500 (message "Failed to retrieve campaign"),
            console_error "Get campaign error:" w')) w.

Definition patch_campaign (req : Request) : World -> Response * World :=
  fun w =>
    if not_authenticated req then
      (json 401 (message "Not authenticated"), w)
    else
      try_catch
        (let campaignId := id_of req in
         campaign <- lift (getCampaign campaignId) ;;
         match campaign with
         | None => ret (json 404 (message "Campaign not found"))
         | Some campaign =>
             if negb (strict_eq (field campaign "userId")
                                (session_userId req)) then
               ret (json 403
                      (message "Not authorized to update this campaign"))
             else
               updatedCampaign <-
                 lift (updateCampaign campaignId (body req)) ;;
               ret (json 200 (VObj updatedCampaign))
         end)
        (fun _ w' =>
           (json 500 (message "Failed to update campaign"),
            console_error "Update campaign error:" w')) w.

Definition delete_campaign (req : Request) : World -> Response * World :=
  fun w =>
    if not_authenticated req then
      (json 401 (message "Not authenticated"), w)
    else
      try_catch
        (let campaignId := id_of req in
         campaign <- lift (getCampaign campaignId) ;;
         match campaign with
         | None => ret (json 404 (message "Campaign not found"))
         | Some campaign =>
             if negb (strict_eq (field campaign "userId")
                                (session_userId req)) then
               ret (json 403
                      (message "Not authorized to delete this campaign"))
             else
               lift (deleteCampaign campaignId) ;;;
               ret (json 200 (message "Campaign deleted successfully"))
         end)
        (fun _ w' =>
           (json 500 (message "Failed to delete campaign"),
            console_error "Delete campaign error:" w')) w.

(** *** Ad routes *)

(** The upload handler, run behind [upload.single('file')]. *)
Definition ads_upload_handler (file : option File) (req : Request)
  : World -> Response * World :=
  fun w =>
    if not_authenticated req then
      (json 401 (message "Not authenticated"), w)
    else
      match file with
      | None => (json 400 (message "No file uploaded"), w)
      | Some file =>
          try_catch
            (let title := prop (body req) "title" in
             let description := prop (body req) "description" in
             let campaignId := prop (body req) "campaignId" in
             ad <-
               lift (createAd
                       (object
                          [("userId", session_userId req);
                           ("campaignId",
                            if truthy campaignId then parseInt campaignId
                            else VUndefined);
                           ("title", title);
                           ("description", description);
                           ("filePath", VStr (path file));
                           ("duration", VNum 30);
                           ("status", VStr "pending")])
                       (now req)) ;;
             ret (json 201 (VObj ad)))
            (fun _ w' =>
               (json 500 (message "Failed to upload ad"),
                console_error "Upload ad error:" w')) w
      end.

(** What a route behind multer ends in: a response of the handler, or an
    error handed to [next] (answered outside [routes.ts]). *)
Inductive Reply : Type :=
  | Sent (r : Response)
  | NextError (err : string).

Definition ads_upload (req : Request) : World -> Reply * World :=
  fun w =>
    match upload_single "file" req w with
    | (Rejected err, w') => (NextError err, w')
    | (Accepted file, w') =>
        let (r, w'') := ads_upload_handler file req w' in (Sent r, w'')
    end.

Definition get_ad (req : Request) : World -> Response * World :=
  fun w =>
    if not_authenticated req then
      (json 401 (message "Not authenticated"), w)
    else
      try_catch
        (let adId := id_of req in
         ad <- lift (getAd adId) ;;
         match ad with
         | None => ret (json 404 (message "Ad not found"))
         | Some ad =>
             if negb (strict_eq (field ad "userId") (session_userId req))
             then ret (json 403 (message "Not authorized to access this ad"))
             else ret (json 200 (VObj ad))
         end)
        (fun _ w' =>
           (json 500 (message "Failed to retrieve ad"),
            console_error "Get ad error:" w')) w.

Definition patch_ad (req : Request) : World -> Response * World :=
  fun w =>
    if not_authenticated req then
      (json 401 (message "Not authenticated"), w)
    else
      try_catch
        (let adId := id_of req in
         ad <- lift (getAd adId) ;;
         match ad with
         | None => ret (json 404 (message "Ad not found"))
         | Some ad =>
             if negb (strict_eq (field ad "userId") (session_userId req))
             then ret (json 403 (message "Not authorized to update this ad"))
             else
               updatedAd <- lift (updateAd adId (body req)) ;;
               ret (json 200 (VObj updatedAd))
         end)
        (fun _ w' =>
           (json 500 (message "Failed to update ad"),
            console_error "Update ad error:" w')) w.

Definition delete_ad (req : Request) : World -> Response * World :=
  fun w =>
    if not_authenticated req then
      (json 401 (message "Not authenticated"), w)
    else
      try_catch
        (let adId := id_of req in
         ad <- lift (getAd adId) ;;
         match ad with
         | None => ret (json 404 (message "Ad not found"))
         | Some ad =>
             if negb (strict_eq (field ad "userId") (session_userId req))
             then ret (json 403 (message "Not authorized to delete this ad"))
             else
               (* Delete file *)
               (if truthy (field ad "filePath") then
                  catch_log (fs_unlink (field ad "filePath"))
                            "Failed to delete ad file:"
                else ret tt) ;;;
               lift (deleteAd adId) ;;;
               ret (json 200 (message "Ad deleted successfully"))
         end)
        (fun _ w' =>
           (json 500 (message "Failed to delete ad"),
            console_error "Delete ad error:" w')) w.

(** *** Video routes *)

(** The object the timer callback passes to [updateVideo]; [rnd] is
    [Math.floor(Math.random() * 600)]. *)
Definition processed_info (file_path : string) (rnd : Z) : value :=
  VObj (object [("status", VStr "ready");
                ("processedFilePath", VStr (file_path +:+ "-processed"));
                ("thumbnailPath", VStr (file_path +:+ "-thumbnail"));
                ("duration", VNum (rnd + 60))]).

(** The callback given to [setTimeout]. *)
Definition processing_done (tm : Timer) (rnd : Z) : World -> World :=
  fun w =>
    snd (try_catch
           (lift (updateVideo (timer_video tm)
                              (processed_info (timer_path tm) rnd)) ;;;
            ret tt)
           (fun _ w' =>
              (tt, console_error "Error updating processed video:" w')) w).

Definition videos_upload_handler (file : option File) (req : Request)
  : World -> Response * World :=
  fun w =>
    if not_authenticated req then
      (json 401 (message "Not authenticated"), w)
    else
      match file with
      | None => (json 400 (message "No file uploaded"), w)
      | Some file =>
          try_catch
            (let title := prop (body req) "title" in
             let description := prop (body req) "description" in
             let category := prop (body req) "category" in
             let adPlacement := prop (body req) "adPlacement" in
             let adPreferences := prop (body req) "adPreferences" in
             parsed <-
               (if truthy adPreferences then
                  match JSON_parse adPreferences with
                  | Some v => ret v
                  | None => throw SyntaxError
                  end
                else ret (VObj ∅)) ;;
             video <-
               lift (createVideo
                       (object
                          [("userId", session_userId req);
                           ("title", title);
                           ("description", description);
                           ("category", category);
                           ("rawFilePath", VStr (path file));
                           ("status", VStr "processing");
                           ("adPlacement", adPlacement);
                           ("adPreferences", parsed)])
                       (now req)) ;;
             setTimeout {| set_at := now req; delay := 10000;
                           timer_video := field video "id";
                           timer_path := path file |} ;;;
             ret (json 201 (VObj video)))
            (fun _ w' =>
               (json 500 (message "Failed to upload video"),
                console_error "Upload video error:" w')) w
      end.

Definition videos_upload (req : Request) : World -> Reply * World :=
  fun w =>
    match upload_single "file" req w with
    | (Rejected err, w') => (NextError err, w')
    | (Accepted file, w') =>
        let (r, w'') := videos_upload_handler file req w' in (Sent r, w'')
    end.

Definition get_video (req : Request) : World -> Response * World :=
  fun w =>
    if not_authenticated req then
      (json 401 (message "Not authenticated"), w)
    else
      try_catch
        (let videoId := id_of req in
         video <- lift (getVideo videoId) ;;
         match video with
         | None => ret (json 404 (message "Video not found"))
         | Some video =>
             if negb (strict_eq (field video "userId") (session_userId req))
             then
               ret (json 403 (message "Not authorized to access this video"))
             else ret (json 200 (VObj video))
         end)
        (fun _ w' =>
           (json 500 (message "Failed to retrieve video"),
            console_error "Get video error:" w')) w.

Definition download_video (req : Request) : World -> Response * World :=
  fun w =>
    if not_authenticated req then
      (json 401 (message "Not authenticated"), w)
    else
      try_catch
        (let videoId := id_of req in
         video <- lift (getVideo videoId) ;;
         match video with
         | None => ret (json 404 (message "Video not found"))
         | Some video =>
             if negb (strict_eq (field video "userId") (session_userId req))
             then
               ret (json 403
                      (message "Not authorized to download this video"))
             else if negb (strict_eq (field video "status") (VStr "ready"))
                     && negb (strict_eq (field video "status")
                                        (VStr "published"))
             then
               ret (json 400 (message "Video is not ready for download"))
             else
               ret (json 200
                      (VObj (object
                               [("message", VStr "Download started");
                                ("url",
                                 js_or (field video "processedFilePath")
                                       (field video "rawFilePath"))])))
         end)
        (fun _ w' =>
           (json 500 (message "Failed to download video"),
            console_error "Download video error:" w')) w.

Definition patch_video (req : Request) : World -> Response * World :=
  fun w =>
    if not_authenticated req then
      (json 401 (message "Not authenticated"), w)
    else
      try_catch
        (let videoId := id_of req in
         video <- lift (getVideo videoId) ;;
         match video with
         | None => ret (json 404 (message "Video not found"))
         | Some video =>
             if negb (strict_eq (field video "userId") (session_userId req))
             then
               ret (json 403 (message "Not authorized to update this video"))
             else
               updatedVideo <- lift (updateVideo videoId (body req)) ;;
               ret (json 200 (VObj updatedVideo))
         end)
        (fun _ w' =>
           (json 500 (message "Failed to update video"),
            console_error "Update video error:" w')) w.

Definition delete_video (req : Request) : World -> Response * World :=
  fun w =>
    if not_authenticated req then
      (json 401 (message "Not authenticated"), w)
    else
      try_catch
        (let videoId := id_of req in
         video <- lift (getVideo videoId) ;;
         match video with
         | None => ret (json 404 (message "Video not found"))
         | Some video =>
             if negb (strict_eq (field video "userId") (session_userId req))
             then
               ret (json 403 (message "Not authorized to delete this video"))
             else
               (* Delete files *)
               (if truthy (field video "rawFilePath") then
                  catch_log (fs_unlink (field video "rawFilePath"))
                            "Failed to delete raw video file:"
                else ret tt) ;;;
               (if truthy (field video "processedFilePath") then
                  catch_log (fs_unlink (field video "processedFilePath"))
                            "Failed to delete processed video file:"
                else ret tt) ;;;
               (if truthy (field video "thumbnailPath") then
                  catch_log (fs_unlink (field video "thumbnailPath"))
                            "Failed to delete thumbnail file:"
                else ret tt) ;;;
               lift (deleteVideo videoId) ;;;
               ret (json 200 (message "Video deleted successfully"))
         end)
        (fun _ w' =>
           (json 500 (message "Failed to delete video"),
            console_error "Delete video error:" w')) w.

(** *** The by-id routes as express registers them *)

Inductive Method : Type := GET | PATCH | DELETE.

Inductive Kind : Type := Campaigns | Ads | Videos.

Definition by_id (m : Method) (k : Kind)
  : Request -> World -> Response * World :=
  match m, k with
  | GET, Campaigns => get_campaign
  | PATCH, Campaigns => patch_campaign
  | DELETE, Campaigns => delete_campaign
  | GET, Ads => get_ad
  | PATCH, Ads => patch_ad
  | DELETE, Ads => delete_ad
  | GET, Videos => get_video
  | PATCH, Videos => patch_video
  | DELETE, Videos => delete_video
  end.

(** [storage.getCampaign], [getAd], [getVideo] on the current world. *)
Definition stored (k : Kind) (id : value) (w : World) : option obj :=
  match k with
  | Campaigns => map_get id (campaigns (storage w))
  | Ads => map_get id (ads (storage w))
  | Videos => map_get id (videos (storage w))
  end.

(** *** The event loop: timers that have come due

    [advance t draws w] runs, in the order they were set, the callbacks
    of the timers due at time [t]; the [n]-th callback run draws
    [draws n] for its duration. *)

Definition is_due (t : Z) (tm : Timer) : bool := set_at tm + delay tm <=? t.

Fixpoint fire_all (draws : nat -> Z) (n : nat) (due : list Timer)
    (w : World) : World :=
  match due with
  | [] => w
  | tm :: rest =>
      fire_all draws (S n) rest (processing_done tm (draws n) w)
  end.

Definition advance (t : Z) (draws : nat -> Z) (w : World) : World :=
  let w' := fire_all draws 0 (List.filter (is_due t) (timers w)) w in
  {| storage := storage w'; disk := disk w';
     timers := List.filter (fun tm => negb (is_due t tm)) (timers w);
     console := console w'; unlinked := unlinked w' |}.

(** *** The remaining auth routes *)

(** [req.session.userType]. *)
Definition session_userType (req : Request) : value :=
  match session req with
  | Some s => sess_userType s
  | None => VUndefined
  end.

(** POST /api/auth/logout.  [err] is what the session store hands to the
    callback of [req.session.destroy]; [destroy] removes [req.session]
    before it calls the store, so the session of the request is gone in
    every case.  (Clearing the cookie is not modelled.) *)
Definition logout (err : bool) (req : Request) : Response * option Session :=
  match session req with
  | Some _ =>
      if err then (json 500 (message "Failed to logout"), None)
      else (json 200 (message "Logged out successfully"), None)
  | None => (json 200 (message "No active session"), None)
  end.

(** GET /api/auth/me. *)
Definition me (req : Request) : World -> Response * World :=
  fun w =>
    if not_authenticated req then
      (json 401 (message "Not authenticated"), w)
    else
      try_catch
        (user <- lift (getUser (session_userId req)) ;;
         match user with
         | None => ret (json 404 (message "User not found"))
         | Some user => ret (json 200 (public_user user))
         end)
        (fun _ w' =>
           (json 500 (message "Failed to retrieve user"),
            console_error "Get user error:" w')) w.

(** GET /api/auth/status. *)
Definition auth_status (req : Request) : Response :=
  if negb (not_authenticated req) then
    json 200 (VObj (object [("isAuthenticated", VBool true);
                            ("userType", session_userType req)]))
  else json 401 (VObj (object [("isAuthenticated", VBool false)])).

(** *** List and create routes *)

(** The random numbers a handler draws: [floor_of k n] is
    [Math.floor(Math.random() * n)] and [fixed2_of k n] is
    [(Math.random() * n).toFixed(2)] at the handler's [k]-th call of
    [Math.random]. *)
Record Random : Type := {
  floor_of : nat -> Z -> Z;
  fixed2_of : nat -> Z -> string
}.

(** GET /api/campaigns: the user's campaigns, each with a random
    [views] and [performance]. *)
Definition list_campaigns (rnd : Random) (req : Request)
  : World -> Response * World :=
  fun w =>
    if not_authenticated req then
      (json 401 (message "Not authenticated"), w)
    else
      try_catch
        (campaigns <- lift (getCampaignsByUserId (session_userId req)) ;;
         let enhancedCampaigns :=
           imap (fun i campaign =>
                   <["performance" := VNum (floor_of rnd (2 * i + 1) 100)]>
                     (<["views" := VNum (floor_of rnd (2 * i) 10000)]>
                        campaign))
                campaigns in
         ret (json 200 (VArr (List.map VObj enhancedCampaigns))))
        (fun _ w' =>
           (json 500 (message "Failed to retrieve campaigns"),
            console_error "Get campaigns error:" w')) w.

(** POST /api/campaigns, behind [validateRequest]. *)
Definition create_campaign_handler (req : Request)
  : World -> Response * World :=
  fun w =>
    if not_authenticated req then
      (json 401 (message "Not authenticated"), w)
    else
      try_catch
        (campaign <-
           lift (createCampaign
                   (<["userId" := session_userId req]> (spread (body req)))
                   (now req)) ;;
         ret (json 201 (VObj campaign)))
        (fun _ w' =>
           (json 500 (message "Failed to create campaign"),
            console_error "Create campaign error:" w')) w.

(** [insertCampaignSchema]: the eight picked columns of [campaigns] as
    drizzle-zod turns them into zod.  An [integer] column takes a
    number, [text] and [numeric] columns take a string, a [timestamp]
    column takes a [Date]; [spent], which has a default, may be left
    out; [endDate] and [targetAudience], which may be null in the table,
    may be left out or null.  Unknown keys are not an error. *)
Definition is_date (v : value) : bool :=
  match v with VDate _ => true | _ => false end.

Definition is_integer (v : value) : bool :=
  match v with VNum n => z_integer n | _ => false end.

Definition optional (p : value -> bool) (v : value) : bool :=
  match v with VUndefined => true | _ => p v end.

Definition nullable (p : value -> bool) (v : value) : bool :=
  match v with VNull => true | _ => p v end.

Definition insertCampaignSchema (b : value) : bool :=
  match b with
  | VObj o =>
      is_integer (field o "userId") && is_string (field o "name")
      && is_string (field o "status") && is_string (field o "budget")
      && optional is_string (field o "spent")
      && is_date (field o "startDate")
      && optional (nullable is_date) (field o "endDate")
      && optional (nullable is_string) (field o "targetAudience")
  | _ => false
  end.

Definition create_campaign : Request -> World -> Response * World :=
  validateRequest insertCampaignSchema create_campaign_handler.

(** GET /api/ads. *)
Definition list_ads (req : Request) : World -> Response * World :=
  fun w =>
    if not_authenticated req then
      (json 401 (message "Not authenticated"), w)
    else
      try_catch
        (ads <- lift (getAdsByUserId (session_userId req)) ;;
         ret (json 200 (VArr (List.map VObj ads))))
        (fun _ w' =>
           (json 500 (message "Failed to retrieve ads"),
            console_error "Get ads error:" w')) w.

(** GET /api/videos. *)
Definition list_videos (req : Request) : World -> Response * World :=
  fun w =>
    if not_authenticated req then
      (json 401 (message "Not authenticated"), w)
    else
      try_catch
        (videos <- lift (getVideosByUserId (session_userId req)) ;;
         ret (json 200 (VArr (List.map VObj videos))))
        (fun _ w' =>
           (json 500 (message "Failed to retrieve videos"),
            console_error "Get videos error:" w')) w.

(** *** Analytics routes *)

(** GET /api/analytics/summary. *)
Definition analytics_summary (rnd : Random) (req : Request)
  : World -> Response * World :=
  fun w =>
    if not_authenticated req then
      (json 401 (message "Not authenticated"), w)
    else
      try_catch
        (user <- lift (getUser (session_userId req)) ;;
         match user with
         | None =>
             ret (json 403 (message "Only company accounts can access this"))
         | Some user =>
             if negb (strict_eq (field user "userType") (VStr "company"))
             then
               ret (json 403
                      (message "Only company accounts can access this"))
             else
               campaigns <-
                 lift (getCampaignsByUserId (session_userId req)) ;;
               let activeCampaigns :=
                 length (List.filter
                           (fun c => strict_eq (field c "status")
                                               (VStr "active"))
                           campaigns) in
               ret (json 200
                      (VObj (object
                               [("activeCampaigns",
                                 VNum (Z.of_nat activeCampaigns));
                                ("campaignGrowth", VNum (floor_of rnd 0 20));
                                ("totalViews", VNum (floor_of rnd 1 50000));
                                ("viewsGrowth", VNum (floor_of rnd 2 25));
                                ("budgetUsed", VNum (floor_of rnd 3 1000));
                                ("budgetPercentage",
                                 VNum (floor_of rnd 4 80))])))
         end)
        (fun _ w' =>
           (json 500 (message "Failed to retrieve analytics"),
            console_error "Analytics summary error:" w')) w.

(** GET /api/analytics/creator/summary. *)
Definition creator_summary (rnd : Random) (req : Request)
  : World -> Response * World :=
  fun w =>
    if not_authenticated req then
      (json 401 (message "Not authenticated"), w)
    else
      try_catch
        (user <- lift (getUser (session_userId req)) ;;
         match user with
         | None =>
             ret (json 403 (message "Only creator accounts can access this"))
         | Some user =>
             if negb (strict_eq (field user "userType") (VStr "individual"))
             then
               ret (json 403
                      (message "Only creator accounts can access this"))
             else
               videos <- lift (getVideosByUserId (session_userId req)) ;;
               let totalVideos := length videos in
               let processingVideos :=
                 length (List.filter
                           (fun v => strict_eq (field v "status")
                                               (VStr "processing"))
                           videos) in
               ret (json 200
                      (VObj (object
                               [("totalVideos", VNum (Z.of_nat totalVideos));
                                ("newVideos", VNum (floor_of rnd 0 5));
                                ("totalViews", VNum (floor_of rnd 1 50000));
                                ("viewsGrowth", VNum (floor_of rnd 2 25));
                                ("totalEarnings",
                                 VStr (fixed2_of rnd 3 500));
                                ("earningsGrowth", VNum (floor_of rnd 4 30));
                                ("processingVideos",
                                 VNum (Z.of_nat processingVideos));
                                ("processingEta",
                                 if (0 <? Z.of_nat processingVideos)
                                 then VStr (pretty (floor_of rnd 5 30)
                                            +:+ " minutes")
                                 else VStr "N/A")])))
         end)
        (fun _ w' =>
           (json 500 (message "Failed to retrieve analytics"),
            console_error "Creator analytics summary error:" w')) w.

End Routes.

(** ** Runs of the server *)

(** The requests and timer ticks the server reacts to. *)
Inductive Event : Type :=
  | Register (req : Request)
  | Login (req : Request)
  | ById (m : Method) (k : Kind) (req : Request)
  | Download (req : Request)
  | AdsUpload (req : Request)
  | VideosUpload (req : Request)
  | Tick (t : Z) (draws : nat -> Z).

Definition step `{Runtime} (w : World) (ev : Event) : World :=
  match ev with
  | Register req => snd (register req w)
  | Login req => snd (login req w)
  | ById m k req => snd (by_id m k req w)
  | Download req => snd (download_video req w)
  | AdsUpload req => snd (ads_upload req w)
  | VideosUpload req => snd (videos_upload req w)
  | Tick t draws => advance t draws w
  end.

Definition run `{Runtime} (evs : list Event) (w : World) : World :=
  fold_left step evs w.

(** Every request the server answers: the events above and the
    remaining routes. *)
Inductive Call : Type :=
  | Routed (ev : Event)
  | Logout (err : bool) (req : Request)
  | Me (req : Request)
  | Status (req : Request)
  | ListCampaigns (rnd : Random) (req : Request)
  | CreateCampaign (req : Request)
  | ListAds (req : Request)
  | ListVideos (req : Request)
  | Summary (rnd : Random) (req : Request)
  | CreatorSummary (rnd : Random) (req : Request).

Definition act `{Runtime} (w : World) (c : Call) : World :=
  match c with
  | Routed ev => step w ev
  | Logout _ _ => w
  | Me req => snd (me req w)
  | Status _ => w
  | ListCampaigns rnd req => snd (list_campaigns rnd req w)
  | CreateCampaign req => snd (create_campaign req w)
  | ListAds req => snd (list_ads req w)
  | ListVideos req => snd (list_videos req w)
  | Summary rnd req => snd (analytics_summary rnd req w)
  | CreatorSummary rnd req => snd (creator_summary rnd req w)
  end.

(** [play] serves the calls one after the other, each handler from its
    first line to its answer. *)
Definition play `{Runtime} (cs : list Call) (w : World) : World :=
  fold_left act cs w.

(** Every tick of [cs] comes before the time [d]: the event loop has
    not yet run a timer that is due at [d]. *)
Definition ticks_before (d : Z) (cs : list Call) : bool :=
  forallb (fun c =>
             match c with
             | Routed (Tick t _) => t <? d
             | _ => true
             end) cs.

(** No POST /api/campaigns of [cs] has a [Date] under [startDate]; a
    body parsed from JSON, or from a form, holds none. *)
Definition campaigns_from_json (cs : list Call) : bool :=
  forallb (fun c =>
             match c with
             | CreateCampaign req =>
                 negb (is_date (prop (body req) "startDate"))
             | _ => true
             end) cs.

(** ** An implementation of [Runtime] for running the handlers

    Enough of each library function to evaluate the handlers on concrete
    requests: decimal [parseInt], ASCII [toLowerCase], a stand-in for
    bcrypt that only tags the password. *)

Module TestRuntime.

Definition is_digit (c : ascii) : bool :=
  let n := nat_of_ascii c in (48 <=? n)%nat && (n <=? 57)%nat.

Fixpoint digits (s : string) (acc : option Z) : option Z :=
  match s with
  | String c s' =>
      if is_digit c then
        digits s' (Some (10 * default 0 acc
                         + Z.of_nat (nat_of_ascii c - 48)))
      else acc
  | EmptyString => acc
  end.

Definition parse_int (v : value) : value :=
  match v with
  | VNum n => VNum n
  | VStr (String "-" s) =>
      match digits s None with Some n => VNum (- n) | None => VNaN end
  | VStr s => match digits s None with Some n => VNum n | None => VNaN end
  | _ => VNaN
  end.

Definition lower (c : ascii) : ascii :=
  let n := nat_of_ascii c in
  if (65 <=? n)%nat && (n <=? 90)%nat then ascii_of_nat (n + 32) else c.

Fixpoint to_lower (s : string) : string :=
  match s with
  | String c s' => String (lower c) (to_lower s')
  | EmptyString => EmptyString
  end.

Definition parse_json (v : value) : option value :=
  match v with
  | VStr "{}" => Some (VObj ∅)
  | VStr "null" => Some VNull
  | _ => None
  end.

Fixpoint extname (s : string) (ext : string) : string :=
  match s with
  | String "." s' => extname s' (String "." s')
  | String _ s' => extname s' ext
  | EmptyString => ext
  end.

Fixpoint has_at (s : string) : bool :=
  match s with
  | String "@" _ => true
  | String _ s' => has_at s'
  | EmptyString => false
  end.

Definition tag_hash (p : string) (rounds : Z) (salt : string) : string :=
  "$2a$" +:+ pretty rounds +:+ "$" +:+ p.

Definition tag_compare (p h : string) : bool :=
  String.eqb h (tag_hash p 10 "").

Definition join (l : list string) : string := String.concat "/" l.

#[export] Instance runtime : Runtime := {|
  parseInt := parse_int;
  toLowerCase := to_lower;
  JSON_parse := parse_json;
  path_extname := fun s => extname s "";
  bcrypt_hash := tag_hash;
  bcrypt_compare := tag_compare;
  z_email := has_at;
  z_integer := fun n => (-2147483648 <=? n) && (n <=? 2147483647);
  path_join := join;
  dirname := "/srv/server"
|}.

End TestRuntime.

(** ** The client pages

    The decisions the React pages take: which picked file an upload page
    keeps, what its progress bar shows, which page the router renders. *)

Module Client.

(** A [File] of the browser. *)
Record BrowserFile : Type := {
  name : string;
  type : string;
  bytes : Z
}.

Record Toast : Type := {
  title : string;
  description : string
}.

Definition validTypes : list string :=
  ["video/mp4"; "video/quicktime"; "video/x-msvideo"].

(** [list.includes(x)]. *)
Definition includes (l : list string) (x : string) : bool :=
  existsb (String.eqb x) l.

(** [handleFileChange] of the upload-ad page: the new [selectedFile] and
    the toast shown, for the file picked ([event.target.files?.[0] ||
    null]) and the file selected so far. *)
Definition ad_handleFileChange (picked selectedFile : option BrowserFile)
  : option BrowserFile * option Toast :=
  match picked with
  | None => (selectedFile, None)
  | Some file =>
      if 100 * 1024 * 1024 <? bytes file then  (* 100MB limit *)
        (selectedFile,
         Some {| title := "File Too Large";
                 description := "The maximum file size is 100MB." |})
      else if negb (includes validTypes (type file)) then
        (selectedFile,
         Some {| title := "Invalid File Type";
                 description :=
                   "Only MP4, MOV, and AVI files are supported." |})
      else (Some file, None)
  end.

(** [handleFileChange] of the upload-video page. *)
Definition video_handleFileChange (picked selectedFile : option BrowserFile)
  : option BrowserFile * option Toast :=
  match picked with
  | None => (selectedFile, None)
  | Some file =>
      if 2 * 1024 * 1024 * 1024 <? bytes file then  (* 2GB limit *)
        (selectedFile,
         Some {| title := "File Too Large";
                 description := "The maximum file size is 2GB." |})
      else if negb (includes validTypes (type file)) then
        (selectedFile,
         Some {| title := "Invalid File Type";
                 description :=
                   "Only MP4, MOV, and AVI files are supported." |})
      else (Some file, None)
  end.

(** [formData.append('file', selectedFile)]: the part the browser sends
    for the selected file. *)
Definition file_part_of (file : BrowserFile) : FilePart :=
  {| fieldname := "file"; originalname := name file;
     mimetype := type file; size := bytes file |}.

(** The updater the upload pages give to [setUploadProgress] every
    500 ms while the upload runs. *)
Definition progress_tick (prev : Z) : Z :=
  if 95 <=? prev then 95 else prev + 5.

(** The pages and the paths of [App.tsx]. *)
Inductive Page : Type :=
  | Home | CompanyDashboard | CreatorDashboard | UploadAd | UploadVideo
  | NotFound.

Inductive Path : Type :=
  | RootPath                (* "/" *)
  | DashboardCompanyPath    (* "/dashboard/company" *)
  | DashboardCreatorPath    (* "/dashboard/creator" *)
  | UploadAdPath            (* "/upload-ad" *)
  | UploadVideoPath         (* "/upload-video" *)
  | OtherPath.

(** [checkAuth] of the router: the [isAuthenticated] and [userType] it
    keeps from the answer of GET /api/auth/status. *)
Definition checkAuth (res : Response) : bool * value :=
  match content res with
  | Json data =>
      if (200 <=? status res) && (status res <? 300) then
        (truthy (prop data "isAuthenticated"), prop data "userType")
      else (false, VNull)
  | ZodErrors => (false, VNull)
  end.

(** The [Switch] of [Router], once loading is over. *)
Definition Router (isAuthenticated : bool) (userType : value) (p : Path)
  : Page :=
  match p with
  | RootPath => Home
  | DashboardCompanyPath =>
      if isAuthenticated && strict_eq userType (VStr "company")
      then CompanyDashboard else Home
  | DashboardCreatorPath =>
      if isAuthenticated && strict_eq userType (VStr "creator")
      then CreatorDashboard else Home
  | UploadAdPath =>
      if isAuthenticated && strict_eq userType (VStr "company")
      then UploadAd else Home
  | UploadVideoPath =>
      if isAuthenticated && strict_eq userType (VStr "creator")
      then UploadVideo else Home
  | OtherPath => NotFound
  end.

(** Where the home page navigates once it has the answer of
    GET /api/auth/status. *)
Definition home_redirect (res : Response) : option Path :=
  match content res with
  | Json data =>
      if (200 <=? status res) && (status res <? 300) then
        if strict_eq (prop data "userType") (VStr "company")
        then Some DashboardCompanyPath
        else if strict_eq (prop data "userType") (VStr "individual")
        then Some DashboardCreatorPath
        else None
      else None
  | ZodErrors => None
  end.

(** Where the login modal navigates after a successful login. *)
Definition login_redirect (userData : value) : Path :=
  if strict_eq (prop userData "userType") (VStr "company")
  then DashboardCompanyPath else DashboardCreatorPath.

End Client.

(** ** Vocabulary of the properties *)

(** Neither [null] nor [undefined]. *)
Definition non_null (v : value) : Prop := v <> VNull /\ v <> VUndefined.

(** A video record after processing. *)
Definition processed (v : obj) : Prop :=
  field v "status" = VStr "ready"
  /\ non_null (field v "processedFilePath")
  /\ non_null (field v "thumbnailPath")
  /\ non_null (field v "duration").

(** The file paths of an entity that its DELETE route hands to
    [fs.unlink], in the order of the handler. *)
Definition files_of (k : Kind) (e : obj) : list value :=
  match k with
  | Campaigns => []
  | Ads => [field e "filePath"]
  | Videos => [field e "rawFilePath"; field e "processedFilePath";
               field e "thumbnailPath"]
  end.

(** The paths among [l] that [fs.unlink] can remove: the non-empty
    strings. *)
Fixpoint paths_of (l : list value) : gset string :=
  match l with
  | [] => ∅
  | VStr f :: l' => (if String.eqb f "" then ∅ else {[f]}) ∪ paths_of l'
  | _ :: l' => paths_of l'
  end.

(** Every stored user has a string [email] and a string [username], as
    the registration schema requires of the records it lets through. *)
Definition user_wf (u : obj) : bool :=
  is_string (field u "email") && is_string (field u "username").

Definition users_wf (s : MemStorage.t) : Prop :=
  forallb user_wf (JsMap.values (MemStorage.users s)) = true.

(** Case-insensitive comparison of a stored user's [email] or [username]
    with a given string. *)
Definition has_lowercase `{Runtime} (key : string) (x : string) (u : obj)
  : bool :=
  match field u key with
  | VStr y => String.eqb (toLowerCase y) (toLowerCase x)
  | _ => false
  end.

Definition email_taken `{Runtime} (e : string) (s : MemStorage.t) : bool :=
  existsb (has_lowercase "email" e) (JsMap.values (MemStorage.users s)).

Definition username_taken `{Runtime} (n : string) (s : MemStorage.t)
  : bool :=
  existsb (has_lowercase "username" n) (JsMap.values (MemStorage.users s)).

(** The stored password of [u] is a hash that [p] does not match. *)
Definition wrong_password `{Runtime} (p : string) (u : obj) : bool :=
  match field u "password" with
  | VStr h => negb (bcrypt_compare p h)
  | _ => false
  end.

(** Every stored user with the e-mail [e] has a password that [p] does
    not match. *)
Definition password_mismatch `{Runtime} (e p : string) (s : MemStorage.t)
  : bool :=
  forallb (fun u => implb (has_lowercase "email" e u) (wrong_password p u))
          (JsMap.values (MemStorage.users s)).

(** [keeps R c]: running [c] relates the storage before to the storage
    after by [R], whether [c] returns or throws; [method_keeps] says it
    of a storage method and [handler_keeps] of a route. *)
Definition keeps {A : Type} (R : MemStorage.t -> MemStorage.t -> Prop)
    (c : St World A) : Prop :=
  forall w : World, R (storage w) (storage (snd (c w))).

Definition method_keeps {A : Type}
    (R : MemStorage.t -> MemStorage.t -> Prop) (c : St MemStorage.t A)
  : Prop :=
  forall s : MemStorage.t, R s (snd (c s)).

Definition handler_keeps {A : Type}
    (R : MemStorage.t -> MemStorage.t -> Prop) (h : World -> A * World)
  : Prop :=
  forall w : World, R (storage w) (storage (snd (h w))).

(** [h] removes no pending timer. *)
Definition leaves_timers {B : Type} (h : World -> B * World) : Prop :=
  forall w : World, List.incl (timers w) (timers (snd (h w))).

(** Every key of [m] is an id already handed out: at least 1 and below
    the counter [n]. *)
Definition keys_below (n : Z) (m : JsMap.t obj) : Prop :=
  1 <= n /\ Forall (fun p => 1 <= fst p < n) m.

Definition ids_fresh (s : MemStorage.t) : Prop :=
  keys_below (MemStorage.userId s) (MemStorage.users s)
  /\ keys_below (MemStorage.companyProfileId s)
                (MemStorage.companyProfiles s)
  /\ keys_below (MemStorage.creatorProfileId s)
                (MemStorage.creatorProfiles s)
  /\ keys_below (MemStorage.campaignId s) (MemStorage.campaigns s)
  /\ keys_below (MemStorage.adId s) (MemStorage.ads s)
  /\ keys_below (MemStorage.videoId s) (MemStorage.videos s)
  /\ keys_below (MemStorage.videoAdId s) (MemStorage.videoAds s).

(** No counter of [s'] is below the one of [s]. *)
Definition counters_le (s s' : MemStorage.t) : Prop :=
  MemStorage.userId s <= MemStorage.userId s'
  /\ MemStorage.companyProfileId s <= MemStorage.companyProfileId s'
  /\ MemStorage.creatorProfileId s <= MemStorage.creatorProfileId s'
  /\ MemStorage.campaignId s <= MemStorage.campaignId s'
  /\ MemStorage.adId s <= MemStorage.adId s'
  /\ MemStorage.videoId s <= MemStorage.videoId s'
  /\ MemStorage.videoAdId s <= MemStorage.videoAdId s'.

(** Ids handed out stay handed out: freshness is kept and no counter
    goes back. *)
Definition ids_advance (s s' : MemStorage.t) : Prop :=
  (ids_fresh s -> ids_fresh s') /\ counters_le s s'.

(** The counter of a kind of entity. *)
Definition next_id (k : Kind) (w : World) : Z :=
  match k with
  | Campaigns => MemStorage.campaignId (storage w)
  | Ads => MemStorage.adId (storage w)
  | Videos => MemStorage.videoId (storage w)
  end.

(** No two users of [l] agree on the lower-cased string under [key]. *)
Fixpoint unique_lowercase `{Runtime} (key : string) (l : list obj) : bool :=
  match l with
  | [] => true
  | u :: l' =>
      match field u key with
      | VStr x => negb (existsb (has_lowercase key x) l')
      | _ => false
      end
      && unique_lowercase key l'
  end.

Definition users_unique `{Runtime} (s : MemStorage.t) : bool :=
  unique_lowercase "email" (JsMap.values (MemStorage.users s))
  && unique_lowercase "username" (JsMap.values (MemStorage.users s)).

(** Each user sits under its own [id], and under no other key. *)
Definition users_keyed (s : MemStorage.t) : Prop :=
  List.NoDup (List.map fst (MemStorage.users s))
  /\ Forall (fun p => field (snd p) "id" = VNum (fst p))
            (MemStorage.users s).

(** What holds of the users of every world: string e-mails and
    usernames, no two alike, each record under its own id. *)
Definition users_ok `{Runtime} (s : MemStorage.t) : Prop :=
  users_wf s /\ users_unique s = true /\ users_keyed s.

(** The users are the same in [s'] as in [s]. *)
Definition same_users (s s' : MemStorage.t) : Prop :=
  MemStorage.users s' = MemStorage.users s.

(** [e.userId === uid]. *)
Definition owned_by (uid : value) (e : obj) : bool :=
  strict_eq (field e "userId") uid.

(** The records of a kind, in the order of the map. *)
Definition records (k : Kind) (w : World) : list obj :=
  match k with
  | Campaigns => JsMap.values (MemStorage.campaigns (storage w))
  | Ads => JsMap.values (MemStorage.ads (storage w))
  | Videos => JsMap.values (MemStorage.videos (storage w))
  end.

(** The storage apart from the videos, and the ids of the videos. *)
Definition same_but_video_records (s s' : MemStorage.t) : Prop :=
  MemStorage.users s' = MemStorage.users s
  /\ MemStorage.companyProfiles s' = MemStorage.companyProfiles s
  /\ MemStorage.creatorProfiles s' = MemStorage.creatorProfiles s
  /\ MemStorage.campaigns s' = MemStorage.campaigns s
  /\ MemStorage.ads s' = MemStorage.ads s
  /\ List.map fst (MemStorage.videos s') = List.map fst (MemStorage.videos s).

(** [n] was handed out as an id of the map [m] with counter [c], and
    nothing is stored under it. *)
Definition retired (n c : Z) (m : JsMap.t obj) : Prop :=
  n < c /\ JsMap.get n m = None.

(** The ids of campaigns, ads and videos retired in [s] are retired in
    [s']. *)
Definition retired_stay (s s' : MemStorage.t) : Prop :=
  forall n : Z,
    (retired n (MemStorage.campaignId s) (MemStorage.campaigns s) ->
     retired n (MemStorage.campaignId s') (MemStorage.campaigns s'))
    /\ (retired n (MemStorage.adId s) (MemStorage.ads s) ->
        retired n (MemStorage.adId s') (MemStorage.ads s'))
    /\ (retired n (MemStorage.videoId s) (MemStorage.videos s) ->
        retired n (MemStorage.videoId s') (MemStorage.videos s')).

(** Every result that [c] returns satisfies [P]. *)
Definition returns {A : Type} (P : A -> Prop) (c : St World A) : Prop :=
  forall w : World,
    match fst (c w) with
    | Ret a => P a
    | Throw _ => True
    end.

(** The response carries no [password]. *)
Definition hides_password (r : Response) : Prop :=
  forall o : obj, content r = Json (VObj o) -> o !! "password" = None.

(** ** Concrete requests and worlds

    A company and a creator register and log in; the company uploads an
    ad, the creator a video.  Run under [TestRuntime]. *)

Module Scenarios.
Import TestRuntime.

Definition request (s : option Session) (id : string) (b : value)
    (f : option FilePart) (t : Z) : Request :=
  {| session := s; param_id := id; body := b; file_part := f;
     now := t; random9 := 42; salt := "salt" |}.

Definition mp4 (bytes : Z) : option FilePart :=
  Some {| fieldname := "file"; originalname := "clip.mp4";
          mimetype := "video/mp4"; size := bytes |}.

(** The session of a client that has not logged in. *)
Definition anonymous : option Session :=
  Some {| sess_userId := VUndefined; sess_userType := VUndefined |}.

Definition acme : value :=
  VObj (object [("email", VStr "ads@acme.example");
                ("username", VStr "acme");
                ("password", VStr "s3cretpass");
                ("confirmPassword", VStr "s3cretpass");
                ("fullName", VStr "Acme Corp");
                ("userType", VStr "company")]).

Definition alice : value :=
  VObj (object [("email", VStr "alice@example.com");
                ("username", VStr "alice");
                ("password", VStr "password1");
                ("confirmPassword", VStr "password1");
                ("fullName", VStr "Alice");
                ("userType", VStr "individual")]).

(** Alice's e-mail in another case, under another username. *)
Definition alice_again : value :=
  VObj (object [("email", VStr "Alice@Example.COM");
                ("username", VStr "alice2");
                ("password", VStr "password2");
                ("confirmPassword", VStr "password2");
                ("fullName", VStr "Alice");
                ("userType", VStr "company")]).

Definition credentials (email password : string) : value :=
  VObj (object [("email", VStr email); ("password", VStr password)]).

(** The world after Acme (user 1) and Alice (user 2) have registered. *)
Definition registered_world : World :=
  run [Register (request anonymous "" acme None 5);
       Register (request anonymous "" alice None 6)]
      initial_world.

(** The sessions their logins leave. *)
Definition session_after (email password : string) : option Session :=
  snd (fst (login (request anonymous "" (credentials email password)
                           None 10)
                  registered_world)).

Definition company_session : option Session :=
  session_after "ads@acme.example" "s3cretpass".

Definition creator_session : option Session :=
  session_after "alice@example.com" "password1".

(** A 150MB ad upload by Acme whose form also carries [duration],
    [status] and [userId]. *)
Definition big_ad : FilePart :=
  {| fieldname := "file"; originalname := "spring.mp4";
     mimetype := "video/mp4"; size := 150 * 1024 * 1024 |}.

Definition big_ad_upload : Request :=
  request company_session ""
    (VObj (object [("title", VStr "Spring sale");
                   ("duration", VStr "99");
                   ("status", VStr "approved");
                   ("userId", VStr "7")]))
    (Some big_ad) 1000.

Definition ad_world : World :=
  snd (ads_upload big_ad_upload registered_world).

Definition stored_ad : obj := default ∅ (stored Ads (VNum 1) ad_world).

Definition ad_response : Response :=
  match fst (ads_upload big_ad_upload registered_world) with
  | Sent r => r
  | NextError _ => json 500 VUndefined
  end.

(** A video upload by Alice, and the world once its timer has fired. *)
Definition video_upload : Request :=
  request creator_session "" (VObj ∅) (mp4 1024) 1000.

Definition video_response : Response :=
  match fst (videos_upload video_upload registered_world) with
  | Sent r => r
  | NextError _ => json 500 VUndefined
  end.

Definition uploaded_world : World :=
  snd (videos_upload video_upload registered_world).

Definition processed_world : World :=
  run [Tick 11000 (fun _ => 7)] uploaded_world.

Definition processed_video : obj :=
  default ∅ (stored Videos (VNum 1) processed_world).

(** The world after Alice has then patched [processedFilePath] to the
    empty string, and her download request. *)
Definition patched_world : World :=
  run [ById PATCH Videos
         (request creator_session "1"
            (VObj (object [("processedFilePath", VStr "")])) None 12000)]
      processed_world.

Definition patched_video : obj :=
  default ∅ (stored Videos (VNum 1) patched_world).

Definition download_request : Request :=
  request creator_session "1" VUndefined None 13000.

(** A request on the by-id routes. *)
Definition by_id_request (s : option Session) (id : string) (b : value)
  : Request :=
  request s id b None 20000.

(** A PATCH body that names [userId], [id] and [createdAt]. *)
Definition takeover : value :=
  VObj (object [("userId", VNum 2); ("id", VNum 99);
                ("createdAt", VStr "yesterday")]).

(** The same runs as lists of calls. *)
Definition registrations : list Call :=
  [Routed (Register (request anonymous "" acme None 5));
   Routed (Register (request anonymous "" alice None 6))].

Definition ad_calls : list Call :=
  (registrations ++ [Routed (AdsUpload big_ad_upload)])%list.


Definition alice_login : Request :=
  request anonymous "" (credentials "alice@example.com" "password1")
          None 10.

Definition alice_public : value :=
  public_user (default ∅ (JsMap.get 2 (MemStorage.users
                                         (storage registered_world)))).

Definition alice_session : Session :=
  {| sess_userId := VNum 2; sess_userType := VStr "individual" |}.

(** Uploads that go wrong: a PDF, a video without a session, a video
    whose [adPreferences] is not JSON. *)
Definition pdf : FilePart :=
  {| fieldname := "file"; originalname := "deck.pdf";
     mimetype := "application/pdf"; size := 4096 |}.

Definition pdf_upload : Request :=
  request company_session "" (VObj ∅) (Some pdf) 1000.

Definition clip : FilePart :=
  {| fieldname := "file"; originalname := "clip.mp4";
     mimetype := "video/mp4"; size := 1024 |}.

Definition anonymous_upload : Request :=
  request anonymous "" (VObj ∅) (Some clip) 1000.

Definition bad_preferences_upload : Request :=
  request creator_session ""
          (VObj (object [("adPreferences", VStr "{oops")]))
          (Some clip) 1000.

(** Alice's video before its timer fires, and the timer. *)
Definition uploaded_video : obj :=
  default ∅ (stored Videos (VNum 1) uploaded_world).

Definition video_timer : Timer :=
  {| set_at := 1000; delay := 10000; timer_video := VNum 1;
     timer_path := "/srv/server/../uploads/videos/file-1000-42.mp4" |}.

(** The file that the upload page of the client holds. *)
Definition picked : Client.BrowserFile :=
  {| Client.name := "clip.mp4"; Client.type := "video/mp4";
     Client.bytes := 1024 |}.

Definition picked_upload : Request :=
  request company_session "" (VObj ∅) (Some (Client.file_part_of picked))
          1000.

(** Acme asks for a campaign with every column filled in, the dates as
    the ISO strings that JSON carries. *)
Definition campaign_request : Request :=
  request company_session ""
          (VObj (object [("userId", VNum 1); ("name", VStr "Spring");
                         ("status", VStr "active");
                         ("budget", VStr "500.00");
                         ("startDate", VStr "2026-03-01T00:00:00.000Z");
                         ("endDate", VStr "2026-04-01T00:00:00.000Z")]))
          None 2000.

(** The world in which Acme has its ad and Alice her video. *)
Definition both_calls : list Call :=
  (ad_calls ++ [Routed (VideosUpload video_upload)])%list.

Definition both_world : World := play both_calls initial_world.

Definition fixed_random : Random :=
  {| floor_of := fun _ _ => 3; fixed2_of := fun _ _ => "1.00" |}.

Definition acme_summary : obj :=
  match content (fst (analytics_summary fixed_random
                        (by_id_request company_session "" VUndefined)
                        both_world)) with
  | Json (VObj o) => o
  | _ => ∅
  end.

Definition alice_summary : obj :=
  match content (fst (creator_summary fixed_random
                        (by_id_request creator_session "" VUndefined)
                        both_world)) with
  | Json (VObj o) => o
  | _ => ∅
  end.

(** What is served between Alice's upload and the firing of its timer:
    she logs in again, renames the video and lists her videos, and the
    event loop turns once, at 5000. *)
Definition busy_calls : list Call :=
  [Routed (Login alice_login);
   Routed (ById PATCH Videos
             (request creator_session "1"
                (VObj (object [("title", VStr "Holiday")])) None 3000));
   ListVideos (request creator_session "" VUndefined None 4000);
   Routed (Tick 5000 (fun _ => 7))].

Definition busy_world : World := play busy_calls uploaded_world.

Definition busy_video : obj :=
  default ∅ (stored Videos (VNum 1) busy_world).



(** The world in which only Acme has registered; Alice's two
    registrations are then in flight together. *)
Definition acme_world : World :=
  play [Routed (Register (request anonymous "" acme None 5))]
       initial_world.

Definition raced_world : World :=
  snd (register_creates (request anonymous "" alice_again None 7)
         (snd (register_creates (request anonymous "" alice None 6)
                 acme_world))).

(** A film of 1.5GB for the video page and a clip of exactly 100MB for
    the ad page. *)
Definition film : Client.BrowserFile :=
  {| Client.name := "film.mov"; Client.type := "video/quicktime";
     Client.bytes := 1536 * 1024 * 1024 |}.

Definition film_upload : Request :=
  request creator_session "" (VObj ∅) (Some (Client.file_part_of film))
          1000.

Definition full_clip : Client.BrowserFile :=
  {| Client.name := "clip.mp4"; Client.type := "video/mp4";
     Client.bytes := 100 * 1024 * 1024 |}.

Definition full_clip_upload : Request :=
  request company_session "" (VObj ∅)
          (Some (Client.file_part_of full_clip)) 1000.

End Scenarios.
(** * Properties *)

Local Set Warnings "-clear-no-such-hyp".

(** ** Facts about [JsMap] *)

Lemma jsmap_get_set_eq {A : Type} (k : Z) (v : A) (m : JsMap.t A) :
  JsMap.get k (JsMap.set k v m) = Some v.
Proof.
  induction m as [|[k' v'] m IH]; simpl.
  - now rewrite Z.eqb_refl.
  - destruct (k' =? k) eqn:E; simpl.
    + now rewrite Z.eqb_refl.
    + now rewrite E.
Qed.

Lemma jsmap_get_set_ne {A : Type} (k j : Z) (v : A) (m : JsMap.t A) :
  k <> j -> JsMap.get j (JsMap.set k v m) = JsMap.get j m.
Proof.
  intros Hne. induction m as [|[k' v'] m IH]; simpl.
  - destruct (k =? j) eqn:E; [apply Z.eqb_eq in E; lia | reflexivity].
  - destruct (k' =? k) eqn:E; simpl.
    + apply Z.eqb_eq in E; subst k'.
      destruct (k =? j) eqn:E'; [apply Z.eqb_eq in E'; lia | reflexivity].
    + destruct (k' =? j); [reflexivity | exact IH].
Qed.

Lemma jsmap_get_delete_eq {A : Type} (k : Z) (m : JsMap.t A) :
  JsMap.get k (JsMap.delete k m) = None.
Proof.
  induction m as [|[k' v'] m IH]; simpl; [reflexivity|].
  destruct (k' =? k) eqn:E; simpl; [exact IH | now rewrite E].
Qed.

Lemma jsmap_get_delete_ne {A : Type} (k j : Z) (m : JsMap.t A) :
  k <> j -> JsMap.get j (JsMap.delete k m) = JsMap.get j m.
Proof.
  intros Hne. induction m as [|[k' v'] m IH]; simpl; [reflexivity|].
  destruct (k' =? k) eqn:E; simpl.
  - apply Z.eqb_eq in E; subst k'.
    destruct (k =? j) eqn:E'; [apply Z.eqb_eq in E'; lia | exact IH].
  - destruct (k' =? j); [reflexivity | exact IH].
Qed.

Lemma jsmap_get_Some_values {A : Type} (k : Z) (v : A) (m : JsMap.t A) :
  JsMap.get k m = Some v -> In v (JsMap.values m).
Proof.
  induction m as [|[k' v'] m IH]; simpl; [discriminate|].
  destruct (k' =? k); [intros [= ->]; now left | right; now apply IH].
Qed.


(** ** Facts about values *)

Lemma strict_eq_VStr (v : value) (s : string) :
  strict_eq v (VStr s) = true <-> v = VStr s.
Proof.
  destruct v; simpl; try (split; [discriminate | intros [=]]).
  rewrite String.eqb_eq. split; [now intros -> | now intros [= ->]].
Qed.

Lemma strict_eq_VStr_false (v : value) (s : string) :
  strict_eq v (VStr s) = false <-> v <> VStr s.
Proof.
  rewrite <- strict_eq_VStr. now destruct (strict_eq v (VStr s)).
Qed.

Lemma map_get_is_num (id : value) (m : JsMap.t obj) (e : obj) :
  MemStorage.map_get id m = Some e ->
  exists n, id = VNum n /\ JsMap.get n m = Some e.
Proof.
  destruct id; simpl; try discriminate. intros Hget. now exists n.
Qed.


Lemma difference_thrice (d a b c : gset string) :
  d ∖ a ∖ b ∖ c = d ∖ (a ∪ (b ∪ c)).
Proof. set_solver. Qed.

Section Properties.
Context `{Runtime}.

Import MemStorage.

(** Unfolds a handler down to the storage maps. *)
Ltac run_handler :=
  unfold by_id, get_campaign, patch_campaign, delete_campaign,
    get_ad, patch_ad, delete_ad, get_video, patch_video, delete_video,
    download_video, stored, try_catch, bind, ret, lift,
    getCampaign, getAd, getVideo,
    updateCampaign, updateAd, updateVideo,
    deleteCampaign, deleteAd, deleteVideo in *;
  cbn [storage with_storage campaigns ads videos fst snd status content
       json negb] in *.

(** ** PATCH on the by-id routes *)

Lemma merge_lookup_body (e b : obj) (key : string) (v : value) :
  b !! key = Some v -> merge e b !! key = Some v.
Proof. intros Hb. unfold merge. now apply lookup_union_Some_l. Qed.

Lemma merge_lookup_stored (e b : obj) (key : string) :
  b !! key = None -> merge e b !! key = e !! key.
Proof. intros Hb. unfold merge. now apply lookup_union_r. Qed.

(** The owner's PATCH answers 200 with the merged record and stores it. *)
Lemma patch_owner (k : Kind) (req : Request) (w : World) (e : obj) :
  not_authenticated req = false ->
  stored k (id_of req) w = Some e ->
  strict_eq (field e "userId") (session_userId req) = true ->
  fst (by_id PATCH k req w) = json 200 (VObj (merge e (spread (body req))))
  /\ stored k (id_of req) (snd (by_id PATCH k req w))
     = Some (merge e (spread (body req)))
  /\ users (storage (snd (by_id PATCH k req w))) = users (storage w).
Proof.
  intros Hna Hsome Hown. destruct w as [s d tms c u].
  destruct k; run_handler; rewrite Hna; simpl in *;
    rewrite Hsome; simpl; rewrite Hown; simpl; rewrite Hsome; simpl;
    (split; [reflexivity|]); (split; [|reflexivity]);
    apply map_get_is_num in Hsome as (n & -> & _); simpl;
    apply jsmap_get_set_eq.
Qed.

(** ** DELETE on the by-id routes *)

Lemma paths_of_cons (v : value) (l : list value) :
  paths_of (v :: l) = paths_of [v] ∪ paths_of l.
Proof. destruct v; simpl; set_solver. Qed.

Lemma paths_of_three (a b c : value) :
  paths_of [a; b; c] = paths_of [a] ∪ (paths_of [b] ∪ paths_of [c]).
Proof.
  rewrite (paths_of_cons a), (paths_of_cons b [c]). reflexivity.
Qed.

(** One [if (p) { await fs.unlink(p).catch(...) }] of a DELETE handler:
    it never throws, whatever is on the disk. *)
Lemma unlink_step (v : value) (msg : string) (w : World) :
  exists w',
    (if truthy v then catch_log (fs_unlink v) msg else ret tt) w
    = (Ret tt, w')
    /\ storage w' = storage w
    /\ unlinked w' = (unlinked w ++ List.filter truthy [v])%list
    /\ disk w' = disk w ∖ paths_of [v].
Proof.
  destruct w as [s d tms c u].
  destruct v as [| |b|n| |f|t|l|o]; simpl;
    try (destruct b); try (destruct (n =? 0)); try (destruct f as [|a f]);
    simpl; unfold catch_log, fs_unlink, ret; simpl;
    try (destruct (decide (String a f ∈ d)));
    (eexists; split; [reflexivity|]; simpl;
     rewrite ?app_nil_r; repeat split; set_solver).
Qed.

(** Runs the next unlink of a DELETE handler by [unlink_step]. *)
Ltac step_unlink :=
  match goal with
  | |- context [(if truthy ?v then catch_log (fs_unlink ?v) ?msg else _) ?w0]
    =>
      let w1 := fresh "w" in
      let Hs := fresh "Hstep" in
      let Hst := fresh "Hsto" in
      let Hu := fresh "Hunl" in
      let Hd := fresh "Hdisk" in
      destruct (unlink_step v msg w0) as (w1 & Hs & Hst & Hu & Hd);
      unfold ret in Hs; rewrite Hs; clear Hs;
      cbn [storage disk unlinked with_storage] in Hst, Hu, Hd;
      cbn beta iota
  end.

Lemma delete_owner (k : Kind) (req : Request) (w : World) (e : obj) :
  not_authenticated req = false ->
  stored k (id_of req) w = Some e ->
  strict_eq (field e "userId") (session_userId req) = true ->
  status (fst (by_id DELETE k req w)) = 200
  /\ stored k (id_of req) (snd (by_id DELETE k req w)) = None
  /\ unlinked (snd (by_id DELETE k req w))
     = (unlinked w ++ List.filter truthy (files_of k e))%list
  /\ disk (snd (by_id DELETE k req w)) = disk w ∖ paths_of (files_of k e)
  /\ users (storage (snd (by_id DELETE k req w))) = users (storage w).
Proof.
  intros Hna Hsome Hown. destruct w as [s d tms c u].
  remember (paths_of (files_of k e)) as P eqn:HP.
  remember (List.filter truthy (files_of k e)) as F eqn:HF.
  destruct k; run_handler; rewrite Hna; simpl;
    rewrite Hsome; simpl; rewrite Hown; simpl.
  - rewrite Hsome. simpl.
    apply map_get_is_num in Hsome as (n & -> & _); simpl. subst P F.
    repeat split; [apply jsmap_get_delete_eq | now rewrite app_nil_r
                  | set_solver].
  - step_unlink. rewrite Hsto, Hsome.
    apply map_get_is_num in Hsome as (n & -> & _).
    cbn [fst snd status json map_delete map_get storage with_storage ads
         with_ads unlinked disk users].
    rewrite Hunl, Hdisk. subst P F.
    repeat split. apply jsmap_get_delete_eq.
  - do 3 step_unlink. rewrite Hsto1, Hsto0, Hsto, Hsome.
    apply map_get_is_num in Hsome as (n & -> & _).
    cbn [fst snd status json map_delete map_get storage with_storage
         videos with_videos unlinked disk users].
    rewrite Hunl1, Hunl0, Hunl, Hdisk1, Hdisk0, Hdisk. subst P F.
    split; [reflexivity|]. split; [|split; [|split; [|reflexivity]]].
    + apply jsmap_get_delete_eq.
    + rewrite <- !app_assoc. f_equal. simpl.
      destruct (truthy (field e "rawFilePath")),
        (truthy (field e "processedFilePath")),
        (truthy (field e "thumbnailPath")); reflexivity.
    + cbn [files_of]. rewrite paths_of_three. apply difference_thrice.
Qed.

(** ** Order of checks on the by-id routes *)

(** The three refusals: they change nothing. *)
Lemma by_id_no_session (m : Method) (k : Kind) (req : Request) (w : World) :
  not_authenticated req = true ->
  by_id m k req w = (json 401 (message "Not authenticated"), w).
Proof.
  intros Hna. destruct m, k; run_handler; now rewrite Hna.
Qed.

Lemma by_id_absent (m : Method) (k : Kind) (req : Request) (w : World) :
  not_authenticated req = false ->
  stored k (id_of req) w = None ->
  status (fst (by_id m k req w)) = 404 /\ snd (by_id m k req w) = w.
Proof.
  intros Hna Habs. destruct w as [s d tms c u].
  destruct m, k; run_handler; rewrite Hna; simpl in *; rewrite Habs;
    split; reflexivity.
Qed.

Lemma by_id_not_owner (m : Method) (k : Kind) (req : Request) (w : World)
    (e : obj) :
  not_authenticated req = false ->
  stored k (id_of req) w = Some e ->
  strict_eq (field e "userId") (session_userId req) = false ->
  status (fst (by_id m k req w)) = 403 /\ snd (by_id m k req w) = w.
Proof.
  intros Hna Hsome Hne. destruct w as [s d tms c u].
  destruct m, k; run_handler; rewrite Hna; simpl in *; rewrite Hsome;
    simpl; rewrite Hne; split; reflexivity.
Qed.

(** The owner's GET answers 200 with the record and changes nothing. *)
Lemma get_owner (k : Kind) (req : Request) (w : World) (e : obj) :
  not_authenticated req = false ->
  stored k (id_of req) w = Some e ->
  strict_eq (field e "userId") (session_userId req) = true ->
  by_id GET k req w = (json 200 (VObj e), w).
Proof.
  intros Hna Hsome Heq. destruct w as [s d tms c u].
  destruct k; run_handler; rewrite Hna; simpl in *; rewrite Hsome;
    simpl; rewrite Heq; reflexivity.
Qed.

(** No by-id route touches the users. *)
Lemma by_id_users (m : Method) (k : Kind) (req : Request) (w : World) :
  users (storage (snd (by_id m k req w))) = users (storage w).
Proof.
  destruct (not_authenticated req) eqn:Hna.
  { now rewrite by_id_no_session. }
  destruct (stored k (id_of req) w) as [e|] eqn:Hsome.
  2:{ now destruct (by_id_absent m k req w Hna Hsome) as (_ & ->). }
  destruct (strict_eq (field e "userId") (session_userId req)) eqn:Hown.
  2:{ now destruct (by_id_not_owner m k req w e Hna Hsome Hown)
        as (_ & ->). }
  destruct m.
  - now rewrite (get_owner k req w e).
  - now destruct (patch_owner k req w e Hna Hsome Hown) as (_ & _ & ->).
  - now destruct (delete_owner k req w e Hna Hsome Hown)
      as (_ & _ & _ & _ & ->).
Qed.

(** C2. On GET, PATCH and DELETE of /api/campaigns/:id, /api/ads/:id and
    /api/videos/:id the checks come in the order authentication,
    existence, ownership: without a valid session the answer is 401;
    with one, an absent entity gives 404; with the entity present, a
    [userId] different from the session's gives 403; in these three cases
    nothing is changed, and only when all three checks pass does the
    operation run and answer 200. *)
Theorem by_id_check_order (m : Method) (k : Kind) (req : Request)
    (w : World) :
  (not_authenticated req = true ->
     status (fst (by_id m k req w)) = 401 /\ snd (by_id m k req w) = w)
  /\ (not_authenticated req = false ->
      stored k (id_of req) w = None ->
      status (fst (by_id m k req w)) = 404 /\ snd (by_id m k req w) = w)
  /\ (forall e : obj,
        not_authenticated req = false ->
        stored k (id_of req) w = Some e ->
        strict_eq (field e "userId") (session_userId req) = false ->
        status (fst (by_id m k req w)) = 403 /\ snd (by_id m k req w) = w)
  /\ (forall e : obj,
        not_authenticated req = false ->
        stored k (id_of req) w = Some e ->
        strict_eq (field e "userId") (session_userId req) = true ->
        status (fst (by_id m k req w)) = 200).
Proof.
  split; [|split; [|split]].
  - intros Hna. now rewrite by_id_no_session.
  - apply by_id_absent.
  - apply by_id_not_owner.
  - intros e Hna Hsome Heq. destruct m.
    + now rewrite (get_owner k req w e).
    + now destruct (patch_owner k req w e Hna Hsome Heq) as (-> & _).
    + now destruct (delete_owner k req w e Hna Hsome Heq) as (-> & _).
Qed.

(** ** What PATCH writes *)

(** C9. On PATCH of /api/campaigns/:id, /api/ads/:id and /api/videos/:id
    by the entity's owner the raw request body is shallow-merged onto the
    stored record and the result is persisted and returned: every
    property present in the body, whatever its name ([userId], [id] and
    [createdAt] included), replaces the stored value, and every other
    property keeps it. *)
Theorem patch_overwrites_any_field (k : Kind) (req : Request) (w : World)
    (e : obj) :
  not_authenticated req = false ->
  stored k (id_of req) w = Some e ->
  strict_eq (field e "userId") (session_userId req) = true ->
  exists updated : obj,
    fst (by_id PATCH k req w) = json 200 (VObj updated)
    /\ stored k (id_of req) (snd (by_id PATCH k req w)) = Some updated
    /\ (forall (key : string) (v : value),
          spread (body req) !! key = Some v -> updated !! key = Some v)
    /\ (forall key : string,
          spread (body req) !! key = None -> updated !! key = e !! key).
Proof.
  intros Hna Hsome Hown.
  destruct (patch_owner k req w e Hna Hsome Hown) as (Hres & Hst & _).
  exists (merge e (spread (body req))).
  repeat split; try assumption.
  - intros key v. apply merge_lookup_body.
  - intros key. apply merge_lookup_stored.
Qed.

(** ** What DELETE removes *)

(** C7. When the authenticated owner deletes an existing ad or video, the
    answer is 200, the storage record is gone and [fs.unlink] has been
    called on each of its file paths that is set (the ad's [filePath];
    the video's [rawFilePath], [processedFilePath] and [thumbnailPath]).
    Nothing is assumed about the disk: a file that is missing makes the
    unlink fail, the failure is swallowed and the delete goes through all
    the same; afterwards none of the paths is on the disk.  (A campaign
    has no files, and its DELETE unlinks nothing.) *)
Theorem delete_removes_record_and_files (k : Kind) (req : Request)
    (w : World) (e : obj) :
  not_authenticated req = false ->
  stored k (id_of req) w = Some e ->
  strict_eq (field e "userId") (session_userId req) = true ->
  status (fst (by_id DELETE k req w)) = 200
  /\ stored k (id_of req) (snd (by_id DELETE k req w)) = None
  /\ unlinked (snd (by_id DELETE k req w))
     = (unlinked w ++ List.filter truthy (files_of k e))%list
  /\ disk (snd (by_id DELETE k req w)) = disk w ∖ paths_of (files_of k e).
Proof.
  intros Hna Hsome Hown.
  destruct (delete_owner k req w e Hna Hsome Hown)
    as (Hst & Hgone & Hunl & Hdisk & _).
  now repeat split.
Qed.

(** ** Download *)

Lemma with_storage_same (w : World) : with_storage (storage w) w = w.
Proof. now destruct w. Qed.

(** C10, as amended.  On GET /api/videos/:id/download by the owner of an
    existing video the answer is 400 with the message "Video is not ready
    for download" if and only if the video's status is neither "ready"
    nor "published"; otherwise it is 200 with [url] equal to
    [processedFilePath] when that is truthy (not [null], [undefined] or
    the empty string) and to [rawFilePath] otherwise; the world is
    unchanged in both cases. *)
Theorem download_url_when_ready (req : Request) (w : World) (v : obj) :
  not_authenticated req = false ->
  stored Videos (id_of req) w = Some v ->
  strict_eq (field v "userId") (session_userId req) = true ->
  snd (download_video req w) = w
  /\ (status (fst (download_video req w)) = 400 <->
      field v "status" <> VStr "ready"
      /\ field v "status" <> VStr "published")
  /\ (field v "status" <> VStr "ready"
      /\ field v "status" <> VStr "published" ->
      fst (download_video req w)
      = json 400 (message "Video is not ready for download"))
  /\ (field v "status" = VStr "ready"
      \/ field v "status" = VStr "published" ->
      fst (download_video req w)
      = json 200
          (VObj (object
                   [("message", VStr "Download started");
                    ("url",
                     if truthy (field v "processedFilePath")
                     then field v "processedFilePath"
                     else field v "rawFilePath")]))).
Proof.
  intros Hna Hsome Hown.
  run_handler. rewrite Hna. simpl in *. rewrite Hsome. simpl.
  rewrite Hown. simpl. rewrite with_storage_same.
  destruct (strict_eq (field v "status") (VStr "ready")) eqn:Hready;
    [apply strict_eq_VStr in Hready | apply strict_eq_VStr_false in Hready];
    (destruct (strict_eq (field v "status") (VStr "published")) eqn:Hpub;
     [apply strict_eq_VStr in Hpub | apply strict_eq_VStr_false in Hpub]);
    simpl; (split; [reflexivity|]).
  - rewrite Hready in Hpub. discriminate.
  - split; [split; [discriminate | tauto] |]. split; [tauto | reflexivity].
  - split; [split; [discriminate | tauto] |]. split; [tauto | reflexivity].
  - split; [tauto |]. split; [reflexivity | tauto].
Qed.

(** ** Ad upload *)

(** Multer writes to the disk only. *)
Lemma upload_single_frame (name : string) (req : Request) (w w' : World)
    (m : Multer) :
  upload_single name req w = (m, w') ->
  storage w' = storage w /\ timers w' = timers w
  /\ console w' = console w /\ unlinked w' = unlinked w.
Proof.
  unfold upload_single.
  destruct (file_part req); [|now intros [= _ <-]].
  repeat match goal with
         | |- (if ?c then _ else _) = _ -> _ => destruct c
         end; now intros [= _ <-].
Qed.

(** What the upload handler does for an authenticated request with a
    stored file. *)
Lemma ads_upload_handler_creates (file : File) (req : Request) (w : World) :
  not_authenticated req = false ->
  exists ad : obj,
    ads_upload_handler (Some file) req w
    = (json 201 (VObj ad),
       with_storage
         (with_ads (JsMap.set (adId (storage w)) ad (ads (storage w)))
                   (adId (storage w) + 1) (storage w)) w)
    /\ field ad "id" = VNum (adId (storage w))
    /\ field ad "userId" = session_userId req
    /\ field ad "filePath" = VStr (path file)
    /\ field ad "duration" = VNum 30
    /\ field ad "status" = VStr "pending".
Proof.
  intros Hna. unfold ads_upload_handler. rewrite Hna.
  unfold try_catch, bind, lift, ret, createAd. simpl.
  eexists. split; [reflexivity|].
  repeat split; reflexivity.
Qed.

(** C8. Every POST /api/ads/upload that answers 201 has created an Ad
    record, stored under a new id and returned in the response, whose
    [duration] is 30 and whose [status] is "pending" whatever the request
    body holds, and whose [userId] is the session's. *)
Theorem ad_upload_fixed_fields (req : Request) (w w' : World)
    (r : Response) :
  ads_upload req w = (Sent r, w') ->
  status r = 201 ->
  exists ad : obj,
    content r = Json (VObj ad)
    /\ stored Ads (VNum (adId (storage w))) w' = Some ad
    /\ field ad "id" = VNum (adId (storage w))
    /\ field ad "duration" = VNum 30
    /\ field ad "status" = VStr "pending"
    /\ field ad "userId" = session_userId req.
Proof.
  unfold ads_upload. intros Hrun Hstatus.
  destruct (upload_single "file" req w) as [[file|err] w1] eqn:Hup;
    [|discriminate].
  destruct (ads_upload_handler file req w1) as [r1 w2] eqn:Hh.
  injection Hrun as -> ->.
  destruct (not_authenticated req) eqn:Hna.
  { unfold ads_upload_handler in Hh. rewrite Hna in Hh.
    injection Hh as <- _. discriminate. }
  destruct file as [file|].
  2:{ unfold ads_upload_handler in Hh. rewrite Hna in Hh.
      injection Hh as <- _. discriminate. }
  destruct (ads_upload_handler_creates file req w1 Hna)
    as (ad & Hrun & Hid & Huser & _ & Hdur & Hst).
  rewrite Hrun in Hh. injection Hh as <- <-.
  destruct (upload_single_frame _ _ _ _ _ Hup) as (Hsame & _).
  exists ad. rewrite <- Hsame.
  repeat split; try assumption.
  simpl. apply jsmap_get_set_eq.
Qed.

(** ** The size limit of the ad upload

    The multer instance is shared by the two upload routes and carries
    the one limit written for videos. *)

(** Both upload routes refuse a file part of more than [fileSize] bytes
    and leave the world as it was. *)
Lemma upload_over_2GB_refused (req : Request) (w : World) (f : FilePart) :
  file_part req = Some f ->
  fileSize < size f ->
  (exists err, ads_upload req w = (NextError err, w))
  /\ (exists err, videos_upload req w = (NextError err, w)).
Proof.
  intros Hf Hsize. unfold ads_upload, videos_upload, upload_single.
  rewrite Hf.
  assert (Hlt : (fileSize <? size f) = true) by now apply Z.ltb_lt.
  rewrite Hlt.
  destruct (negb (String.eqb (fieldname f) "file"));
    destruct (negb (fileFilter f)); split; eexists; reflexivity.
Qed.

(** C1, on the code.  An authenticated POST /api/ads/upload whose video
    file is larger than 100MB, and not larger than the 2GB of [fileSize],
    is not rejected: the answer is 201 and an Ad record has been created
    for the stored file. *)
Theorem ad_upload_over_100MB_accepted (req : Request) (w : World)
    (f : FilePart) :
  not_authenticated req = false ->
  file_part req = Some f ->
  fieldname f = "file" ->
  fileFilter f = true ->
  100 * 1024 * 1024 < size f <= fileSize ->
  exists ad : obj,
    fst (ads_upload req w) = Sent (json 201 (VObj ad))
    /\ stored Ads (VNum (adId (storage w))) (snd (ads_upload req w))
       = Some ad
    /\ field ad "filePath"
       = VStr (path_join [destination f; filename req f])
    /\ adId (storage (snd (ads_upload req w))) = adId (storage w) + 1.
Proof.
  intros Hna Hf Hname Hfilter [_ Hsize].
  unfold ads_upload, upload_single. rewrite Hf, Hname, Hfilter. simpl.
  assert (Hle : (fileSize <? size f) = false) by now apply Z.ltb_ge.
  rewrite Hle.
  match goal with
  | |- context [ads_upload_handler (Some ?file) req ?w1] =>
      destruct (ads_upload_handler_creates file req w1 Hna)
        as (ad & -> & _ & _ & Hpath & _)
  end.
  exists ad. simpl. repeat split; [apply jsmap_get_set_eq | exact Hpath].
Qed.

(** ** Video upload and the processing timer *)

Lemma videos_upload_handler_creates (file : File) (req : Request)
    (w w' : World) (r : Response) :
  videos_upload_handler (Some file) req w = (r, w') ->
  status r = 201 ->
  exists video : obj,
    r = json 201 (VObj video)
    /\ field video "id" = VNum (videoId (storage w))
    /\ field video "status" = VStr "processing"
    /\ stored Videos (VNum (videoId (storage w))) w' = Some video
    /\ timers w'
       = (timers w ++ [{| set_at := now req; delay := 10000;
                          timer_video := VNum (videoId (storage w));
                          timer_path := path file |}])%list.
Proof.
  unfold videos_upload_handler.
  destruct (not_authenticated req); [intros [= <- _]; discriminate|].
  unfold try_catch, bind, lift, ret, throw, createVideo, setTimeout.
  destruct (truthy (prop (body req) "adPreferences"));
    [destruct (JSON_parse (prop (body req) "adPreferences"))|];
    simpl; intros [= <- <-]; try discriminate; intros _;
    (eexists; split; [reflexivity|]);
    (repeat split; try reflexivity; simpl; apply jsmap_get_set_eq).
Qed.

(** The callback on a video that is still stored. *)
Lemma processing_done_ready (tm : Timer) (rnd : Z) (w : World) (v : obj) :
  stored Videos (timer_video tm) w = Some v ->
  exists v' : obj,
    stored Videos (timer_video tm) (processing_done tm rnd w) = Some v'
    /\ processed v'.
Proof.
  intros Hsome. unfold processing_done, try_catch, bind, lift, ret,
    updateVideo, stored in *. rewrite Hsome. simpl.
  apply map_get_is_num in Hsome as (n & -> & _). simpl.
  eexists. split; [apply jsmap_get_set_eq|].
  unfold processed, non_null, field, merge, processed_info, spread.
  repeat split;
    try (erewrite lookup_union_Some_l by reflexivity;
         simpl; first [reflexivity | discriminate]).
Qed.

(** The callback leaves every other video as it is. *)
Lemma processing_done_other (tm : Timer) (rnd : Z) (w : World) (n : Z) :
  timer_video tm <> VNum n ->
  stored Videos (VNum n) (processing_done tm rnd w)
  = stored Videos (VNum n) w.
Proof.
  intros Hne. unfold processing_done, try_catch, bind, lift, ret,
    updateVideo, stored.
  destruct (map_get (timer_video tm) (videos (storage w))) as [v|] eqn:Hget;
    simpl; [|reflexivity].
  apply map_get_is_num in Hget as (m & Hm & _). rewrite Hm in *. simpl.
  apply jsmap_get_set_ne. congruence.
Qed.

Lemma value_num_dec (v : value) (n : Z) : {v = VNum n} + {v <> VNum n}.
Proof.
  destruct v as [| |b|m| |s|t|l|o]; try (right; discriminate).
  destruct (Z.eq_dec m n) as [->|Hne]; [now left | right; congruence].
Qed.

(** A stored video stays stored when a callback runs, and a processed
    one stays processed. *)
Lemma processing_done_keeps (tm : Timer) (rnd : Z) (w : World) (n : Z)
    (v : obj) :
  stored Videos (VNum n) w = Some v ->
  exists v' : obj,
    stored Videos (VNum n) (processing_done tm rnd w) = Some v'
    /\ (processed v -> processed v').
Proof.
  intros Hsome. destruct (value_num_dec (timer_video tm) n) as [Heq|Hne].
  - rewrite <- Heq in *.
    destruct (processing_done_ready tm rnd w v Hsome) as (v' & Hv' & Hp).
    exists v'. now split.
  - exists v. now rewrite processing_done_other.
Qed.

Lemma fire_all_keeps (draws : nat -> Z) (due : list Timer) :
  forall (k : nat) (w : World) (n : Z) (v : obj),
    stored Videos (VNum n) w = Some v ->
    exists v' : obj,
      stored Videos (VNum n) (fire_all draws k due w) = Some v'
      /\ (processed v -> processed v').
Proof.
  induction due as [|tm due IH]; intros k w n v Hsome; simpl.
  - now exists v.
  - destruct (processing_done_keeps tm (draws k) w n v Hsome)
      as (v1 & Hv1 & Hp1).
    destruct (IH (S k) _ n v1 Hv1) as (v2 & Hv2 & Hp2).
    exists v2. split; [assumption | tauto].
Qed.

(** Once the callbacks of a list of timers have run, the video of each
    of them that was still stored is processed. *)
Lemma fire_all_ready (draws : nat -> Z) (due : list Timer) (tm : Timer) :
  forall (k : nat) (w : World) (n : Z) (v : obj),
    In tm due ->
    timer_video tm = VNum n ->
    stored Videos (VNum n) w = Some v ->
    exists v' : obj,
      stored Videos (VNum n) (fire_all draws k due w) = Some v'
      /\ processed v'.
Proof.
  induction due as [|tm0 due IH]; intros k w n v Hin Hid Hsome;
    [contradiction|].
  simpl. destruct Hin as [->|Hin].
  - rewrite <- Hid in Hsome.
    destruct (processing_done_ready tm (draws k) w v Hsome)
      as (v1 & Hv1 & Hp1).
    rewrite Hid in Hv1.
    destruct (fire_all_keeps draws due (S k) _ n v1 Hv1)
      as (v2 & Hv2 & Hp2).
    exists v2. split; [assumption | tauto].
  - destruct (processing_done_keeps tm0 (draws k) w n v Hsome)
      as (v1 & Hv1 & _).
    exact (IH (S k) _ n v1 Hin Hid Hv1).
Qed.

(** ** Pending timers

    No route removes a timer; the event loop removes those that are
    due. *)

Lemma leaves_timers_ret {A : Type} (a : A) :
  leaves_timers (ret (S := World) a).
Proof. intros w. apply incl_refl. Qed.

Lemma leaves_timers_throw {A : Type} (e : Error) :
  leaves_timers (throw (S := World) (A := A) e).
Proof. intros w. apply incl_refl. Qed.

Lemma leaves_timers_bind {A B : Type} (c : St World A)
    (k : A -> St World B) :
  leaves_timers c -> (forall a, leaves_timers (k a)) ->
  leaves_timers (bind c k).
Proof.
  intros Hc Hk w. unfold bind. specialize (Hc w).
  destruct (c w) as [[a|e] w1]; simpl in *; [|exact Hc].
  eapply incl_tran; [exact Hc | apply Hk].
Qed.

Lemma leaves_timers_lift {A : Type} (m : St MemStorage.t A) :
  leaves_timers (lift m).
Proof.
  intros w. unfold lift. destruct (m (storage w)) as [r s].
  apply incl_refl.
Qed.

Lemma leaves_timers_unlink (v : value) (msg : string) :
  leaves_timers (if truthy v then catch_log (fs_unlink v) msg else ret tt).
Proof.
  intros w. destruct (truthy v); [|apply incl_refl].
  unfold catch_log, fs_unlink.
  destruct v; try apply incl_refl.
  destruct (decide (s ∈ disk w)); apply incl_refl.
Qed.

Lemma leaves_timers_setTimeout (tm : Timer) : leaves_timers (setTimeout tm).
Proof. intros w. simpl. apply incl_appl, incl_refl. Qed.

Lemma leaves_timers_try_catch {A : Type} (c : St World A) (a : A)
    (msg : string) :
  leaves_timers c ->
  leaves_timers (try_catch c (fun _ w' => (a, console_error msg w'))).
Proof.
  intros Hc w. unfold try_catch. specialize (Hc w).
  destruct (c w) as [[x|e] w1]; exact Hc.
Qed.

(** Takes a monadic handler body apart. *)
Ltac timers_body :=
  repeat first
    [ apply leaves_timers_ret
    | apply leaves_timers_throw
    | apply leaves_timers_setTimeout
    | apply leaves_timers_unlink
    | apply leaves_timers_lift
    | apply leaves_timers_bind; [|intros ?]
    | progress unfold hash, compare
    | match goal with
      | |- leaves_timers (match ?x with _ => _ end) => destruct x
      | |- leaves_timers (if ?b then _ else _) => destruct b
      end ].

(** Unfolds a route down to its [try_catch]. *)
Ltac timers_route :=
  let w := fresh "w" in
  intros w;
  repeat match goal with
         | |- incl _ (timers (snd (if ?b then _ else _))) => destruct b
         | |- incl _ (timers (snd (match ?x with _ => _ end))) =>
             destruct x
         end;
  try apply incl_refl;
  apply leaves_timers_try_catch; timers_body.

Lemma by_id_leaves_timers (m : Method) (k : Kind) (req : Request) :
  leaves_timers (by_id m k req).
Proof.
  destruct m, k; unfold by_id, get_campaign, patch_campaign,
    delete_campaign, get_ad, patch_ad, delete_ad, get_video, patch_video,
    delete_video; timers_route.
Qed.

Lemma download_leaves_timers (req : Request) :
  leaves_timers (download_video req).
Proof. unfold download_video. timers_route. Qed.

Lemma register_leaves_timers (req : Request) :
  leaves_timers (register req).
Proof.
  unfold register, validateRequest, register_handler. timers_route.
Qed.

Lemma login_leaves_timers (req : Request) : leaves_timers (login req).
Proof.
  unfold login, login_handler. intros w.
  destruct (loginUserSchema (body req)); [|apply incl_refl].
  apply leaves_timers_try_catch with (a := (_, _)). timers_body.
Qed.

Lemma me_leaves_timers (req : Request) : leaves_timers (me req).
Proof. unfold me. timers_route. Qed.

Lemma list_campaigns_leaves_timers (rnd : Random) (req : Request) :
  leaves_timers (list_campaigns rnd req).
Proof. unfold list_campaigns. timers_route. Qed.

Lemma list_ads_leaves_timers (req : Request) :
  leaves_timers (list_ads req).
Proof. unfold list_ads. timers_route. Qed.

Lemma list_videos_leaves_timers (req : Request) :
  leaves_timers (list_videos req).
Proof. unfold list_videos. timers_route. Qed.

Lemma analytics_summary_leaves_timers (rnd : Random) (req : Request) :
  leaves_timers (analytics_summary rnd req).
Proof. unfold analytics_summary. timers_route. Qed.

Lemma creator_summary_leaves_timers (rnd : Random) (req : Request) :
  leaves_timers (creator_summary rnd req).
Proof. unfold creator_summary. timers_route. Qed.

Lemma create_campaign_leaves_timers (req : Request) :
  leaves_timers (create_campaign req).
Proof.
  unfold create_campaign, validateRequest, create_campaign_handler.
  timers_route.
Qed.

Lemma ads_upload_leaves_timers (req : Request) :
  leaves_timers (ads_upload req).
Proof.
  intros w. unfold ads_upload.
  destruct (upload_single "file" req w) as [[file|err] w1] eqn:Hup;
    destruct (upload_single_frame _ _ _ _ _ Hup) as (_ & Htm & _);
    [|simpl; rewrite Htm; apply incl_refl].
  rewrite <- Htm.
  assert (Hh : leaves_timers (ads_upload_handler file req))
    by (unfold ads_upload_handler; timers_route).
  specialize (Hh w1).
  now destruct (ads_upload_handler file req w1).
Qed.

Lemma videos_upload_leaves_timers (req : Request) :
  leaves_timers (videos_upload req).
Proof.
  intros w. unfold videos_upload.
  destruct (upload_single "file" req w) as [[file|err] w1] eqn:Hup;
    destruct (upload_single_frame _ _ _ _ _ Hup) as (_ & Htm & _);
    [|simpl; rewrite Htm; apply incl_refl].
  rewrite <- Htm.
  assert (Hh : leaves_timers (videos_upload_handler file req))
    by (unfold videos_upload_handler; timers_route).
  specialize (Hh w1).
  now destruct (videos_upload_handler file req w1).
Qed.

(** A timer that is not yet due stays pending through a tick. *)
Lemma advance_leaves_timer (t : Z) (draws : nat -> Z) (w : World)
    (tm : Timer) :
  t < set_at tm + delay tm ->
  In tm (timers w) -> In tm (timers (advance t draws w)).
Proof.
  intros Hearly Hin. unfold advance. cbn [timers].
  apply filter_In. split; [exact Hin|].
  unfold is_due. apply negb_true_iff, Z.leb_gt. exact Hearly.
Qed.

(** A pending timer stays pending through every request, and through
    every tick that comes before it is due. *)
Lemma act_leaves_timer (c : Call) (w : World) (tm : Timer) :
  ticks_before (set_at tm + delay tm) [c] = true ->
  In tm (timers w) -> In tm (timers (act w c)).
Proof.
  intros Hearly Hin.
  destruct c as [ev| | | | | | | | |]; cbn [act]; try exact Hin.
  - destruct ev; cbn [step].
    + now apply register_leaves_timers.
    + now apply login_leaves_timers.
    + now apply by_id_leaves_timers.
    + now apply download_leaves_timers.
    + now apply ads_upload_leaves_timers.
    + now apply videos_upload_leaves_timers.
    + apply advance_leaves_timer; [|exact Hin].
      simpl in Hearly. rewrite andb_true_r in Hearly.
      now apply Z.ltb_lt.
  - now apply me_leaves_timers.
  - now apply list_campaigns_leaves_timers.
  - now apply create_campaign_leaves_timers.
  - now apply list_ads_leaves_timers.
  - now apply list_videos_leaves_timers.
  - now apply analytics_summary_leaves_timers.
  - now apply creator_summary_leaves_timers.
Qed.

Lemma play_leaves_timer (cs : list Call) (tm : Timer) :
  forall w : World,
    ticks_before (set_at tm + delay tm) cs = true ->
    In tm (timers w) -> In tm (timers (play cs w)).
Proof.
  induction cs as [|c cs IH]; intros w Hearly Hin; [exact Hin|].
  cbn [play fold_left]. unfold ticks_before in Hearly.
  cbn [forallb] in Hearly. apply andb_true_iff in Hearly as [Hc Hcs].
  apply IH; [exact Hcs|].
  apply act_leaves_timer; [|exact Hin].
  unfold ticks_before. cbn [forallb]. now rewrite Hc.
Qed.

(** C6. Every video upload that answers 201 returns a Video record whose
    status is "processing" (so "uploaded" or "processing"), and has set a
    timer with the fixed delay of 10000 ms.  Whatever requests are then
    served, and whatever ticks of the event loop come before the delay
    has elapsed, the timer stays pending; if the video has not been
    deleted by then, the first tick at or after the upload time plus the
    delay leaves it "ready", with [processedFilePath], [thumbnailPath]
    and [duration] neither [null] nor [undefined].  The same holds in
    any world in which the timer is pending and the video is stored. *)
Theorem video_upload_then_ready (req : Request) (w w1 : World)
    (r : Response) :
  videos_upload req w = (Sent r, w1) ->
  status r = 201 ->
  exists (video : obj) (id : Z) (tm : Timer),
    content r = Json (VObj video)
    /\ (field video "status" = VStr "uploaded"
        \/ field video "status" = VStr "processing")
    /\ field video "id" = VNum id
    /\ stored Videos (VNum id) w1 = Some video
    /\ timers w1 = (timers w ++ [tm])%list
    /\ set_at tm = now req /\ delay tm = 10000
    /\ (forall (w2 : World) (t : Z) (draws : nat -> Z),
          In tm (timers w2) ->
          (exists v : obj, stored Videos (VNum id) w2 = Some v) ->
          now req + 10000 <= t ->
          exists v' : obj,
            stored Videos (VNum id) (advance t draws w2) = Some v'
            /\ processed v')
    /\ (forall cs : list Call,
          ticks_before (now req + 10000) cs = true ->
          In tm (timers (play cs w1)))
    /\ (forall (cs : list Call) (t : Z) (draws : nat -> Z),
          ticks_before (now req + 10000) cs = true ->
          (exists v : obj, stored Videos (VNum id) (play cs w1) = Some v) ->
          now req + 10000 <= t ->
          exists v' : obj,
            stored Videos (VNum id) (advance t draws (play cs w1))
            = Some v'
            /\ processed v').
Proof.
  unfold videos_upload. intros Hrun Hstatus.
  destruct (upload_single "file" req w) as [[file|err] w0] eqn:Hup;
    [|discriminate].
  destruct (videos_upload_handler file req w0) as [r1 w2] eqn:Hh.
  injection Hrun as -> ->.
  destruct file as [file|].
  2:{ unfold videos_upload_handler in Hh.
      destruct (not_authenticated req); injection Hh as <- _;
        discriminate. }
  destruct (upload_single_frame _ _ _ _ _ Hup) as (Hsto & Htm & _).
  destruct (videos_upload_handler_creates file req w0 w1 r Hh Hstatus)
    as (video & -> & Hid & Hst & Hstored & Htimers).
  rewrite Hsto in *. rewrite Htm in Htimers.
  set (tm := {| set_at := now req; delay := 10000;
                timer_video := VNum (videoId (storage w));
                timer_path := path file |}) in *.
  assert (Hfire : forall (w2 : World) (t : Z) (draws : nat -> Z),
             In tm (timers w2) ->
             (exists v : obj,
                stored Videos (VNum (videoId (storage w))) w2 = Some v) ->
             now req + 10000 <= t ->
             exists v' : obj,
               stored Videos (VNum (videoId (storage w)))
                      (advance t draws w2) = Some v'
               /\ processed v').
  { intros w2 t draws Hin [v Hv] Ht.
    unfold advance, stored. simpl.
    apply (fire_all_ready draws _ tm 0%nat w2 _ v);
      [|reflexivity|exact Hv].
    apply filter_In. split; [exact Hin|].
    unfold is_due. simpl. now apply Z.leb_le. }
  assert (Hpending : forall cs : list Call,
             ticks_before (now req + 10000) cs = true ->
             In tm (timers (play cs w1))).
  { intros cs Hearly. apply play_leaves_timer; [exact Hearly|].
    rewrite Htimers. apply in_or_app. right. now left. }
  exists video, (videoId (storage w)), tm.
  split; [reflexivity|]. split; [now right|]. split; [exact Hid|].
  split; [exact Hstored|]. split; [exact Htimers|].
  split; [reflexivity|]. split; [reflexivity|].
  split; [exact Hfire|]. split; [exact Hpending|].
  intros cs t draws Hearly Hv Ht.
  apply Hfire; [now apply Hpending | exact Hv | exact Ht].
Qed.

(** ** Looking users up *)

(** On well-formed users the throwing [find] of [getUserByEmail] and
    [getUserByUsername] is the plain search. *)
Lemma find_lowercase (key x : string) (l : list obj) :
  Forall (fun u => is_string (field u key) = true) l ->
  find (fun user => same_lowercase (field user key) (VStr x)) l
  = Ret (List.find (has_lowercase key x) l).
Proof.
  induction 1 as [|u l Hu _ IH]; simpl; [reflexivity|].
  unfold has_lowercase. destruct (field u key); try discriminate Hu.
  simpl. destruct (String.eqb _ _); [reflexivity | exact IH].
Qed.

Lemma users_wf_fields (s : MemStorage.t) :
  users_wf s ->
  Forall (fun u => is_string (field u "email") = true)
         (JsMap.values (users s))
  /\ Forall (fun u => is_string (field u "username") = true)
            (JsMap.values (users s)).
Proof.
  unfold users_wf, user_wf. rewrite forallb_forall.
  intros Hwf. split; apply List.Forall_forall; intros u Hu;
    specialize (Hwf u Hu); apply andb_true_iff in Hwf; tauto.
Qed.

Lemma getUserByEmail_wf (e : string) (s : MemStorage.t) :
  users_wf s ->
  getUserByEmail (VStr e) s
  = (Ret (List.find (has_lowercase "email" e) (JsMap.values (users s))), s).
Proof.
  intros Hwf. unfold getUserByEmail.
  now rewrite find_lowercase by apply (users_wf_fields s Hwf).
Qed.

Lemma getUserByUsername_wf (n : string) (s : MemStorage.t) :
  users_wf s ->
  getUserByUsername (VStr n) s
  = (Ret (List.find (has_lowercase "username" n) (JsMap.values (users s))),
     s).
Proof.
  intros Hwf. unfold getUserByUsername.
  now rewrite find_lowercase by apply (users_wf_fields s Hwf).
Qed.

Lemma find_existsb_true {A : Type} (p : A -> bool) (l : list A) :
  existsb p l = true ->
  exists x : A, List.find p l = Some x /\ In x l /\ p x = true.
Proof.
  induction l as [|a l IH]; simpl; [discriminate|].
  destruct (p a) eqn:Hp; simpl.
  - intros _. exists a. auto.
  - intros Hex. destruct (IH Hex) as (x & Hx & Hin & Hpx).
    exists x. auto.
Qed.

Lemma find_existsb_false {A : Type} (p : A -> bool) (l : list A) :
  existsb p l = false -> List.find p l = None.
Proof.
  induction l as [|a l IH]; simpl; [reflexivity|].
  destruct (p a); simpl; [discriminate | exact IH].
Qed.

(** ** Registration *)

(** Reads a property through the inserts of an object literal. *)
Ltac field_of_insert :=
  unfold field;
  repeat first [rewrite lookup_insert_eq
               | rewrite lookup_insert_ne by done].

(** C4. A registration request whose e-mail or username is already taken
    by a stored user, compared case-insensitively, is answered 400 and
    changes nothing: no user and no profile is created. *)
Theorem register_rejects_taken (req : Request) (w : World)
    (e n : string) :
  users_wf (storage w) ->
  prop (body req) "email" = VStr e ->
  prop (body req) "username" = VStr n ->
  email_taken e (storage w) = true
  \/ username_taken n (storage w) = true ->
  status (fst (register req w)) = 400 /\ snd (register req w) = w.
Proof.
  intros Hwf He Hn Htaken.
  unfold register, validateRequest.
  destruct (registerUserSchema (body req)); [|now split].
  unfold register_handler, try_catch, bind, lift.
  rewrite He, getUserByEmail_wf by assumption.
  destruct (email_taken e (storage w)) eqn:Hemail.
  - apply find_existsb_true in Hemail as (u & -> & _).
    simpl. now rewrite with_storage_same.
  - destruct Htaken as [Habs|Huser]; [discriminate|].
    apply find_existsb_false in Hemail as ->. cbn beta iota.
    rewrite Hn. cbn [storage with_storage].
    rewrite getUserByUsername_wf by assumption.
    apply find_existsb_true in Huser as (u & -> & _).
    simpl. now rewrite !with_storage_same.
Qed.

(** C5. A valid registration request whose e-mail and username are not
    taken is answered 201 and creates a User with the request's
    [userType] and with a [password] that is the bcrypt hash, not the
    plaintext of the request (bcrypt being assumed not to return its
    input); a Company profile when the type is "company", a Creator
    profile otherwise, is created for the new user's id, and nothing of
    the other kind; the response body has no [password] property. *)
Theorem register_creates_user (req : Request) (w : World)
    (e n p t : string) :
  users_wf (storage w) ->
  registerUserSchema (body req) = true ->
  prop (body req) "email" = VStr e ->
  prop (body req) "username" = VStr n ->
  prop (body req) "password" = VStr p ->
  prop (body req) "userType" = VStr t ->
  email_taken e (storage w) = false ->
  username_taken n (storage w) = false ->
  bcrypt_hash p 10 (salt req) <> p ->
  exists (newUser response : obj),
    fst (register req w) = json 201 (VObj response)
    /\ response !! "password" = None
    /\ JsMap.get (userId (storage w))
                 (users (storage (snd (register req w)))) = Some newUser
    /\ field newUser "id" = VNum (userId (storage w))
    /\ field newUser "userType" = VStr t
    /\ field newUser "password" = VStr (bcrypt_hash p 10 (salt req))
    /\ field newUser "password" <> VStr p
    /\ (t = "company" ->
        (exists profile : obj,
           JsMap.get (companyProfileId (storage w))
                     (companyProfiles (storage (snd (register req w))))
           = Some profile
           /\ field profile "userId" = VNum (userId (storage w)))
        /\ creatorProfiles (storage (snd (register req w)))
           = creatorProfiles (storage w))
    /\ (t <> "company" ->
        (exists profile : obj,
           JsMap.get (creatorProfileId (storage w))
                     (creatorProfiles (storage (snd (register req w))))
           = Some profile
           /\ field profile "userId" = VNum (userId (storage w)))
        /\ companyProfiles (storage (snd (register req w)))
           = companyProfiles (storage w)).
Proof.
  intros Hwf Hvalid He Hn Hp Ht Hemail Huser Hhash.
  unfold register, validateRequest. rewrite Hvalid.
  destruct (body req) as [| | | | | | | |o] eqn:Hbody; try discriminate.
  simpl in He, Hn, Hp, Ht.
  unfold register_handler, try_catch, bind, lift. rewrite Hbody.
  cbn [prop spread]. rewrite He, Hn, Hp, Ht.
  rewrite getUserByEmail_wf by assumption.
  apply find_existsb_false in Hemail as ->. cbn beta iota.
  cbn [storage with_storage].
  rewrite getUserByUsername_wf by assumption.
  apply find_existsb_false in Huser as ->. cbn beta iota.
  cbn [hash ret createUser storage with_storage strict_eq].
  destruct (String.eqb t "company") eqn:Hcompany.
  - apply String.eqb_eq in Hcompany.
    cbn [createCompanyProfile ret storage with_storage fst snd users
         with_users with_companyProfiles companyProfiles creatorProfiles
         companyProfileId].
    eexists _, _. split; [reflexivity|].
    split; [reflexivity|].
    split; [apply jsmap_get_set_eq|].
    assert (Hpw : field (<["createdAt":=VDate (now req)]>
                           (<["id":=VNum (userId (storage w))]>
                              (<["password":=
                                   VStr (bcrypt_hash p 10 (salt req))]> o)))
                        "password"
                  = VStr (bcrypt_hash p 10 (salt req)))
      by now field_of_insert.
    assert (Hid : field (<["createdAt":=VDate (now req)]>
                           (<["id":=VNum (userId (storage w))]>
                              (<["password":=
                                   VStr (bcrypt_hash p 10 (salt req))]> o)))
                        "id"
                  = VNum (userId (storage w)))
      by now field_of_insert.
    split; [exact Hid|].
    split; [field_of_insert; fold (field o "userType"); now rewrite Ht|].
    split; [exact Hpw|].
    split; [rewrite Hpw; congruence|].
    split; intros Hkind; try congruence.
    split; [|reflexivity].
    eexists. split; [apply jsmap_get_set_eq|].
    etransitivity; [|exact Hid]. reflexivity.
  - apply String.eqb_neq in Hcompany.
    cbn [createCreatorProfile ret storage with_storage fst snd users
         with_users with_creatorProfiles companyProfiles creatorProfiles
         creatorProfileId].
    eexists _, _. split; [reflexivity|].
    split; [reflexivity|].
    split; [apply jsmap_get_set_eq|].
    assert (Hpw : field (<["createdAt":=VDate (now req)]>
                           (<["id":=VNum (userId (storage w))]>
                              (<["password":=
                                   VStr (bcrypt_hash p 10 (salt req))]> o)))
                        "password"
                  = VStr (bcrypt_hash p 10 (salt req)))
      by now field_of_insert.
    assert (Hid : field (<["createdAt":=VDate (now req)]>
                           (<["id":=VNum (userId (storage w))]>
                              (<["password":=
                                   VStr (bcrypt_hash p 10 (salt req))]> o)))
                        "id"
                  = VNum (userId (storage w)))
      by now field_of_insert.
    split; [exact Hid|].
    split; [field_of_insert; fold (field o "userType"); now rewrite Ht|].
    split; [exact Hpw|].
    split; [rewrite Hpw; congruence|].
    split; intros Hkind; try congruence.
    split; [|reflexivity].
    eexists. split; [apply jsmap_get_set_eq|].
    etransitivity; [|exact Hid]. reflexivity.
Qed.


(** ** Login *)

(** Login with an e-mail that no stored user has. *)
Lemma login_unknown_email (req : Request) (w : World) (e : string) :
  users_wf (storage w) ->
  loginUserSchema (body req) = true ->
  prop (body req) "email" = VStr e ->
  email_taken e (storage w) = false ->
  login req w
  = ((json 401 (message "Invalid credentials"), session req), w).
Proof.
  intros Hwf Hvalid He Hfree. unfold login. rewrite Hvalid.
  unfold login_handler, try_catch, bind, lift.
  rewrite He, getUserByEmail_wf by assumption.
  apply find_existsb_false in Hfree as ->. simpl.
  now rewrite with_storage_same.
Qed.

(** Login with the e-mail of a stored user and a password that the
    stored hash does not match. *)
Lemma login_wrong_password (req : Request) (w : World) (e p : string) :
  users_wf (storage w) ->
  loginUserSchema (body req) = true ->
  prop (body req) "email" = VStr e ->
  prop (body req) "password" = VStr p ->
  email_taken e (storage w) = true ->
  password_mismatch e p (storage w) = true ->
  login req w
  = ((json 401 (message "Invalid credentials"), session req), w).
Proof.
  intros Hwf Hvalid He Hp Htaken Hwrong. unfold login. rewrite Hvalid.
  unfold login_handler, try_catch, bind, lift.
  rewrite He, Hp, getUserByEmail_wf by assumption.
  apply find_existsb_true in Htaken as (u & -> & Hin & Hu).
  unfold password_mismatch in Hwrong. rewrite forallb_forall in Hwrong.
  specialize (Hwrong u Hin). rewrite Hu in Hwrong. simpl in Hwrong.
  unfold wrong_password in Hwrong. cbn beta iota.
  destruct (field u "password"); try discriminate Hwrong.
  unfold compare, ret. cbn beta iota.
  apply negb_true_iff in Hwrong. rewrite Hwrong. simpl.
  now rewrite with_storage_same.
Qed.

(** C3. A login with an e-mail that no user has and a login with the
    e-mail of an existing user and a password that does not match the
    stored hash get the same answer, status 401 with the message
    "Invalid credentials"; neither writes the session or the world. *)
Theorem login_failures_indistinguishable (req1 req2 : Request)
    (w1 w2 : World) (e1 e2 p2 : string) :
  users_wf (storage w1) ->
  users_wf (storage w2) ->
  loginUserSchema (body req1) = true ->
  loginUserSchema (body req2) = true ->
  prop (body req1) "email" = VStr e1 ->
  prop (body req2) "email" = VStr e2 ->
  prop (body req2) "password" = VStr p2 ->
  email_taken e1 (storage w1) = false ->
  email_taken e2 (storage w2) = true ->
  password_mismatch e2 p2 (storage w2) = true ->
  fst (fst (login req1 w1)) = fst (fst (login req2 w2))
  /\ fst (fst (login req1 w1)) = json 401 (message "Invalid credentials")
  /\ snd (fst (login req1 w1)) = session req1
  /\ snd (fst (login req2 w2)) = session req2
  /\ snd (login req1 w1) = w1
  /\ snd (login req2 w2) = w2.
Proof.
  intros Hwf1 Hwf2 Hv1 Hv2 He1 He2 Hp2 Hfree Htaken Hwrong.
  rewrite (login_unknown_email req1 w1 e1) by assumption.
  rewrite (login_wrong_password req2 w2 e2 p2) by assumption.
  repeat split.
Qed.

(** ** Well-formed users along every run *)

Lemma users_wf_initial : users_wf (storage initial_world).
Proof. reflexivity. Qed.

Lemma login_users (req : Request) (w : World) :
  users (storage (snd (login req w))) = users (storage w).
Proof.
  unfold login, login_handler, try_catch, bind, lift, getUserByEmail,
    compare, ret, throw.
  destruct (loginUserSchema (body req)); [|reflexivity].
  destruct (find _ _) as [[u|]|]; simpl; try reflexivity.
  destruct (prop (body req) "password"); simpl; try reflexivity.
  destruct (field u "password"); simpl; try reflexivity.
  destruct (bcrypt_compare _ _); reflexivity.
Qed.

Lemma download_users (req : Request) (w : World) :
  users (storage (snd (download_video req w))) = users (storage w).
Proof.
  destruct w as [s d tms c u]. run_handler.
  destruct (not_authenticated req); [reflexivity|]. simpl.
  destruct (map_get _ _); simpl; [|reflexivity].
  destruct (strict_eq _ (session_userId req)); simpl; [|reflexivity].
  destruct (_ && _); reflexivity.
Qed.

Lemma ads_upload_users (req : Request) (w : World) :
  users (storage (snd (ads_upload req w))) = users (storage w).
Proof.
  unfold ads_upload.
  destruct (upload_single "file" req w) as [[file|err] w1] eqn:Hup;
    destruct (upload_single_frame _ _ _ _ _ Hup) as (Hsto & _);
    [|simpl; now rewrite Hsto].
  rewrite <- Hsto. clear Hup Hsto.
  destruct (not_authenticated req) eqn:Hna;
    [unfold ads_upload_handler; now rewrite Hna|].
  destruct file as [file|];
    [|unfold ads_upload_handler; now rewrite Hna].
  now destruct (ads_upload_handler_creates file req w1 Hna) as (ad & -> & _).
Qed.

Lemma videos_upload_users (req : Request) (w : World) :
  users (storage (snd (videos_upload req w))) = users (storage w).
Proof.
  unfold videos_upload.
  destruct (upload_single "file" req w) as [[file|err] w1] eqn:Hup;
    destruct (upload_single_frame _ _ _ _ _ Hup) as (Hsto & _);
    [|simpl; now rewrite Hsto].
  rewrite <- Hsto. clear Hup Hsto.
  unfold videos_upload_handler.
  destruct (not_authenticated req); [reflexivity|].
  destruct file as [file|]; [|reflexivity].
  unfold try_catch, bind, lift, ret, throw, createVideo, setTimeout.
  destruct (truthy (prop (body req) "adPreferences"));
    [destruct (JSON_parse (prop (body req) "adPreferences"))|];
    reflexivity.
Qed.

Lemma processing_done_users (tm : Timer) (rnd : Z) (w : World) :
  users (storage (processing_done tm rnd w)) = users (storage w).
Proof.
  unfold processing_done, try_catch, bind, lift, ret, updateVideo.
  destruct (map_get _ _); reflexivity.
Qed.

Lemma advance_users (t : Z) (draws : nat -> Z) (w : World) :
  users (storage (advance t draws w)) = users (storage w).
Proof.
  unfold advance. cbn [storage].
  generalize 0%nat. generalize (List.filter (is_due t) (timers w)).
  intros due. revert w.
  induction due as [|tm due IH]; intros w k; simpl; [reflexivity|].
  now rewrite IH, processing_done_users.
Qed.

Lemma values_set_forallb {A : Type} (p : A -> bool) (k : Z) (v : A)
    (m : JsMap.t A) :
  forallb p (JsMap.values m) = true ->
  p v = true ->
  forallb p (JsMap.values (JsMap.set k v m)) = true.
Proof.
  intros Hm Hv. induction m as [|[k' v'] m IH]; simpl in *.
  - now rewrite Hv.
  - apply andb_true_iff in Hm as [Hv' Hm].
    destruct (k' =? k); simpl; [now rewrite Hv, Hm|].
    now rewrite Hv', IH.
Qed.

(** Registration stores only well-formed users. *)
Lemma register_users_wf (req : Request) (w : World) :
  users_wf (storage w) -> users_wf (storage (snd (register req w))).
Proof.
  intros Hwf. unfold register, validateRequest.
  destruct (registerUserSchema (body req)) eqn:Hvalid; [|exact Hwf].
  destruct (body req) as [| | | | | | | |o] eqn:Hbody; try discriminate.
  simpl in Hvalid. repeat (apply andb_true_iff in Hvalid as [Hvalid ?]).
  destruct (field o "email") as [| | | | |e| | |] eqn:He; try discriminate.
  destruct (field o "username") as [| | | | |n| | |] eqn:Hn;
    try discriminate.
  destruct (field o "password") as [| | | | |p| | |] eqn:Hp;
    try discriminate.
  unfold register_handler, try_catch, bind, lift. rewrite Hbody.
  cbn [prop spread]. rewrite He, Hn, Hp.
  rewrite getUserByEmail_wf by assumption.
  destruct (List.find _ _); cbn beta iota; [exact Hwf|].
  cbn [storage with_storage].
  rewrite getUserByUsername_wf by assumption.
  destruct (List.find _ _); cbn beta iota; [exact Hwf|].
  cbn [hash ret createUser storage with_storage].
  assert (Hnew : user_wf (<["createdAt":=VDate (now req)]>
                            (<["id":=VNum (userId (storage w))]>
                               (<["password":=
                                    VStr (bcrypt_hash p 10 (salt req))]> o)))
                 = true).
  { unfold user_wf. field_of_insert.
    fold (field o "email") (field o "username"). now rewrite He, Hn. }
  destruct (strict_eq (field o "userType") (VStr "company"));
    cbn [createCompanyProfile createCreatorProfile ret storage with_storage
         fst snd users with_users with_companyProfiles
         with_creatorProfiles];
    unfold users_wf; cbn [users]; now apply values_set_forallb.
Qed.

(** Every world the server reaches from its start has well-formed
    users. *)
Lemma step_users_wf (w : World) (ev : Event) :
  users_wf (storage w) -> users_wf (storage (step w ev)).
Proof.
  intros Hwf. destruct ev; cbn [step].
  - now apply register_users_wf.
  - unfold users_wf. now rewrite login_users.
  - unfold users_wf. now rewrite by_id_users.
  - unfold users_wf. now rewrite download_users.
  - unfold users_wf. now rewrite ads_upload_users.
  - unfold users_wf. now rewrite videos_upload_users.
  - unfold users_wf. now rewrite advance_users.
Qed.

Lemma run_users_wf (evs : list Event) (w : World) :
  users_wf (storage w) -> users_wf (storage (run evs w)).
Proof.
  revert w. induction evs as [|ev evs IH]; intros w Hwf; simpl.
  - exact Hwf.
  - apply IH. now apply step_users_wf.
Qed.

Lemma reachable_users_wf (evs : list Event) :
  users_wf (storage (run evs initial_world)).
Proof. apply run_users_wf, users_wf_initial. Qed.

End Properties.

(** * The theorems on concrete runs *)

Module Runs.
Import TestRuntime.
Import Scenarios.

(** C1 on Acme's 150MB ad. *)
Lemma ad_upload_over_100MB_accepted_witness :
  exists ad : obj,
    fst (ads_upload big_ad_upload registered_world)
    = Sent (json 201 (VObj ad))
    /\ stored Ads (VNum 1) ad_world = Some ad
    /\ field ad "filePath"
       = VStr "/srv/server/../uploads/videos/file-1000-42.mp4"
    /\ MemStorage.adId (storage ad_world) = 2.
Proof.
  assert (Hsize : 100 * 1024 * 1024 < size big_ad <= fileSize)
    by (unfold fileSize; simpl; lia).
  destruct (ad_upload_over_100MB_accepted big_ad_upload registered_world
              big_ad eq_refl eq_refl eq_refl eq_refl Hsize)
    as (ad & Hres & Hst & Hpath & Hid).
  exists ad.
  split; [exact Hres | split; [exact Hst | split; [exact Hpath|exact Hid]]].
Defined.

(** C2 on Acme's stored ad: no session, an id that is not stored,
    another user, the owner. *)
Lemma by_id_check_order_witness :
  status (fst (by_id GET Ads (by_id_request anonymous "1" VUndefined)
                 ad_world)) = 401
  /\ status (fst (by_id PATCH Ads
                    (by_id_request company_session "7" takeover)
                    ad_world)) = 404
  /\ status (fst (by_id DELETE Ads
                    (by_id_request creator_session "1" VUndefined)
                    ad_world)) = 403
  /\ status (fst (by_id PATCH Ads
                    (by_id_request company_session "1" takeover)
                    ad_world)) = 200.
Proof.
  assert (Hstored : stored Ads (VNum 1) ad_world = Some stored_ad)
    by (vm_compute; reflexivity).
  split; [|split; [|split]].
  - apply (by_id_check_order GET Ads
             (by_id_request anonymous "1" VUndefined) ad_world).
    reflexivity.
  - apply (by_id_check_order PATCH Ads
             (by_id_request company_session "7" takeover) ad_world);
      reflexivity.
  - apply (by_id_check_order DELETE Ads
             (by_id_request creator_session "1" VUndefined) ad_world)
      with (e := stored_ad);
      [reflexivity | exact Hstored | vm_compute; reflexivity].
  - apply (by_id_check_order PATCH Ads
             (by_id_request company_session "1" takeover) ad_world)
      with (e := stored_ad);
      [reflexivity | exact Hstored | vm_compute; reflexivity].
Defined.

(** C3 on the registered world: an unknown e-mail, and Alice's e-mail
    with a wrong password. *)
Lemma login_failures_indistinguishable_witness :
  fst (fst (login (request anonymous ""
                     (credentials "nobody@example.com" "password1") None 30)
                  registered_world))
  = fst (fst (login (request anonymous ""
                       (credentials "Alice@example.com" "letmein") None 31)
                    registered_world)).
Proof.
  apply (login_failures_indistinguishable
           (request anonymous ""
              (credentials "nobody@example.com" "password1") None 30)
           (request anonymous ""
              (credentials "Alice@example.com" "letmein") None 31)
           registered_world registered_world
           "nobody@example.com" "Alice@example.com" "letmein");
    vm_compute; reflexivity.
Defined.

(** C4: Alice's e-mail in another case, under another username. *)
Lemma register_rejects_taken_witness :
  status (fst (register (request anonymous "" alice_again None 7)
                        registered_world)) = 400
  /\ snd (register (request anonymous "" alice_again None 7)
                   registered_world)
     = registered_world.
Proof.
  assert (Hwf : users_wf (storage registered_world))
    by (vm_compute; reflexivity).
  assert (Htaken : email_taken "Alice@Example.COM"
                     (storage registered_world) = true)
    by (vm_compute; reflexivity).
  exact (register_rejects_taken (request anonymous "" alice_again None 7)
           registered_world "Alice@Example.COM" "alice2"
           Hwf eq_refl eq_refl (or_introl Htaken)).
Defined.

(** C5: Acme registers with the fresh server. *)
Lemma register_creates_user_witness :
  exists response : obj,
    fst (register (request anonymous "" acme None 5) initial_world)
    = json 201 (VObj response)
    /\ response !! "password" = None.
Proof.
  assert (Hhash : bcrypt_hash "s3cretpass" 10
                    (salt (request anonymous "" acme None 5))
                  <> "s3cretpass")
    by (vm_compute; discriminate).
  destruct (register_creates_user (request anonymous "" acme None 5)
              initial_world "ads@acme.example" "acme" "s3cretpass"
              "company" users_wf_initial eq_refl eq_refl eq_refl eq_refl
              eq_refl eq_refl eq_refl Hhash)
    as (newUser & response & Hres & Hnopw & _).
  exists response. split; [exact Hres | exact Hnopw].
Defined.

(** C6: Alice's upload and its timer.  Before the timer fires she logs
    in again, renames the video and lists her videos, and the event loop
    turns once, too early; the timer is still pending then, and the tick
    at 11000 leaves the video ready. *)
Lemma video_upload_then_ready_witness :
  In video_timer (timers busy_world)
  /\ exists v : obj,
       stored Videos (VNum 1) (advance 11000 (fun _ => 7) busy_world)
       = Some v
       /\ processed v.
Proof.
  assert (Hrun : videos_upload video_upload registered_world
                 = (Sent video_response, uploaded_world))
    by (vm_compute; reflexivity).
  assert (Hstatus : status video_response = 201) by reflexivity.
  assert (Hearly : ticks_before (now video_upload + 10000) busy_calls
                   = true)
    by (vm_compute; reflexivity).
  assert (Hstored : stored Videos (VNum 1) busy_world = Some busy_video)
    by (vm_compute; reflexivity).
  destruct (video_upload_then_ready video_upload registered_world
              uploaded_world video_response Hrun Hstatus)
    as (video & id & tm & Hc & _ & Hid & Hst & Htm & _ & _ & _ & Hpending
        & Hlater).
  assert (Hone : id = 1).
  { vm_compute in Hc. injection Hc as <-. vm_compute in Hid. congruence. }
  subst id.
  assert (Htimer : tm = video_timer).
  { vm_compute in Htm. injection Htm as <-. reflexivity. }
  subst tm.
  split; [exact (Hpending busy_calls Hearly)|].
  apply (Hlater busy_calls 11000 (fun _ => 7) Hearly).
  - now exists busy_video.
  - vm_compute. discriminate.
Defined.

(** C7: Alice deletes her processed video, whose processed file and
    thumbnail were never written. *)
Lemma delete_removes_record_and_files_witness :
  ("/srv/server/../uploads/videos/file-1000-42.mp4-processed"
     ∉ disk processed_world)
  /\ status (fst (by_id DELETE Videos
                    (by_id_request creator_session "1" VUndefined)
                    processed_world)) = 200
  /\ stored Videos (VNum 1)
        (snd (by_id DELETE Videos
                (by_id_request creator_session "1" VUndefined)
                processed_world)) = None
  /\ length (unlinked
               (snd (by_id DELETE Videos
                       (by_id_request creator_session "1" VUndefined)
                       processed_world))) = 3%nat.
Proof.
  split; [vm_compute; intros [=]|].
  assert (Hstored : stored Videos
                      (id_of (by_id_request creator_session "1" VUndefined))
                      processed_world
                    = Some processed_video)
    by (vm_compute; reflexivity).
  assert (Hown : strict_eq (field processed_video "userId")
                   (session_userId
                      (by_id_request creator_session "1" VUndefined))
                 = true)
    by (vm_compute; reflexivity).
  destruct (delete_removes_record_and_files Videos
              (by_id_request creator_session "1" VUndefined)
              processed_world processed_video eq_refl Hstored Hown)
    as (Hst & Hgone & Hunl & _).
  split; [exact Hst|]. split; [exact Hgone|].
  rewrite Hunl. vm_compute. reflexivity.
Defined.

(** C8: the form's [duration], [status] and [userId] are not used. *)
Lemma ad_upload_fixed_fields_witness :
  exists ad : obj,
    content ad_response = Json (VObj ad)
    /\ stored Ads (VNum 1) ad_world = Some ad
    /\ field ad "id" = VNum 1
    /\ field ad "duration" = VNum 30
    /\ field ad "status" = VStr "pending"
    /\ field ad "userId" = VNum 1.
Proof.
  assert (Hrun : ads_upload big_ad_upload registered_world
                 = (Sent ad_response, ad_world))
    by (vm_compute; reflexivity).
  assert (Hstatus : status ad_response = 201) by reflexivity.
  exact (ad_upload_fixed_fields big_ad_upload registered_world ad_world
           ad_response Hrun Hstatus).
Defined.

(** C9: Acme hands its ad to user 2 and renumbers it. *)
Lemma patch_overwrites_any_field_witness :
  exists updated : obj,
    stored Ads (VNum 1)
           (snd (by_id PATCH Ads
                   (by_id_request company_session "1" takeover) ad_world))
    = Some updated
    /\ updated !! "userId" = Some (VNum 2)
    /\ updated !! "id" = Some (VNum 99)
    /\ updated !! "createdAt" = Some (VStr "yesterday").
Proof.
  assert (Hstored : stored Ads
                      (id_of (by_id_request company_session "1" takeover))
                      ad_world
                    = Some stored_ad)
    by (vm_compute; reflexivity).
  assert (Hown : strict_eq (field stored_ad "userId")
                   (session_userId
                      (by_id_request company_session "1" takeover))
                 = true)
    by (vm_compute; reflexivity).
  destruct (patch_overwrites_any_field Ads
              (by_id_request company_session "1" takeover)
              ad_world stored_ad eq_refl Hstored Hown)
    as (updated & _ & Hst & Hbody & _).
  exists updated. split; [exact Hst|].
  split; [|split]; apply Hbody; vm_compute; reflexivity.
Defined.

(** C10, amended: the processed video is served from its processed
    path. *)
Lemma download_url_when_ready_witness :
  fst (download_video download_request processed_world)
  = json 200
      (VObj
         (object
            [("message", VStr "Download started");
             ("url",
              VStr ("/srv/server/../uploads/videos/file-1000-42.mp4"
                    +:+ "-processed"))])).
Proof.
  assert (Hstored : stored Videos (id_of download_request) processed_world
                    = Some processed_video)
    by (vm_compute; reflexivity).
  assert (Hown : strict_eq (field processed_video "userId")
                   (session_userId download_request) = true)
    by (vm_compute; reflexivity).
  assert (Hready : field processed_video "status" = VStr "ready")
    by (vm_compute; reflexivity).
  destruct (download_url_when_ready download_request processed_world
              processed_video eq_refl Hstored Hown)
    as (_ & _ & _ & Hurl).
  rewrite (Hurl (or_introl Hready)). vm_compute. reflexivity.
Defined.

(** C10 as stated fails.  After Alice has patched her processed video's
    [processedFilePath] to the empty string, which is not [null], the
    download answers 200 with [url] equal to [rawFilePath], not to
    [processedFilePath]. *)
Lemma download_url_not_processed_path :
  not_authenticated download_request = false
  /\ stored Videos (id_of download_request) patched_world
     = Some patched_video
  /\ strict_eq (field patched_video "userId")
               (session_userId download_request) = true
  /\ field patched_video "status" = VStr "ready"
  /\ field patched_video "processedFilePath" = VStr ""
  /\ non_null (field patched_video "processedFilePath")
  /\ fst (download_video download_request patched_world)
     = json 200
         (VObj (object [("message", VStr "Download started");
                        ("url", field patched_video "rawFilePath")]))
  /\ field patched_video "rawFilePath"
     <> field patched_video "processedFilePath".
Proof.
  repeat split; try (vm_compute; reflexivity); vm_compute; discriminate.
Qed.

End Runs.

(** * Further properties of the storage and route layers *)

Section Extras.
Context `{Runtime}.

Import MemStorage.

(** ** Relations kept by the handlers *)

Section Keeping.
Variable R : MemStorage.t -> MemStorage.t -> Prop.
Hypothesis R_refl : forall s, R s s.
Hypothesis R_trans : forall s1 s2 s3, R s1 s2 -> R s2 s3 -> R s1 s3.

Lemma keeps_ret {A : Type} (a : A) : keeps R (ret a).
Proof. intros w. apply R_refl. Qed.

Lemma keeps_throw {A : Type} (e : Error) : keeps R (throw (A := A) e).
Proof. intros w. apply R_refl. Qed.

Lemma keeps_bind {A B : Type} (c : St World A) (k : A -> St World B) :
  keeps R c -> (forall a, keeps R (k a)) -> keeps R (bind c k).
Proof.
  intros Hc Hk w. unfold bind. specialize (Hc w).
  destruct (c w) as [[a|e] w1]; simpl in *; [|exact Hc].
  eapply R_trans; [exact Hc | apply Hk].
Qed.

Lemma keeps_lift {A : Type} (m : St MemStorage.t A) :
  method_keeps R m -> keeps R (lift m).
Proof.
  intros Hm w. unfold lift. specialize (Hm (storage w)).
  destruct (m (storage w)) as [r s]. exact Hm.
Qed.

Lemma keeps_unlink (v : value) (msg : string) :
  keeps R (if truthy v then catch_log (fs_unlink v) msg else ret tt).
Proof.
  intros w. destruct (unlink_step v msg w) as (w' & Hs & Hst & _).
  rewrite Hs. simpl. rewrite Hst. apply R_refl.
Qed.

Lemma keeps_setTimeout (tm : Timer) : keeps R (setTimeout tm).
Proof. intros w. apply R_refl. Qed.

(** [try { c } catch { log; answer 500 }]. *)
Lemma keeps_try_catch {A : Type} (c : St World A) (a : A) (msg : string) :
  keeps R c ->
  handler_keeps R
    (try_catch c (fun _ w' => (a, console_error msg w'))).
Proof.
  intros Hc w. unfold try_catch. specialize (Hc w).
  destruct (c w) as [[x|e] w1]; exact Hc.
Qed.

(** The reading methods leave the storage as it is. *)
Lemma keeps_reading {A : Type} (f : MemStorage.t -> outcome A) :
  method_keeps R (fun s => (f s, s)).
Proof. intros s. apply R_refl. Qed.

(** Takes a monadic handler body apart, down to the storage methods. *)
Ltac keeps_body :=
  repeat first
    [ apply keeps_ret
    | apply keeps_throw
    | apply keeps_setTimeout
    | apply keeps_unlink
    | apply keeps_bind; [|intros ?]
    | apply keeps_lift;
      first [ apply (keeps_reading (fun s => Ret _))
            | apply (keeps_reading (fun s => find _ _))
            | solve [auto] ]
    | progress unfold hash, compare
    | match goal with
      | |- keeps _ (match ?x with _ => _ end) => destruct x
      | |- keeps _ (if ?b then _ else _) => destruct b
      end ].

(** Unfolds a route down to its [try_catch]. *)
Ltac keeps_route :=
  let w := fresh "w" in
  intros w;
  repeat match goal with
         | |- R _ (storage (snd (if ?b then _ else _))) => destruct b
         | |- R _ (storage (snd (match ?x with _ => _ end))) => destruct x
         end;
  try apply R_refl;
  apply keeps_try_catch; keeps_body.

Section RoutesKeep.
Hypothesis keeps_createCampaign :
  forall c t, method_keeps R (createCampaign c t).
Hypothesis keeps_createAd : forall a t, method_keeps R (createAd a t).
Hypothesis keeps_createVideo : forall v t, method_keeps R (createVideo v t).
Hypothesis keeps_updateCampaign :
  forall i d, method_keeps R (updateCampaign i d).
Hypothesis keeps_updateAd : forall i d, method_keeps R (updateAd i d).
Hypothesis keeps_updateVideo : forall i d, method_keeps R (updateVideo i d).
Hypothesis keeps_deleteCampaign : forall i, method_keeps R (deleteCampaign i).
Hypothesis keeps_deleteAd : forall i, method_keeps R (deleteAd i).
Hypothesis keeps_deleteVideo : forall i, method_keeps R (deleteVideo i).

Lemma by_id_keeps (m : Method) (k : Kind) (req : Request) :
  handler_keeps R (by_id m k req).
Proof.
  destruct m, k; unfold by_id, get_campaign, patch_campaign,
    delete_campaign, get_ad, patch_ad, delete_ad, get_video, patch_video,
    delete_video; keeps_route.
Qed.

Lemma download_keeps (req : Request) : handler_keeps R (download_video req).
Proof. unfold download_video. keeps_route. Qed.

Lemma login_keeps (req : Request) : handler_keeps R (login req).
Proof.
  unfold login, login_handler. intros w.
  destruct (loginUserSchema (body req)); [|apply R_refl].
  apply keeps_try_catch with (a := (_, _)). keeps_body.
Qed.

Lemma me_keeps (req : Request) : handler_keeps R (me req).
Proof. unfold me. keeps_route. Qed.

Lemma list_campaigns_keeps (rnd : Random) (req : Request) :
  handler_keeps R (list_campaigns rnd req).
Proof. unfold list_campaigns. keeps_route. Qed.

Lemma list_ads_keeps (req : Request) : handler_keeps R (list_ads req).
Proof. unfold list_ads. keeps_route. Qed.

Lemma list_videos_keeps (req : Request) : handler_keeps R (list_videos req).
Proof. unfold list_videos. keeps_route. Qed.

Lemma analytics_summary_keeps (rnd : Random) (req : Request) :
  handler_keeps R (analytics_summary rnd req).
Proof. unfold analytics_summary. keeps_route. Qed.

Lemma creator_summary_keeps (rnd : Random) (req : Request) :
  handler_keeps R (creator_summary rnd req).
Proof. unfold creator_summary. keeps_route. Qed.

Lemma create_campaign_keeps (req : Request) :
  handler_keeps R (create_campaign req).
Proof.
  unfold create_campaign, validateRequest, create_campaign_handler.
  keeps_route.
Qed.

Lemma ads_upload_keeps (req : Request) : handler_keeps R (ads_upload req).
Proof.
  intros w. unfold ads_upload.
  destruct (upload_single "file" req w) as [[file|err] w1] eqn:Hup;
    destruct (upload_single_frame _ _ _ _ _ Hup) as (Hsto & _);
    [|simpl; rewrite Hsto; apply R_refl].
  rewrite <- Hsto.
  assert (Hh : handler_keeps R (ads_upload_handler file req))
    by (unfold ads_upload_handler; keeps_route).
  specialize (Hh w1).
  now destruct (ads_upload_handler file req w1).
Qed.

Lemma videos_upload_keeps (req : Request) :
  handler_keeps R (videos_upload req).
Proof.
  intros w. unfold videos_upload.
  destruct (upload_single "file" req w) as [[file|err] w1] eqn:Hup;
    destruct (upload_single_frame _ _ _ _ _ Hup) as (Hsto & _);
    [|simpl; rewrite Hsto; apply R_refl].
  rewrite <- Hsto.
  assert (Hh : handler_keeps R (videos_upload_handler file req))
    by (unfold videos_upload_handler; keeps_route).
  specialize (Hh w1).
  now destruct (videos_upload_handler file req w1).
Qed.

Lemma processing_done_keeps_R (tm : Timer) (rnd : Z) (w : World) :
  R (storage w) (storage (processing_done tm rnd w)).
Proof.
  unfold processing_done.
  apply (keeps_try_catch _ tt "Error updating processed video:").
  keeps_body.
Qed.

Lemma advance_keeps (t : Z) (draws : nat -> Z) (w : World) :
  R (storage w) (storage (advance t draws w)).
Proof.
  unfold advance. cbn [storage].
  generalize 0%nat. generalize (List.filter (is_due t) (timers w)).
  intros due. revert w.
  induction due as [|tm due IH]; intros w k; simpl; [apply R_refl|].
  eapply R_trans; [apply processing_done_keeps_R | apply IH].
Qed.

(** Every request but a registration, and every tick. *)
Lemma act_keeps_but_register (c : Call) (w : World) :
  (forall req, c <> Routed (Register req)) ->
  R (storage w) (storage (act w c)).
Proof.
  intros Hnot.
  destruct c as [ev| | | | | | | | |]; cbn [act]; try apply R_refl.
  - destruct ev; cbn [step].
    + now destruct (Hnot req).
    + apply login_keeps.
    + apply by_id_keeps.
    + apply download_keeps.
    + apply ads_upload_keeps.
    + apply videos_upload_keeps.
    + apply advance_keeps.
  - apply me_keeps.
  - apply list_campaigns_keeps.
  - apply create_campaign_keeps.
  - apply list_ads_keeps.
  - apply list_videos_keeps.
  - apply analytics_summary_keeps.
  - apply creator_summary_keeps.
Qed.

Section RegisterKeeps.
Hypothesis keeps_createUser : forall u t, method_keeps R (createUser u t).
Hypothesis keeps_createCompanyProfile :
  forall p, method_keeps R (createCompanyProfile p).
Hypothesis keeps_createCreatorProfile :
  forall p, method_keeps R (createCreatorProfile p).

Lemma register_keeps (req : Request) : handler_keeps R (register req).
Proof.
  unfold register, validateRequest, register_handler. keeps_route.
Qed.

(** Every request and every tick keeps [R] when the storage methods the
    routes call keep it. *)
Lemma act_keeps (c : Call) (w : World) : R (storage w) (storage (act w c)).
Proof.
  destruct c as [ev| | | | | | | | |]; cbn [act]; try apply R_refl.
  - destruct ev; cbn [step].
    + apply register_keeps.
    + apply login_keeps.
    + apply by_id_keeps.
    + apply download_keeps.
    + apply ads_upload_keeps.
    + apply videos_upload_keeps.
    + apply advance_keeps.
  - apply me_keeps.
  - apply list_campaigns_keeps.
  - apply create_campaign_keeps.
  - apply list_ads_keeps.
  - apply list_videos_keeps.
  - apply analytics_summary_keeps.
  - apply creator_summary_keeps.
Qed.

Lemma play_keeps (cs : list Call) (w : World) :
  R (storage w) (storage (play cs w)).
Proof.
  revert w. induction cs as [|c cs IH]; intros w; simpl.
  - apply R_refl.
  - eapply R_trans; [apply act_keeps | apply IH].
Qed.

End RegisterKeeps.

End RoutesKeep.

End Keeping.

(** ** Identifiers are never reused *)

Lemma keys_below_set (n n' k : Z) (v : obj) (m : JsMap.t obj) :
  keys_below n m -> 1 <= k < n' -> n <= n' ->
  keys_below n' (JsMap.set k v m).
Proof.
  intros [Hn Hm] Hk Hle. split; [lia|].
  induction Hm as [|[k' v'] m Hk' Hm IH]; simpl.
  - constructor; [exact Hk | constructor].
  - destruct (k' =? k); constructor; simpl in *; try lia; try exact IH.
    eapply List.Forall_impl; [|exact Hm]. simpl. intros p. lia.
Qed.

Lemma keys_below_delete (n k : Z) (m : JsMap.t obj) :
  keys_below n m -> keys_below n (JsMap.delete k m).
Proof.
  intros [Hn Hm]. split; [exact Hn|].
  unfold JsMap.delete. apply List.Forall_forall. intros p Hp.
  apply filter_In in Hp as [Hp _].
  now apply (proj1 (List.Forall_forall _ _) Hm).
Qed.

Lemma keys_below_get (n k : Z) (m : JsMap.t obj) (v : obj) :
  keys_below n m -> JsMap.get k m = Some v -> 1 <= k < n.
Proof.
  intros [_ Hm]. induction Hm as [|[k' v'] m Hk' Hm IH]; simpl;
    [discriminate|].
  destruct (k' =? k) eqn:E; [|exact IH].
  apply Z.eqb_eq in E. subst. now intros _.
Qed.

Lemma keys_below_map_set (n : Z) (id : value) (v e : obj) (m : JsMap.t obj) :
  keys_below n m -> map_get id m = Some e -> keys_below n (map_set id v m).
Proof.
  intros Hm Hget. apply map_get_is_num in Hget as (k & -> & Hget). simpl.
  apply (keys_below_set n n); [exact Hm | | lia].
  now apply (keys_below_get n k m e).
Qed.

Lemma keys_below_map_delete (n : Z) (id : value) (m : JsMap.t obj) :
  keys_below n m -> keys_below n (map_delete id m).
Proof.
  intros Hm. destruct id; simpl; try exact Hm. now apply keys_below_delete.
Qed.

Lemma keys_below_create (n : Z) (v : obj) (m : JsMap.t obj) :
  keys_below n m -> keys_below (n + 1) (JsMap.set n v m).
Proof.
  intros Hm. apply (keys_below_set n); [exact Hm | | lia].
  destruct Hm. lia.
Qed.

Lemma ids_advance_refl (s : MemStorage.t) : ids_advance s s.
Proof. split; [tauto|]. unfold counters_le. lia. Qed.

Lemma ids_advance_trans (s1 s2 s3 : MemStorage.t) :
  ids_advance s1 s2 -> ids_advance s2 s3 -> ids_advance s1 s3.
Proof.
  unfold ids_advance, counters_le. intros [H12 L12] [H23 L23].
  split; [tauto | lia].
Qed.

(** Settles [ids_advance] for a method that touches one map. *)
Ltac ids_method :=
  let s := fresh "s" in
  intros s; unfold ids_advance, ids_fresh, counters_le;
  unfold createUser, createCompanyProfile, createCreatorProfile,
    createCampaign, createAd, createVideo, createVideoAd,
    updateUser, updateCompanyProfile, updateCreatorProfile,
    updateCampaign, updateAd, updateVideo, updateVideoAd,
    deleteUser, deleteCompanyProfile, deleteCreatorProfile,
    deleteCampaign, deleteAd, deleteVideo, deleteVideoAd;
  repeat match goal with
         | |- context [match ?x with _ => _ end] => destruct x eqn:?
         end;
  cbn [snd users companyProfiles creatorProfiles campaigns ads videos
       videoAds userId companyProfileId creatorProfileId campaignId adId
       videoId videoAdId with_users with_companyProfiles
       with_creatorProfiles with_campaigns with_ads with_videos
       with_videoAds];
  (split; [|lia]);
  intros (Hu & Hco & Hcr & Hca & Ha & Hv & Hva);
  repeat match goal with |- _ /\ _ => split end;
  first [ assumption
        | now apply keys_below_create
        | now eapply keys_below_map_set; eauto
        | now apply keys_below_map_delete
        | apply Hu | apply Hco | apply Hcr | apply Hca | apply Ha
        | apply Hv | apply Hva ].

Lemma ids_createUser u t : method_keeps ids_advance (createUser u t).
Proof. ids_method. Qed.
Lemma ids_createCompanyProfile p :
  method_keeps ids_advance (createCompanyProfile p).
Proof. ids_method. Qed.
Lemma ids_createCreatorProfile p :
  method_keeps ids_advance (createCreatorProfile p).
Proof. ids_method. Qed.
Lemma ids_createCampaign c t : method_keeps ids_advance (createCampaign c t).
Proof. ids_method. Qed.
Lemma ids_createAd a t : method_keeps ids_advance (createAd a t).
Proof. ids_method. Qed.
Lemma ids_createVideo v t : method_keeps ids_advance (createVideo v t).
Proof. ids_method. Qed.
Lemma ids_updateCampaign i d : method_keeps ids_advance (updateCampaign i d).
Proof. ids_method. Qed.
Lemma ids_updateAd i d : method_keeps ids_advance (updateAd i d).
Proof. ids_method. Qed.
Lemma ids_updateVideo i d : method_keeps ids_advance (updateVideo i d).
Proof. ids_method. Qed.
Lemma ids_deleteCampaign i : method_keeps ids_advance (deleteCampaign i).
Proof. ids_method. Qed.
Lemma ids_deleteAd i : method_keeps ids_advance (deleteAd i).
Proof. ids_method. Qed.
Lemma ids_deleteVideo i : method_keeps ids_advance (deleteVideo i).
Proof. ids_method. Qed.

Lemma play_ids_advance (cs : list Call) (w : World) :
  ids_advance (storage w) (storage (play cs w)).
Proof.
  apply (play_keeps ids_advance ids_advance_refl ids_advance_trans);
    auto using ids_createUser, ids_createCompanyProfile,
      ids_createCreatorProfile, ids_createCampaign, ids_createAd,
      ids_createVideo, ids_updateCampaign, ids_updateAd, ids_updateVideo,
      ids_deleteCampaign, ids_deleteAd, ids_deleteVideo.
Qed.

Lemma ids_fresh_initial : ids_fresh (storage initial_world).
Proof.
  unfold ids_fresh, keys_below. simpl. repeat split; try lia; constructor.
Qed.

(** X1. An id under which a record of a kind is stored at some point
    of a run is below the id that the next create of that kind hands out
    at any later point, whatever happens in between, deletions
    included: no id is handed out twice. *)
Theorem ids_never_reused (cs1 cs2 : list Call) (k : Kind) (n : Z)
    (e : obj) :
  stored k (VNum n) (play cs1 initial_world) = Some e ->
  1 <= n < next_id k (play cs2 (play cs1 initial_world)).
Proof.
  intros Hsome.
  destruct (play_ids_advance cs1 initial_world) as [Hfresh _].
  specialize (Hfresh ids_fresh_initial).
  destruct (play_ids_advance cs2 (play cs1 initial_world)) as [_ Hle].
  destruct Hfresh as (_ & _ & _ & Hca & Ha & Hv & _).
  destruct Hle as (_ & _ & _ & Lca & La & Lv & _).
  destruct k; simpl in *.
  - pose proof (keys_below_get _ _ _ _ Hca Hsome). lia.
  - pose proof (keys_below_get _ _ _ _ Ha Hsome). lia.
  - pose proof (keys_below_get _ _ _ _ Hv Hsome). lia.
Qed.

(** ** The users along every run *)

(** What a registration does to the users: nothing, or one new record
    under the next id, with an e-mail and a username that were free. *)
Lemma register_users (req : Request) (w : World) :
  users_wf (storage w) ->
  users (storage (snd (register req w))) = users (storage w)
  \/ exists (newUser : obj) (e n : string),
       field newUser "email" = VStr e
       /\ field newUser "username" = VStr n
       /\ field newUser "id" = VNum (userId (storage w))
       /\ email_taken e (storage w) = false
       /\ username_taken n (storage w) = false
       /\ users (storage (snd (register req w)))
          = JsMap.set (userId (storage w)) newUser (users (storage w)).
Proof.
  intros Hwf. unfold register, validateRequest.
  destruct (registerUserSchema (body req)) eqn:Hvalid; [|now left].
  destruct (body req) as [| | | | | | | |o] eqn:Hbody; try discriminate.
  simpl in Hvalid. repeat (apply andb_true_iff in Hvalid as [Hvalid ?]).
  destruct (field o "email") as [| | | | |e| | |] eqn:He; try discriminate.
  destruct (field o "username") as [| | | | |n| | |] eqn:Hn;
    try discriminate.
  destruct (field o "password") as [| | | | |p| | |] eqn:Hp;
    try discriminate.
  unfold register_handler, try_catch, bind, lift. rewrite Hbody.
  cbn [prop spread]. rewrite He, Hn, Hp.
  rewrite getUserByEmail_wf by assumption.
  destruct (email_taken e (storage w)) eqn:Hemail.
  { apply find_existsb_true in Hemail as (u & -> & _). now left. }
  rewrite (find_existsb_false _ _ Hemail). cbn beta iota.
  cbn [storage with_storage].
  rewrite getUserByUsername_wf by assumption.
  destruct (username_taken n (storage w)) eqn:Huser.
  { apply find_existsb_true in Huser as (u & -> & _). now left. }
  rewrite (find_existsb_false _ _ Huser). cbn beta iota.
  cbn [hash ret createUser storage with_storage].
  right.
  exists (<["createdAt":=VDate (now req)]>
            (<["id":=VNum (userId (storage w))]>
               (<["password":=VStr (bcrypt_hash p 10 (salt req))]> o))),
    e, n.
  split; [|split; [|split; [|split; [exact Hemail|split; [exact Huser|]]]]].
  4:{ destruct (strict_eq (field o "userType") (VStr "company"));
        reflexivity. }
  - unfold field. rewrite !lookup_insert_ne by done.
    fold (field o "email"). exact He.
  - unfold field. rewrite !lookup_insert_ne by done.
    fold (field o "username"). exact Hn.
  - unfold field. rewrite lookup_insert_ne by done.
    now rewrite lookup_insert_eq.
Qed.

Lemma existsb_values_set {A : Type} (p : A -> bool) (k : Z) (v : A)
    (m : JsMap.t A) :
  existsb p (JsMap.values m) = false ->
  existsb p (JsMap.values (JsMap.set k v m)) = p v.
Proof.
  induction m as [|[k' v'] m IH]; simpl.
  - intros _. now rewrite orb_false_r.
  - intros Hex. apply orb_false_iff in Hex as [Hv' Hm].
    destruct (k' =? k); simpl.
    + now rewrite Hm, orb_false_r.
    + now rewrite Hv', IH.
Qed.

Lemma unique_lowercase_set (key x : string) (k : Z) (v : obj)
    (m : JsMap.t obj) :
  field v key = VStr x ->
  existsb (has_lowercase key x) (JsMap.values m) = false ->
  unique_lowercase key (JsMap.values m) = true ->
  unique_lowercase key (JsMap.values (JsMap.set k v m)) = true.
Proof.
  intros Hv. induction m as [|[k' u] m IH]; simpl.
  - intros _ _. now rewrite Hv.
  - intros Hex Huniq.
    apply orb_false_iff in Hex as [Hu Hm].
    apply andb_true_iff in Huniq as [Hhead Htail].
    destruct (k' =? k); simpl.
    + now rewrite Hv, Hm, Htail.
    + destruct (field u key) as [| | | | |y| | |] eqn:Hy;
        try discriminate Hhead.
      rewrite IH by assumption. rewrite andb_true_r.
      apply negb_true_iff in Hhead. apply negb_true_iff.
      rewrite existsb_values_set by exact Hhead.
      unfold has_lowercase in *. rewrite Hv. rewrite Hy in Hu.
      now rewrite String.eqb_sym.
Qed.

Lemma set_keys_NoDup {A : Type} (k : Z) (v : A) (m : JsMap.t A) :
  List.NoDup (List.map fst m) ->
  List.NoDup (List.map fst (JsMap.set k v m)).
Proof.
  assert (Hin : forall j (m : JsMap.t A),
             In j (List.map fst (JsMap.set k v m)) ->
             j = k \/ In j (List.map fst m)).
  { intros j m0. induction m0 as [|[k' v'] m0 IH]; simpl.
    - intros [<-|[]]. now left.
    - destruct (k' =? k) eqn:E; simpl.
      + apply Z.eqb_eq in E. subst k'. intros [<-|Hj]; auto.
      + intros [<-|Hj]; auto. destruct (IH Hj); auto. }
  induction m as [|[k' v'] m IH]; simpl; intros Hnd.
  - repeat constructor. intros [].
  - apply List.NoDup_cons_iff in Hnd as [Hk' Hnd].
    destruct (k' =? k) eqn:E; simpl.
    + apply Z.eqb_eq in E. subst k'. now apply List.NoDup_cons_iff.
    + apply List.NoDup_cons_iff. split; [|now apply IH].
      intros Hj. destruct (Hin _ _ Hj) as [->|Hold]; [|contradiction].
      now rewrite Z.eqb_refl in E.
Qed.

Lemma set_Forall {A : Type} (P : Z * A -> Prop) (k : Z) (v : A)
    (m : JsMap.t A) :
  Forall P m -> P (k, v) -> Forall P (JsMap.set k v m).
Proof.
  intros Hm Hv. induction Hm as [|[k' v'] m Hp Hm IH]; simpl.
  - now constructor.
  - destruct (k' =? k); constructor; assumption.
Qed.

Lemma get_of_In {A : Type} (k : Z) (v : A) (m : JsMap.t A) :
  List.NoDup (List.map fst m) -> In (k, v) m -> JsMap.get k m = Some v.
Proof.
  induction m as [|[k' v'] m IH]; simpl; intros Hnd Hin; [contradiction|].
  apply List.NoDup_cons_iff in Hnd as [Hk' Hnd].
  destruct Hin as [[= -> ->]|Hin].
  - now rewrite Z.eqb_refl.
  - destruct (k' =? k) eqn:E; [|now apply IH].
    apply Z.eqb_eq in E. subst k'. exfalso. apply Hk'.
    apply in_map_iff. now exists (k, v).
Qed.

Lemma users_ok_initial : users_ok (storage initial_world).
Proof.
  repeat split; simpl; constructor.
Qed.

Lemma users_ok_same_users (s s' : MemStorage.t) :
  users s' = users s -> users_ok s -> users_ok s'.
Proof.
  unfold users_ok, users_wf, users_unique, users_keyed.
  now intros ->.
Qed.

Lemma register_users_ok (req : Request) (w : World) :
  users_ok (storage w) -> users_ok (storage (snd (register req w))).
Proof.
  intros (Hwf & Huniq & Hnd & Hkeyed).
  destruct (register_users req w Hwf)
    as [Hsame|(newUser & e & n & He & Hn & Hid & Hemail & Huser & Hset)].
  { apply (users_ok_same_users (storage w)); [exact Hsame|].
    repeat split; assumption. }
  apply andb_true_iff in Huniq as [Hue Hun].
  repeat split.
  - now apply register_users_wf.
  - unfold users_unique. rewrite Hset. apply andb_true_iff. split.
    + now apply (unique_lowercase_set "email" e).
    + now apply (unique_lowercase_set "username" n).
  - rewrite Hset. now apply set_keys_NoDup.
  - rewrite Hset. now apply set_Forall.
Qed.

(** The methods behind every other route leave the users alone. *)
Ltac same_users_method :=
  let s := fresh "s" in
  intros s; unfold same_users;
  unfold createCampaign, createAd, createVideo, updateCampaign, updateAd,
    updateVideo, deleteCampaign, deleteAd, deleteVideo;
  repeat match goal with
         | |- context [match ?x with _ => _ end] => destruct x
         end;
  reflexivity.

Lemma act_same_users (c : Call) (w : World) :
  (forall req, c <> Routed (Register req)) ->
  users (storage (act w c)) = users (storage w).
Proof.
  apply (act_keeps_but_register same_users);
    try (intros; same_users_method).
  - reflexivity.
  - unfold same_users. congruence.
Qed.

Lemma act_users_ok (c : Call) (w : World) :
  users_ok (storage w) -> users_ok (storage (act w c)).
Proof.
  intros Hok.
  destruct c as [[req| | | | | |]| | | | | | | | |];
    try (apply (users_ok_same_users (storage w));
         [apply act_same_users; discriminate | exact Hok]).
  now apply register_users_ok.
Qed.

Lemma play_users_ok (cs : list Call) (w : World) :
  users_ok (storage w) -> users_ok (storage (play cs w)).
Proof.
  revert w. induction cs as [|c cs IH]; intros w Hok; simpl.
  - exact Hok.
  - apply IH. now apply act_users_ok.
Qed.

Lemma has_lowercase_same (key x y : string) (u : obj) :
  toLowerCase x = toLowerCase y ->
  has_lowercase key x u = has_lowercase key y u.
Proof. intros Hxy. unfold has_lowercase. now rewrite Hxy. Qed.

Lemma existsb_same {A : Type} (p q : A -> bool) (l : list A) :
  (forall a, p a = q a) -> existsb p l = existsb q l.
Proof.
  intros Hpq. induction l as [|a l IH]; simpl; [reflexivity|].
  now rewrite Hpq, IH.
Qed.

(** The register handler is its two stretches, one after the other. *)
Lemma register_in_two_stretches (req : Request) (w : World) :
  register_handler req w
  = match register_checks req w with
    | (Some r, w') => (r, w')
    | (None, w') => register_creates req w'
    end.
Proof.
  unfold register_handler, register_checks, register_creates, try_catch,
    bind, ret.
  destruct (lift (getUserByEmail (prop (body req) "email")) w)
    as [[[u|]|err] w1]; try reflexivity.
  destruct (lift (getUserByUsername (prop (body req) "username")) w1)
    as [[[u|]|err] w2]; reflexivity.
Qed.

(** The checks pass when the e-mail and the username are free, and
    change nothing. *)
Lemma register_checks_pass (req : Request) (w : World) (e n : string) :
  users_wf (storage w) ->
  prop (body req) "email" = VStr e ->
  prop (body req) "username" = VStr n ->
  email_taken e (storage w) = false ->
  username_taken n (storage w) = false ->
  register_checks req w = (None, w).
Proof.
  intros Hwf He Hn Hemail Huser.
  unfold register_checks, try_catch, bind, lift, ret. rewrite He, Hn.
  rewrite getUserByEmail_wf by assumption.
  rewrite (find_existsb_false _ _ Hemail). cbn beta iota.
  cbn [storage with_storage].
  rewrite getUserByUsername_wf by assumption.
  rewrite (find_existsb_false _ _ Huser). cbn beta iota.
  cbn [storage with_storage]. now rewrite !with_storage_same.
Qed.

(** The second stretch stores the user under the next id, whatever the
    users are by then. *)
Lemma register_creates_stores (req : Request) (w : World) (e p : string) :
  prop (body req) "email" = VStr e ->
  prop (body req) "password" = VStr p ->
  exists newUser : obj,
    fst (register_creates req w) = json 201 (public_user newUser)
    /\ users (storage (snd (register_creates req w)))
       = JsMap.set (userId (storage w)) newUser (users (storage w))
    /\ userId (storage (snd (register_creates req w)))
       = userId (storage w) + 1
    /\ field newUser "email" = VStr e.
Proof.
  intros He Hp.
  destruct (body req) as [| | | | | | | |o] eqn:Hbody; try discriminate.
  simpl in He, Hp.
  unfold register_creates, try_catch, bind, lift. rewrite Hbody.
  cbn [prop spread]. rewrite Hp.
  cbn [hash ret createUser storage with_storage].
  exists (<["createdAt":=VDate (now req)]>
            (<["id":=VNum (userId (storage w))]>
               (<["password":=VStr (bcrypt_hash p 10 (salt req))]> o))).
  split; [now destruct (strict_eq (field o "userType") (VStr "company"))|].
  split; [now destruct (strict_eq (field o "userType") (VStr "company"))|].
  split; [now destruct (strict_eq (field o "userType") (VStr "company"))|].
  unfold field in He |- *. rewrite !lookup_insert_ne by done. exact He.
Qed.

Lemma existsb_false_In {A : Type} (q : A -> bool) (l : list A) (a : A) :
  existsb q l = false -> In a l -> q a = false.
Proof.
  intros Hex Hin. destruct (q a) eqn:Hq; [|reflexivity].
  rewrite <- Hex. symmetry. apply existsb_exists. now exists a.
Qed.

(** What [unique_lowercase] says of two records of the map. *)
Lemma unique_lowercase_distinct (key : string) (m : JsMap.t obj)
    (k1 k2 : Z) (u1 u2 : obj) (x1 x2 : string) :
  unique_lowercase key (JsMap.values m) = true ->
  JsMap.get k1 m = Some u1 ->
  JsMap.get k2 m = Some u2 ->
  k1 <> k2 ->
  field u1 key = VStr x1 ->
  field u2 key = VStr x2 ->
  toLowerCase x1 <> toLowerCase x2.
Proof.
  intros Huniq Hg1 Hg2 Hne Hx1 Hx2 Hsame.
  induction m as [|[k u] m IH]; simpl in *; [discriminate|].
  apply andb_true_iff in Huniq as [Hhead Htail].
  destruct (k =? k1) eqn:E1; destruct (k =? k2) eqn:E2.
  - apply Z.eqb_eq in E1, E2. congruence.
  - injection Hg1 as ->. rewrite Hx1 in Hhead.
    apply negb_true_iff in Hhead.
    apply jsmap_get_Some_values in Hg2.
    pose proof (existsb_false_In _ _ _ Hhead Hg2) as Hno.
    unfold has_lowercase in Hno. rewrite Hx2, Hsame in Hno.
    now rewrite String.eqb_refl in Hno.
  - injection Hg2 as ->. rewrite Hx2 in Hhead.
    apply negb_true_iff in Hhead.
    apply jsmap_get_Some_values in Hg1.
    pose proof (existsb_false_In _ _ _ Hhead Hg1) as Hno.
    unfold has_lowercase in Hno. rewrite Hx1, Hsame in Hno.
    now rewrite String.eqb_refl in Hno.
  - now apply IH.
Qed.

(** X2. Served one after the other, from the first line of a handler to
    its answer, the requests never leave two users with the same e-mail
    or the same username, compared case-insensitively.  The register
    handler does not run in one piece, though: it hands control back at
    [await bcrypt.hash], between its two look-ups and [createUser].
    When the look-ups of two valid registrations with the same e-mail
    have both run before either creates its user, both are answered 201
    and both users are stored: the e-mail is no longer unique. *)
Theorem registrations_unique_unless_interleaved :
  (forall cs : list Call,
     users_unique (storage (play cs initial_world)) = true)
  /\ (forall (reqA reqB : Request) (w : World) (eA eB nA nB : string),
        users_wf (storage w) ->
        registerUserSchema (body reqA) = true ->
        registerUserSchema (body reqB) = true ->
        prop (body reqA) "email" = VStr eA ->
        prop (body reqB) "email" = VStr eB ->
        toLowerCase eB = toLowerCase eA ->
        prop (body reqA) "username" = VStr nA ->
        prop (body reqB) "username" = VStr nB ->
        email_taken eA (storage w) = false ->
        username_taken nA (storage w) = false ->
        username_taken nB (storage w) = false ->
        register_checks reqA w = (None, w)
        /\ register_checks reqB w = (None, w)
        /\ exists uA uB : obj,
             fst (register_creates reqA w) = json 201 (public_user uA)
             /\ fst (register_creates reqB (snd (register_creates reqA w)))
                = json 201 (public_user uB)
             /\ JsMap.get (userId (storage w))
                  (users (storage
                            (snd (register_creates reqB
                                    (snd (register_creates reqA w))))))
                = Some uA
             /\ JsMap.get (userId (storage w) + 1)
                  (users (storage
                            (snd (register_creates reqB
                                    (snd (register_creates reqA w))))))
                = Some uB
             /\ field uA "email" = VStr eA
             /\ field uB "email" = VStr eB
             /\ users_unique
                  (storage (snd (register_creates reqB
                                   (snd (register_creates reqA w)))))
                = false).
Proof.
  split.
  { intros cs. apply (play_users_ok cs initial_world users_ok_initial). }
  intros reqA reqB w eA eB nA nB Hwf HvA HvB HeA HeB Hlow HnA HnB Hemail
    HuA HuB.
  assert (HemailB : email_taken eB (storage w) = false).
  { unfold email_taken in *.
    rewrite (existsb_same _ (has_lowercase "email" eA)); [exact Hemail|].
    intros u. now apply has_lowercase_same. }
  split; [now apply (register_checks_pass reqA w eA nA)|].
  split; [now apply (register_checks_pass reqB w eB nB)|].
  assert (HpA : exists p, prop (body reqA) "password" = VStr p).
  { destruct (body reqA) as [| | | | | | | |o]; try discriminate HvA.
    simpl in HvA. repeat (apply andb_true_iff in HvA as [HvA ?]).
    simpl. destruct (field o "password"); try discriminate. eauto. }
  assert (HpB : exists p, prop (body reqB) "password" = VStr p).
  { destruct (body reqB) as [| | | | | | | |o]; try discriminate HvB.
    simpl in HvB. repeat (apply andb_true_iff in HvB as [HvB ?]).
    simpl. destruct (field o "password"); try discriminate. eauto. }
  destruct HpA as [pA HpA]. destruct HpB as [pB HpB].
  destruct (register_creates_stores reqA w eA pA HeA HpA)
    as (uA & HrA & HusersA & HidA & HmailA).
  set (wA := snd (register_creates reqA w)) in *.
  destruct (register_creates_stores reqB wA eB pB HeB HpB)
    as (uB & HrB & HusersB & _ & HmailB).
  set (wB := snd (register_creates reqB wA)) in *.
  assert (HgetA : JsMap.get (userId (storage w)) (users (storage wB))
                  = Some uA).
  { rewrite HusersB, HidA, jsmap_get_set_ne by lia.
    rewrite HusersA. apply jsmap_get_set_eq. }
  assert (HgetB : JsMap.get (userId (storage w) + 1) (users (storage wB))
                  = Some uB).
  { rewrite HusersB, HidA. apply jsmap_get_set_eq. }
  exists uA, uB. repeat split; try assumption.
  destruct (users_unique (storage wB)) eqn:Huniq; [|reflexivity].
  exfalso. unfold users_unique in Huniq.
  apply andb_true_iff in Huniq as [Huniq _].
  apply (unique_lowercase_distinct "email" (users (storage wB))
           (userId (storage w)) (userId (storage w) + 1) uA uB eA eB);
    try assumption; [lia | now symmetry].
Qed.

(** ** Registration, then login *)

(** A registration that goes through, in full. *)
Lemma register_success (req : Request) (w : World) (e n p t : string) :
  users_wf (storage w) ->
  registerUserSchema (body req) = true ->
  prop (body req) "email" = VStr e ->
  prop (body req) "username" = VStr n ->
  prop (body req) "password" = VStr p ->
  prop (body req) "userType" = VStr t ->
  email_taken e (storage w) = false ->
  username_taken n (storage w) = false ->
  exists newUser : obj,
    fst (register req w) = json 201 (public_user newUser)
    /\ users (storage (snd (register req w)))
       = JsMap.set (userId (storage w)) newUser (users (storage w))
    /\ field newUser "id" = VNum (userId (storage w))
    /\ field newUser "email" = VStr e
    /\ field newUser "password" = VStr (bcrypt_hash p 10 (salt req))
    /\ field newUser "userType" = VStr t
    /\ field newUser "confirmPassword" = VStr p.
Proof.
  intros Hwf Hvalid He Hn Hp Ht Hemail Huser.
  unfold register, validateRequest. rewrite Hvalid.
  destruct (body req) as [| | | | | | | |o] eqn:Hbody; try discriminate.
  simpl in He, Hn, Hp, Ht.
  assert (Hconfirm : field o "confirmPassword" = VStr p).
  { simpl in Hvalid. apply andb_true_iff in Hvalid as [_ Hsame].
    rewrite Hp in Hsame.
    destruct (field o "confirmPassword"); try discriminate Hsame.
    simpl in Hsame. apply String.eqb_eq in Hsame. now subst. }
  unfold register_handler, try_catch, bind, lift. rewrite Hbody.
  cbn [prop spread]. rewrite He, Hn, Hp, Ht.
  rewrite getUserByEmail_wf by assumption.
  rewrite (find_existsb_false _ _ Hemail). cbn beta iota.
  cbn [storage with_storage].
  rewrite getUserByUsername_wf by assumption.
  rewrite (find_existsb_false _ _ Huser). cbn beta iota.
  cbn [hash ret createUser storage with_storage strict_eq].
  exists (<["createdAt":=VDate (now req)]>
            (<["id":=VNum (userId (storage w))]>
               (<["password":=VStr (bcrypt_hash p 10 (salt req))]> o))).
  split; [now destruct (String.eqb t "company")|].
  split; [now destruct (String.eqb t "company")|].
  unfold field in He, Ht, Hconfirm |- *.
  repeat split;
    repeat first [rewrite lookup_insert_eq
                 | rewrite lookup_insert_ne by done];
    first [reflexivity | assumption].
Qed.



(** X4. A registration that goes through stores, next to the hashed
    [password], the [confirmPassword] of the request as it came: the
    plaintext password is kept in the user record. *)
Theorem register_stores_confirm_password (req : Request) (w : World)
    (e n p t : string) :
  users_wf (storage w) ->
  registerUserSchema (body req) = true ->
  prop (body req) "email" = VStr e ->
  prop (body req) "username" = VStr n ->
  prop (body req) "password" = VStr p ->
  prop (body req) "userType" = VStr t ->
  email_taken e (storage w) = false ->
  username_taken n (storage w) = false ->
  exists newUser : obj,
    JsMap.get (userId (storage w))
              (users (storage (snd (register req w)))) = Some newUser
    /\ field newUser "password" = VStr (bcrypt_hash p 10 (salt req))
    /\ field newUser "confirmPassword" = VStr p.
Proof.
  intros Hwf Hvalid He Hn Hp Ht Hemail Huser.
  destruct (register_success req w e n p t)
    as (newUser & _ & Husers & _ & _ & Hhash & _ & Hconfirm);
    try assumption.
  exists newUser. rewrite Husers.
  split; [apply jsmap_get_set_eq | now split].
Qed.

(** ** Login, then /me *)

Lemma in_values {A : Type} (v : A) (m : JsMap.t A) :
  In v (JsMap.values m) -> exists k : Z, In (k, v) m.
Proof.
  unfold JsMap.values. intros Hin.
  apply in_map_iff in Hin as ([k v'] & Hv & Hin). simpl in Hv. subst.
  now exists k.
Qed.

Lemma login_success (req : Request) (w : World) (pub : value)
    (s' : Session) :
  users_ok (storage w) ->
  ids_fresh (storage w) ->
  fst (login req w) = (json 200 pub, Some s') ->
  exists (k : Z) (u : obj),
    In (k, u) (users (storage w))
    /\ 1 <= k
    /\ field u "id" = VNum k
    /\ pub = public_user u
    /\ s' = {| sess_userId := VNum k;
               sess_userType := field u "userType" |}.
Proof.
  intros (Hwf & _ & Hnd & Hkeyed) (Hbelow & _).
  unfold login.
  destruct (loginUserSchema (body req)) eqn:Hvalid;
    [|intros [= ? ?]; discriminate].
  unfold loginUserSchema in Hvalid.
  destruct (body req) as [| | | | | | | |o] eqn:Hbody; try discriminate.
  destruct (field o "email") as [| | | | |e| | |] eqn:He;
    try discriminate.
  unfold login_handler, try_catch, bind, lift. rewrite Hbody.
  cbn [prop]. rewrite He, getUserByEmail_wf by assumption.
  destruct (List.find _ _) as [u|] eqn:Hfind; cbn beta iota;
    [|intros [= ? ?]; discriminate].
  apply find_some in Hfind as [Hin _].
  apply in_values in Hin as [k Hin].
  pose proof (proj1 (List.Forall_forall _ _) Hkeyed _ Hin) as Hid.
  pose proof (proj1 (List.Forall_forall _ _) (proj2 Hbelow) _ Hin) as Hk.
  simpl in Hid, Hk.
  unfold compare, ret, throw.
  destruct (field o "password"); cbn beta iota;
    try (intros [= ? ?]; discriminate).
  destruct (field u "password"); cbn beta iota;
    try (intros [= ? ?]; discriminate).
  destruct (bcrypt_compare _ _); cbn [negb];
    [|intros [= ? ?]; discriminate].
  destruct (session req); cbn [fst]; [|intros [= ? ?]].
  intros [= <- <-]. exists k, u. rewrite Hid.
  repeat split; [exact Hin | lia].
Qed.

(** X5. In every world the server reaches, when a login answers 200 and
    leaves a session, GET /api/auth/me under that session answers 200
    with the same body, and changes nothing. *)
Theorem login_then_me (cs : list Call) (req req' : Request) (pub : value)
    (s' : Session) :
  fst (login req (play cs initial_world)) = (json 200 pub, Some s') ->
  session req' = Some s' ->
  me req' (play cs initial_world)
  = (json 200 pub, play cs initial_world).
Proof.
  set (w := play cs initial_world). intros Hlogin Hsess.
  assert (Hok : users_ok (storage w))
    by apply (play_users_ok cs initial_world users_ok_initial).
  assert (Hfresh : ids_fresh (storage w))
    by apply (play_ids_advance cs initial_world), ids_fresh_initial.
  destruct (login_success req w pub s' Hok Hfresh Hlogin)
    as (k & u & Hin & Hk & Hid & -> & ->).
  destruct Hok as (_ & _ & Hnd & _).
  unfold me, not_authenticated, session_userId. rewrite Hsess.
  cbn [sess_userId truthy].
  replace (k =? 0) with false by (symmetry; apply Z.eqb_neq; lia).
  cbn [negb]. unfold try_catch, bind, lift, getUser, ret.
  cbn [map_get]. rewrite (get_of_In k u) by assumption.
  cbn beta iota. now rewrite with_storage_same.
Qed.

(** ** Uploads *)

(** X6. A part under another field name than [file], a part whose MIME
    type does not start with [video/], and a part longer than 2GB are
    refused by multer on both upload routes with the same error: no
    handler runs, nothing is stored and nothing is written. *)
Theorem upload_refused_before_handler (req : Request) (w : World)
    (f : FilePart) :
  file_part req = Some f ->
  fieldname f <> "file" \/ fileFilter f = false \/ fileSize < size f ->
  exists err : string,
    ads_upload req w = (NextError err, w)
    /\ videos_upload req w = (NextError err, w).
Proof.
  intros Hf Hbad. unfold ads_upload, videos_upload, upload_single.
  rewrite Hf.
  destruct (String.eqb (fieldname f) "file") eqn:Hname; cbn [negb].
  2:{ eexists. split; reflexivity. }
  destruct (fileFilter f) eqn:Hfilter; cbn [negb].
  2:{ eexists. split; reflexivity. }
  destruct Hbad as [Hbad|[Hbad|Hbad]].
  - apply String.eqb_eq in Hname. contradiction.
  - discriminate.
  - apply Z.ltb_lt in Hbad. rewrite Hbad. eexists. split; reflexivity.
Qed.

(** X7. multer runs before the handlers look at the session: an upload
    without a session is answered 401 on both routes, and the file it
    carried has been written to disk all the same. *)
Theorem unauthenticated_upload_keeps_file (req : Request) (w : World)
    (f : FilePart) :
  not_authenticated req = true ->
  file_part req = Some f ->
  fieldname f = "file" ->
  fileFilter f = true ->
  size f <= fileSize ->
  ads_upload req w
  = (Sent (json 401 (message "Not authenticated")),
     with_disk (disk w ∪ {[path_join [destination f; filename req f]]}) w)
  /\ videos_upload req w
     = (Sent (json 401 (message "Not authenticated")),
        with_disk (disk w ∪ {[path_join [destination f; filename req f]]})
                  w).
Proof.
  intros Hna Hf Hname Hfilter Hsize.
  unfold ads_upload, videos_upload, upload_single.
  rewrite Hf, Hname, Hfilter. simpl.
  assert (Hle : (fileSize <? size f) = false) by now apply Z.ltb_ge.
  rewrite Hle.
  unfold ads_upload_handler, videos_upload_handler. rewrite Hna.
  split; reflexivity.
Qed.

(** X8. The two upload routes take the file under the field name [file],
    and [destination] sends only the field name [adVideo] to
    [uploads/ads]: the file of every ad that is created lies under
    [uploads/videos]. *)
Theorem ad_file_stored_under_videos (req : Request) (w : World)
    (f : FilePart) :
  not_authenticated req = false ->
  file_part req = Some f ->
  fieldname f = "file" ->
  fileFilter f = true ->
  size f <= fileSize ->
  exists ad : obj,
    fst (ads_upload req w) = Sent (json 201 (VObj ad))
    /\ field ad "filePath"
       = VStr (path_join [path_join [dirname; ".."; "uploads"; "videos"];
                          filename req f])
    /\ path_join [path_join [dirname; ".."; "uploads"; "videos"];
                  filename req f]
       ∈ disk (snd (ads_upload req w)).
Proof.
  intros Hna Hf Hname Hfilter Hsize.
  unfold ads_upload, upload_single. rewrite Hf, Hname, Hfilter. simpl.
  assert (Hle : (fileSize <? size f) = false) by now apply Z.ltb_ge.
  rewrite Hle.
  match goal with
  | |- context [ads_upload_handler (Some ?file) req ?w1] =>
      destruct (ads_upload_handler_creates file req w1 Hna)
        as (ad & -> & _ & _ & Hpath & _)
  end.
  exists ad. unfold destination in *. rewrite Hname in *. simpl in *.
  split; [reflexivity|]. split; [exact Hpath|].
  apply elem_of_union_r, elem_of_singleton. reflexivity.
Qed.

(** ** The processing timers *)

Lemma set_keys_same {A : Type} (k : Z) (v e : A) (m : JsMap.t A) :
  JsMap.get k m = Some e ->
  List.map fst (JsMap.set k v m) = List.map fst m.
Proof.
  induction m as [|[k' v'] m IH]; simpl; [discriminate|].
  destruct (k' =? k) eqn:E; simpl.
  - apply Z.eqb_eq in E. now subst.
  - intros Hget. now rewrite IH.
Qed.

Lemma same_but_video_records_refl (s : MemStorage.t) :
  same_but_video_records s s.
Proof. repeat split. Qed.

Lemma same_but_video_records_trans (s1 s2 s3 : MemStorage.t) :
  same_but_video_records s1 s2 -> same_but_video_records s2 s3 ->
  same_but_video_records s1 s3.
Proof.
  unfold same_but_video_records.
  intros (U1 & C1 & P1 & G1 & A1 & V1) (U2 & C2 & P2 & G2 & A2 & V2).
  repeat split; congruence.
Qed.

Lemma updateVideo_same_but_video_records (i d : value) :
  method_keeps same_but_video_records (updateVideo i d).
Proof.
  intros s. unfold updateVideo.
  destruct (map_get i (videos s)) as [e|] eqn:Hget;
    [|apply same_but_video_records_refl].
  apply map_get_is_num in Hget as (k & -> & Hget).
  repeat split. simpl. now apply (set_keys_same k _ e).
Qed.

Lemma processing_done_frame (tm : Timer) (rnd : Z) (w : World) :
  disk (processing_done tm rnd w) = disk w
  /\ unlinked (processing_done tm rnd w) = unlinked w.
Proof.
  unfold processing_done, try_catch, bind, lift, updateVideo.
  destruct (map_get (timer_video tm) (videos (storage w)));
    split; reflexivity.
Qed.

Lemma fire_all_frame (draws : nat -> Z) (due : list Timer) :
  forall (n : nat) (w : World),
    disk (fire_all draws n due w) = disk w
    /\ unlinked (fire_all draws n due w) = unlinked w.
Proof.
  induction due as [|tm due IH]; intros n w; simpl; [now split|].
  destruct (IH (S n) (processing_done tm (draws n) w)) as [-> ->].
  apply processing_done_frame.
Qed.

(** X9. Whatever timers come due, the event loop changes fields of
    videos that are stored and nothing else: users, profiles, campaigns
    and ads are as before, no video appears or disappears, no file is
    written or unlinked. *)
Theorem timers_change_video_fields_only (t : Z) (draws : nat -> Z)
    (w : World) :
  same_but_video_records (storage w) (storage (advance t draws w))
  /\ disk (advance t draws w) = disk w
  /\ unlinked (advance t draws w) = unlinked w.
Proof.
  split.
  - apply (advance_keeps same_but_video_records
             same_but_video_records_refl same_but_video_records_trans).
    apply updateVideo_same_but_video_records.
  - unfold advance. cbn [disk unlinked]. apply fire_all_frame.
Qed.

(** X10. The timer of a video that has been deleted by its owner before
    the processing was over finds no record: its callback writes one
    line with [console.error] and changes nothing else. *)
Theorem timer_of_deleted_video_only_logs (req : Request) (w : World)
    (e : obj) (tm : Timer) (rnd : Z) :
  not_authenticated req = false ->
  stored Videos (id_of req) w = Some e ->
  strict_eq (field e "userId") (session_userId req) = true ->
  timer_video tm = id_of req ->
  processing_done tm rnd (snd (by_id DELETE Videos req w))
  = console_error "Error updating processed video:"
                  (snd (by_id DELETE Videos req w)).
Proof.
  intros Hna Hsome Hown Htm.
  destruct (delete_owner Videos req w e Hna Hsome Hown) as (_ & Hgone & _).
  unfold processing_done, try_catch, bind, lift, updateVideo.
  rewrite Htm. unfold stored in Hgone. rewrite Hgone. cbn [snd].
  now rewrite with_storage_same.
Qed.

(** ** Reading routes and the reach of the by-id routes *)

(** X11. The reading routes never change the world, whatever they
    answer: GET by id, the download, /api/auth/me, the three lists and
    the two summaries. *)
Theorem reading_routes_change_nothing (k : Kind) (rnd : Random)
    (req : Request) (w : World) :
  snd (by_id GET k req w) = w
  /\ snd (download_video req w) = w
  /\ snd (me req w) = w
  /\ snd (list_campaigns rnd req w) = w
  /\ snd (list_ads req w) = w
  /\ snd (list_videos req w) = w
  /\ snd (analytics_summary rnd req w) = w
  /\ snd (creator_summary rnd req w) = w.
Proof.
  destruct w as [s d tms c u].
  repeat match goal with |- _ /\ _ => split end;
    [destruct k|..];
    unfold by_id, get_campaign, get_ad, get_video, download_video, me,
      list_campaigns, list_ads, list_videos, analytics_summary,
      creator_summary, try_catch, bind, ret, lift, getCampaign, getAd,
      getVideo, getUser, getCampaignsByUserId, getAdsByUserId,
      getVideosByUserId;
    destruct (not_authenticated req); try reflexivity;
    cbn [storage with_storage fst snd];
    repeat match goal with
           | |- context [match map_get ?i ?m with _ => _ end] =>
               destruct (map_get i m)
           | |- context [if ?b then _ else _] => destruct b
           end;
    reflexivity.
Qed.

(** X12. A by-id route reaches the records of its own kind only: the
    records of the other two kinds are as before.  In particular a
    campaign is deleted without its ads. *)
Theorem by_id_touches_one_kind (m : Method) (k k' : Kind) (req : Request)
    (w : World) :
  k' <> k ->
  records k' (snd (by_id m k req w)) = records k' w.
Proof.
  intros Hk.
  destruct (not_authenticated req) eqn:Hna.
  { now rewrite by_id_no_session. }
  destruct (stored k (id_of req) w) as [e|] eqn:Hsome.
  2:{ now destruct (by_id_absent m k req w Hna Hsome) as (_ & ->). }
  destruct (strict_eq (field e "userId") (session_userId req)) eqn:Hown.
  2:{ now destruct (by_id_not_owner m k req w e Hna Hsome Hown)
        as (_ & ->). }
  destruct m; [now rewrite (get_owner k req w e)|..];
    destruct k, k'; try contradiction; clear Hk;
    unfold by_id, patch_campaign, delete_campaign, patch_ad, delete_ad,
      patch_video, delete_video, stored, try_catch, bind, ret, lift,
      getCampaign, getAd, getVideo, updateCampaign, updateAd, updateVideo,
      deleteCampaign, deleteAd, deleteVideo in *;
    rewrite Hna; cbn [storage with_storage fst snd] in *;
    rewrite Hsome, Hown; cbn [negb];
    repeat match goal with
           | |- context [(if truthy ?v then catch_log (fs_unlink ?v) ?msg
                          else _) ?w0] =>
               let w1 := fresh "w" in
               let Hs := fresh "Hstep" in
               let Hst := fresh "Hsto" in
               destruct (unlink_step v msg w0) as (w1 & Hs & Hst & _);
               unfold ret in Hs; rewrite Hs; clear Hs;
               cbn [storage with_storage] in Hst; cbn beta iota
           end;
    unfold records; cbn [storage with_storage fst snd];
    repeat match goal with
           | Heq : storage _ = _ |- _ => rewrite Heq; clear Heq
           end;
    try rewrite Hsome; reflexivity.
Qed.

(** X13. An id that [parseInt] does not turn into a number is the id
    of nothing: for a request with a session every by-id route answers
    404, not 400, and changes nothing. *)
Theorem by_id_not_a_number (m : Method) (k : Kind) (req : Request)
    (w : World) :
  not_authenticated req = false ->
  (forall n : Z, id_of req <> VNum n) ->
  status (fst (by_id m k req w)) = 404 /\ snd (by_id m k req w) = w.
Proof.
  intros Hna Hnan. apply by_id_absent; [exact Hna|].
  destruct (stored k (id_of req) w) as [e|] eqn:Hsome; [|reflexivity].
  destruct k; apply map_get_is_num in Hsome as (n & Hn & _);
    now destruct (Hnan n).
Qed.

(** ** A deleted record stays deleted *)

Lemma retired_stay_refl (s : MemStorage.t) : retired_stay s s.
Proof. intros n. tauto. Qed.

Lemma retired_stay_trans (s1 s2 s3 : MemStorage.t) :
  retired_stay s1 s2 -> retired_stay s2 s3 -> retired_stay s1 s3.
Proof.
  intros H12 H23 n. specialize (H12 n). specialize (H23 n). tauto.
Qed.

Lemma retired_create (n c : Z) (v : obj) (m : JsMap.t obj) :
  retired n c m -> retired n (c + 1) (JsMap.set c v m).
Proof.
  intros [Hlt Hget]. split; [lia|].
  rewrite jsmap_get_set_ne by lia. exact Hget.
Qed.

Lemma retired_map_set (n c : Z) (id : value) (v e : obj)
    (m : JsMap.t obj) :
  map_get id m = Some e -> retired n c m -> retired n c (map_set id v m).
Proof.
  intros Hid [Hlt Hget]. split; [exact Hlt|].
  apply map_get_is_num in Hid as (k & -> & Hk). simpl.
  destruct (Z.eq_dec k n) as [->|Hne]; [congruence|].
  now rewrite jsmap_get_set_ne.
Qed.

Lemma retired_map_delete (n c : Z) (id : value) (m : JsMap.t obj) :
  retired n c m -> retired n c (map_delete id m).
Proof.
  intros [Hlt Hget]. split; [exact Hlt|].
  destruct id; simpl; try exact Hget.
  destruct (Z.eq_dec n0 n) as [->|Hne]; [apply jsmap_get_delete_eq|].
  now rewrite jsmap_get_delete_ne.
Qed.

(** Settles [retired_stay] for a storage method. *)
Ltac retired_method :=
  let s := fresh "s" in
  let n := fresh "n" in
  intros s n;
  unfold createUser, createCompanyProfile, createCreatorProfile,
    createCampaign, createAd, createVideo, updateCampaign, updateAd,
    updateVideo, deleteCampaign, deleteAd, deleteVideo;
  repeat match goal with
         | |- context [match ?x with _ => _ end] => destruct x eqn:?
         end;
  cbn [snd campaigns ads videos campaignId adId videoId with_users
       with_companyProfiles with_creatorProfiles with_campaigns with_ads
       with_videos];
  repeat match goal with |- _ /\ _ => split end;
  intros Hret;
  first [ exact Hret
        | now apply retired_create
        | now eapply retired_map_set; eauto
        | now apply retired_map_delete ].

Lemma play_retired_stay (cs : list Call) (w : World) :
  retired_stay (storage w) (storage (play cs w)).
Proof.
  apply (play_keeps retired_stay retired_stay_refl retired_stay_trans);
    intros; retired_method.
Qed.

(** X14. In every world the server reaches, once the owner has deleted a
    campaign, an ad or a video, every later by-id request for that id
    with a session is answered 404, whatever is requested in between:
    the id is not handed out again and the record does not come back. *)
Theorem deleted_id_stays_not_found (cs0 cs : list Call) (k : Kind)
    (m : Method) (req req' : Request) (e : obj) :
  not_authenticated req = false ->
  stored k (id_of req) (play cs0 initial_world) = Some e ->
  strict_eq (field e "userId") (session_userId req) = true ->
  not_authenticated req' = false ->
  id_of req' = id_of req ->
  status
    (fst (by_id m k req'
            (play cs (snd (by_id DELETE k req (play cs0 initial_world))))))
  = 404.
Proof.
  set (w := play cs0 initial_world). intros Hna Hsome Hown Hna' Hid.
  destruct (delete_owner k req w e Hna Hsome Hown) as (_ & Hgone & _).
  set (w1 := snd (by_id DELETE k req w)) in *.
  assert (Hfresh : ids_fresh (storage w))
    by apply (play_ids_advance cs0 initial_world), ids_fresh_initial.
  assert (Hle : counters_le (storage w) (storage w1)).
  { apply (by_id_keeps ids_advance ids_advance_refl ids_advance_trans);
      auto using ids_updateCampaign, ids_updateAd, ids_updateVideo,
        ids_deleteCampaign, ids_deleteAd, ids_deleteVideo. }
  apply by_id_absent; [exact Hna'|]. rewrite Hid.
  destruct Hfresh as (_ & _ & _ & Hca & Ha & Hv & _).
  destruct Hle as (_ & _ & _ & Lca & La & Lv & _).
  destruct k; unfold stored in *;
    apply map_get_is_num in Hsome as (n & Hn & Hsome);
    rewrite Hn in *; cbn [map_get] in *;
    destruct (play_retired_stay cs w1 n) as (Rca & Ra & Rv).
  - pose proof (keys_below_get _ _ _ _ Hca Hsome).
    apply Rca. split; [lia | exact Hgone].
  - pose proof (keys_below_get _ _ _ _ Ha Hsome).
    apply Ra. split; [lia | exact Hgone].
  - pose proof (keys_below_get _ _ _ _ Hv Hsome).
    apply Rv. split; [lia | exact Hgone].
Qed.

(** ** What the auth routes answer *)

Section Returns.
Context {A : Type}.
Variable P : A -> Prop.

Lemma returns_ret (a : A) : P a -> returns P (ret a).
Proof. intros Ha w. exact Ha. Qed.

Lemma returns_throw (e : Error) : returns P (throw e).
Proof. intros w. exact I. Qed.

Lemma returns_bind {B : Type} (c : St World B) (k : B -> St World A) :
  (forall b, returns P (k b)) -> returns P (bind c k).
Proof.
  intros Hk w. unfold bind. destruct (c w) as [[b|e] w1]; [|exact I].
  apply Hk.
Qed.

Lemma returns_try_catch (c : St World A) (a : A) (msg : string)
    (w : World) :
  returns P c -> P a ->
  P (fst (try_catch c (fun _ w' => (a, console_error msg w')) w)).
Proof.
  intros Hc Ha. unfold try_catch. specialize (Hc w).
  destruct (c w) as [[x|e] w1]; [exact Hc | exact Ha].
Qed.

End Returns.

Lemma hides_password_message (code : Z) (m : string) :
  hides_password (json code (message m)).
Proof. intros o [= <-]. reflexivity. Qed.

Lemma hides_password_public_user (code : Z) (u : obj) :
  hides_password (json code (public_user u)).
Proof. intros o [= <-]. reflexivity. Qed.

(** Takes a handler body apart, down to the responses it returns. *)
Ltac returns_body :=
  repeat first
    [ apply returns_throw
    | apply returns_ret; cbn [fst];
      first [ apply hides_password_message
            | apply hides_password_public_user ]
    | apply returns_bind; intros ?
    | match goal with
      | |- returns _ (match ?x with _ => _ end) => destruct x
      | |- returns _ (if ?b then _ else _) => destruct b
      end ].

(** X15. No answer of the register, login and me routes carries the
    [password] of a user record, whatever the request and the world. *)
Theorem auth_routes_hide_password (req : Request) (w : World) :
  hides_password (fst (register req w))
  /\ hides_password (fst (fst (login req w)))
  /\ hides_password (fst (me req w)).
Proof.
  repeat split.
  - unfold register, validateRequest.
    destruct (registerUserSchema (body req)); [|intros o [=]].
    unfold register_handler.
    apply returns_try_catch; [returns_body|].
    apply hides_password_message.
  - unfold login.
    destruct (loginUserSchema (body req)); [|intros o [=]].
    unfold login_handler.
    apply (returns_try_catch (fun p => hides_password (fst p)));
      [returns_body|].
    apply hides_password_message.
  - unfold me. destruct (not_authenticated req);
      [apply hides_password_message|].
    apply returns_try_catch; [returns_body|].
    apply hides_password_message.
Qed.

(** ** The client against the server *)

Import Client.

(** X16. In every world the server reaches, a user whose [userType] is
    [individual] and who has logged in is sent to /dashboard/creator by
    the home page and by the login modal, and the router, which asks for
    the type [creator], shows the home page there: with that session no
    path leads to the creator dashboard or to the video upload page. *)
Theorem individual_creator_sees_home (cs : list Call) (req req' : Request)
    (pub : value) (s' : Session) :
  fst (login req (play cs initial_world)) = (json 200 pub, Some s') ->
  prop pub "userType" = VStr "individual" ->
  session req' = Some s' ->
  home_redirect (auth_status req') = Some DashboardCreatorPath
  /\ login_redirect pub = DashboardCreatorPath
  /\ forall p : Path,
       Router (fst (checkAuth (auth_status req')))
              (snd (checkAuth (auth_status req'))) p = Home
       \/ Router (fst (checkAuth (auth_status req')))
                 (snd (checkAuth (auth_status req'))) p = NotFound.
Proof.
  set (w := play cs initial_world). intros Hlogin Htype Hsess.
  assert (Hok : users_ok (storage w))
    by apply (play_users_ok cs initial_world users_ok_initial).
  assert (Hfresh : ids_fresh (storage w))
    by apply (play_ids_advance cs initial_world), ids_fresh_initial.
  destruct (login_success req w pub s' Hok Hfresh Hlogin)
    as (k & u & _ & Hk & _ & -> & ->).
  assert (Hu : field u "userType" = VStr "individual") by exact Htype.
  unfold auth_status, not_authenticated, session_userType.
  rewrite Hsess. cbn [sess_userId sess_userType truthy].
  replace (k =? 0) with false by (symmetry; apply Z.eqb_neq; lia).
  cbn [negb]. rewrite Hu.
  unfold login_redirect. rewrite Htype.
  split; [reflexivity|]. split; [reflexivity|].
  intros p. destruct p; vm_compute; auto.
Qed.

Lemma includes_validTypes (x : string) :
  includes validTypes x = true -> String.prefix "video/" x = true.
Proof.
  unfold includes, validTypes. cbn [existsb].
  rewrite !orb_true_iff, !String.eqb_eq.
  intros [->|[->|[->|Hnone]]]; try reflexivity. discriminate Hnone.
Qed.

(** X17. A file that the ad page lets through ([handleFileChange]
    selects it and shows no toast), and a file shorter than 2GB that the
    video page lets through, is a file that multer lets through on the
    server: sent as the part [file], it is written to disk and handed to
    the handler.  (The video page also lets a file of exactly 2GB
    through; what becomes of it depends on how the upload library counts
    the limit, and nothing is said of it here.) *)
Theorem client_accepted_file_is_stored (file : BrowserFile)
    (selectedFile : option BrowserFile) (req : Request) (w : World) :
  ad_handleFileChange (Some file) selectedFile = (Some file, None)
  \/ (video_handleFileChange (Some file) selectedFile = (Some file, None)
      /\ bytes file < fileSize) ->
  file_part req = Some (file_part_of file) ->
  exists p : string,
    upload_single "file" req w
    = (Accepted (Some {| part := file_part_of file; path := p |}),
       with_disk (disk w ∪ {[p]}) w).
Proof.
  intros Hclient Hpart.
  assert (Hok : bytes file < fileSize
                /\ includes validTypes (type file) = true).
  { unfold ad_handleFileChange, video_handleFileChange in Hclient.
    unfold fileSize in *.
    destruct Hclient as [Hc|[Hc Hshort]].
    - destruct (100 * 1024 * 1024 <? bytes file) eqn:Hsize;
        [discriminate Hc|].
      destruct (includes validTypes (type file)); [|discriminate Hc].
      apply Z.ltb_ge in Hsize. split; [lia | reflexivity].
    - destruct (2 * 1024 * 1024 * 1024 <? bytes file) eqn:Hsize;
        [discriminate Hc|].
      destruct (includes validTypes (type file)); [|discriminate Hc].
      split; [exact Hshort | reflexivity]. }
  destruct Hok as [Hsize Htype].
  apply includes_validTypes in Htype.
  unfold upload_single. rewrite Hpart.
  unfold fileFilter. cbn [file_part_of fieldname mimetype size].
  rewrite Htype. cbn [negb String.eqb Ascii.eqb Bool.eqb].
  assert (Hle : (fileSize <? bytes file) = false)
    by (apply Z.ltb_ge; lia).
  rewrite Hle. eexists. reflexivity.
Qed.

(** X18. The progress bar that the upload pages advance every 500 ms
    while the request runs goes up in steps of 5 from 0 and stops at 95:
    after [n] ticks it shows [min (5 n) 95]; the ticks alone never
    bring it to 100. *)
Theorem progress_stops_at_95 (n : nat) :
  Nat.iter n progress_tick 0 = Z.min (5 * Z.of_nat n) 95.
Proof.
  induction n as [|n IH]; [reflexivity|].
  rewrite Nat.iter_succ, IH. unfold progress_tick.
  destruct (95 <=? Z.min (5 * Z.of_nat n) 95) eqn:E;
    [apply Z.leb_le in E | apply Z.leb_gt in E]; lia.
Qed.

(** ** Ownership *)

Lemma authenticated_num (req : Request) (u : Z) :
  session_userId req = VNum u -> u <> 0 -> not_authenticated req = false.
Proof.
  unfold session_userId, not_authenticated.
  destruct (session req) as [s|]; [|discriminate].
  intros -> Hu. simpl. apply negb_false_iff, negb_true_iff.
  now apply Z.eqb_neq.
Qed.

(** A body without a [Date] under [startDate] does not pass
    [insertCampaignSchema]: the route answers 400 before it looks at the
    session, and changes nothing. *)
Lemma create_campaign_without_date (req : Request) (w : World) :
  is_date (prop (body req) "startDate") = false ->
  create_campaign req w = ({| status := 400; content := ZodErrors |}, w).
Proof.
  intros Hdate. unfold create_campaign, validateRequest.
  assert (Hschema : insertCampaignSchema (body req) = false).
  { destruct (body req) as [| | | | | | | |o]; try reflexivity.
    simpl in Hdate. unfold insertCampaignSchema. rewrite Hdate.
    now rewrite andb_false_r. }
  now rewrite Hschema.
Qed.

(** With no campaign stored, the storage methods that the other routes
    call store none. *)
Ltac no_campaign_method :=
  let s := fresh "s" in
  let Hnone := fresh "Hnone" in
  intros s Hnone;
  unfold createUser, createCompanyProfile, createCreatorProfile,
    createAd, createVideo, updateCampaign, updateAd, updateVideo,
    deleteCampaign, deleteAd, deleteVideo;
  try rewrite Hnone;
  repeat match goal with
         | |- context [match map_get ?i [] with _ => _ end] =>
             replace (map_get i []) with (@None obj)
               by (now destruct i)
         | |- context [match ?x with _ => _ end] => destruct x
         end;
  cbn [snd campaigns with_users with_companyProfiles
       with_creatorProfiles with_ads with_videos];
  assumption.

Lemma act_no_campaign (c : Call) (w : World) :
  campaigns_from_json [c] = true ->
  campaigns (storage w) = [] -> campaigns (storage (act w c)) = [].
Proof.
  intros Hjson.
  set (R := fun s s' : MemStorage.t =>
              campaigns s = [] -> campaigns s' = []).
  assert (Hrefl : forall s, R s s) by (intros s Hs; exact Hs).
  assert (Htrans : forall s1 s2 s3, R s1 s2 -> R s2 s3 -> R s1 s3)
    by (intros s1 s2 s3 H12 H23 Hs; auto).
  change (R (storage w) (storage (act w c))).
  destruct c as [ev| | | | | | | | |]; cbn [act]; try apply Hrefl;
    [destruct ev; cbn [step]|..];
    try match goal with
        | |- R _ (storage (snd (create_campaign ?req ?w0))) =>
            simpl in Hjson; rewrite andb_true_r in Hjson;
            apply negb_true_iff in Hjson;
            rewrite create_campaign_without_date by exact Hjson;
            apply Hrefl
        end;
    first [ eapply (register_keeps R) | eapply (login_keeps R)
          | eapply (by_id_keeps R) | eapply (download_keeps R)
          | eapply (ads_upload_keeps R) | eapply (videos_upload_keeps R)
          | eapply (advance_keeps R) | eapply (me_keeps R)
          | eapply (list_campaigns_keeps R) | eapply (list_ads_keeps R)
          | eapply (list_videos_keeps R)
          | eapply (analytics_summary_keeps R)
          | eapply (creator_summary_keeps R) ];
    first [ exact Hrefl | exact Htrans | intros; no_campaign_method ].
Qed.

(** X19. [insertCampaignSchema] asks for a [Date] under [startDate],
    and a request body parsed from JSON holds strings and numbers but
    no [Date].  So POST /api/campaigns answers 400 to
    every such body, with or without a session, and stores nothing; and
    as long as the bodies come from JSON, no campaign is ever stored,
    whatever else is requested. *)
Theorem no_campaign_from_json (cs : list Call) (req : Request) :
  campaigns_from_json cs = true ->
  is_date (prop (body req) "startDate") = false ->
  create_campaign req (play cs initial_world)
  = ({| status := 400; content := ZodErrors |}, play cs initial_world)
  /\ records Campaigns (play cs initial_world) = [].
Proof.
  intros Hjson Hdate. split; [now apply create_campaign_without_date|].
  unfold records.
  assert (Hall : forall w : World,
             campaigns (storage w) = [] ->
             campaigns (storage (play cs w)) = []).
  { induction cs as [|c cs IH]; intros w Hw; [exact Hw|].
    cbn [play fold_left]. unfold campaigns_from_json in Hjson.
    cbn [forallb] in Hjson. apply andb_true_iff in Hjson as [Hc Hcs].
    apply IH; [exact Hcs|].
    apply act_no_campaign; [|exact Hw].
    unfold campaigns_from_json. cbn [forallb]. now rewrite Hc. }
  now rewrite Hall.
Qed.

(** X20. The two summaries exclude each other: a session for which the
    company summary answers 200 gets 403 from the creator summary, and
    the other way round. *)
Theorem summaries_exclude_each_other (rnd rnd' : Random) (req : Request)
    (w : World) :
  (status (fst (analytics_summary rnd req w)) = 200 ->
   status (fst (creator_summary rnd' req w)) = 403)
  /\ (status (fst (creator_summary rnd' req w)) = 200 ->
      status (fst (analytics_summary rnd req w)) = 403).
Proof.
  unfold analytics_summary, creator_summary.
  destruct (not_authenticated req); [split; discriminate|].
  unfold try_catch, bind, lift, getUser, ret.
  destruct (map_get (session_userId req) (users (storage w))) as [u|];
    cbn beta iota; [|split; discriminate].
  destruct (field u "userType") as [| | | | |t| | |];
    try (split; discriminate).
  cbn [strict_eq].
  destruct (String.eqb t "company") eqn:Hc.
  - apply String.eqb_eq in Hc. subst t. split; [reflexivity|].
    discriminate.
  - cbn [negb fst status json]. split; [discriminate | reflexivity].
Qed.

Lemma in_values_set {A : Type} (k : Z) (v : A) (m : JsMap.t A) :
  In v (JsMap.values (JsMap.set k v m)).
Proof.
  apply (jsmap_get_Some_values k), jsmap_get_set_eq.
Qed.

(** X21. An ad that has been uploaded is in the list that GET /api/ads
    gives to the session of its uploader, and in the list of no other
    user. *)
Theorem uploaded_ad_listed_for_owner_only (req req' : Request) (w : World)
    (f : FilePart) (u u' : Z) :
  session_userId req = VNum u ->
  u <> 0 ->
  file_part req = Some f ->
  fieldname f = "file" ->
  fileFilter f = true ->
  size f <= fileSize ->
  session_userId req' = VNum u' ->
  u' <> 0 ->
  exists (ad : obj) (l : list value),
    fst (ads_upload req w) = Sent (json 201 (VObj ad))
    /\ list_ads req' (snd (ads_upload req w))
       = (json 200 (VArr l), snd (ads_upload req w))
    /\ (In (VObj ad) l <-> u' = u).
Proof.
  intros Hu Hnz Hf Hname Hfilter Hsize Hu' Hnz'.
  pose proof (authenticated_num req u Hu Hnz) as Hna.
  pose proof (authenticated_num req' u' Hu' Hnz') as Hna'.
  unfold ads_upload, upload_single. rewrite Hf, Hname, Hfilter. simpl.
  assert (Hle : (fileSize <? size f) = false) by now apply Z.ltb_ge.
  rewrite Hle.
  match goal with
  | |- context [ads_upload_handler (Some ?file) req ?w1] =>
      destruct (ads_upload_handler_creates file req w1 Hna)
        as (ad & -> & _ & Howner & _)
  end.
  rewrite Hu in Howner.
  exists ad. eexists. split; [reflexivity|].
  unfold list_ads. rewrite Hna'.
  unfold try_catch, bind, lift, getAdsByUserId, ret. cbn [fst snd].
  rewrite with_storage_same. split; [reflexivity|].
  rewrite Hu'. cbn [storage with_storage ads with_ads with_disk].
  rewrite in_map_iff. split.
  - intros (x & [= ->] & Hin). apply filter_In in Hin as [_ Hown].
    rewrite Howner in Hown. simpl in Hown.
    apply Z.eqb_eq in Hown. now subst.
  - intros ->. exists ad. split; [reflexivity|].
    apply filter_In. split; [apply in_values_set|].
    rewrite Howner. simpl. apply Z.eqb_refl.
Qed.

(** X22. A PATCH of the owner that carries another user's id as
    [userId] hands the record over: from then on the former owner is
    answered 403 on every by-id route of the record, and the user named
    in the body is its owner. *)
Theorem patch_userId_hands_over (k : Kind) (m : Method)
    (req req1 req2 : Request) (w : World) (e : obj) (u v : Z) :
  session_userId req = VNum u ->
  u <> 0 ->
  stored k (id_of req) w = Some e ->
  field e "userId" = VNum u ->
  prop (body req) "userId" = VNum v ->
  v <> 0 ->
  v <> u ->
  id_of req1 = id_of req ->
  session_userId req1 = VNum u ->
  id_of req2 = id_of req ->
  session_userId req2 = VNum v ->
  status (fst (by_id m k req1 (snd (by_id PATCH k req w)))) = 403
  /\ status (fst (by_id GET k req2 (snd (by_id PATCH k req w)))) = 200.
Proof.
  intros Hu Hnz Hsome He Hbody Hvz Hvu Hid1 Hu1 Hid2 Hu2.
  pose proof (authenticated_num req u Hu Hnz) as Hna.
  pose proof (authenticated_num req1 u Hu1 Hnz) as Hna1.
  pose proof (authenticated_num req2 v Hu2 Hvz) as Hna2.
  assert (Hown : strict_eq (field e "userId") (session_userId req) = true).
  { rewrite He, Hu. simpl. apply Z.eqb_refl. }
  destruct (patch_owner k req w e Hna Hsome Hown) as (_ & Hstored & _).
  set (w' := snd (by_id PATCH k req w)) in *.
  assert (Hnew : field (merge e (spread (body req))) "userId" = VNum v).
  { destruct (body req) as [| | | | | | | |b]; try discriminate Hbody.
    simpl in Hbody. unfold field in Hbody |- *. cbn [spread].
    destruct (b !! "userId") as [x|] eqn:Hx; [|discriminate Hbody].
    simpl in Hbody. subst x.
    now rewrite (merge_lookup_body e b "userId" (VNum v)). }
  split.
  - apply (by_id_not_owner m k req1 w' (merge e (spread (body req))));
      [exact Hna1 | now rewrite Hid1 |].
    rewrite Hnew, Hu1. simpl. apply Z.eqb_neq. exact Hvu.
  - rewrite (get_owner k req2 w' (merge e (spread (body req))));
      [reflexivity | exact Hna2 | now rewrite Hid2 |].
    rewrite Hnew, Hu2. simpl. apply Z.eqb_refl.
Qed.

(** X23. A video upload whose [adPreferences] is not JSON fails after
    multer has stored the file: the answer is 500, no video is created
    and no timer is set, and the file stays on disk. *)
Theorem video_upload_bad_preferences (req : Request) (w : World)
    (f : FilePart) :
  not_authenticated req = false ->
  file_part req = Some f ->
  fieldname f = "file" ->
  fileFilter f = true ->
  size f <= fileSize ->
  truthy (prop (body req) "adPreferences") = true ->
  JSON_parse (prop (body req) "adPreferences") = None ->
  videos_upload req w
  = (Sent (json 500 (message "Failed to upload video")),
     console_error "Upload video error:"
       (with_disk (disk w ∪ {[path_join [destination f; filename req f]]})
                  w)).
Proof.
  intros Hna Hf Hname Hfilter Hsize Htruthy Hparse.
  unfold videos_upload, upload_single. rewrite Hf, Hname, Hfilter. simpl.
  assert (Hle : (fileSize <? size f) = false) by now apply Z.ltb_ge.
  rewrite Hle.
  unfold videos_upload_handler. rewrite Hna.
  unfold try_catch, bind. rewrite Htruthy, Hparse. reflexivity.
Qed.

(** ** The storage class on its own *)

(** X24. Every method of the storage that writes (create, update and
    delete of the seven kinds of record, those no route calls included)
    keeps all keys of every map between 1 and the map's counter, and
    lowers no counter. *)
Theorem storage_methods_keep_ids (i d : value) (x : obj) (t : Z) :
  method_keeps ids_advance (createUser x t)
  /\ method_keeps ids_advance (updateUser i d)
  /\ method_keeps ids_advance (deleteUser i)
  /\ method_keeps ids_advance (createCompanyProfile x)
  /\ method_keeps ids_advance (updateCompanyProfile i d)
  /\ method_keeps ids_advance (deleteCompanyProfile i)
  /\ method_keeps ids_advance (createCreatorProfile x)
  /\ method_keeps ids_advance (updateCreatorProfile i d)
  /\ method_keeps ids_advance (deleteCreatorProfile i)
  /\ method_keeps ids_advance (createCampaign x t)
  /\ method_keeps ids_advance (updateCampaign i d)
  /\ method_keeps ids_advance (deleteCampaign i)
  /\ method_keeps ids_advance (createAd x t)
  /\ method_keeps ids_advance (updateAd i d)
  /\ method_keeps ids_advance (deleteAd i)
  /\ method_keeps ids_advance (createVideo x t)
  /\ method_keeps ids_advance (updateVideo i d)
  /\ method_keeps ids_advance (deleteVideo i)
  /\ method_keeps ids_advance (createVideoAd x t)
  /\ method_keeps ids_advance (updateVideoAd i d)
  /\ method_keeps ids_advance (deleteVideoAd i).
Proof.
  repeat match goal with |- _ /\ _ => split end; ids_method.
Qed.

(** Reads a field through the inserts of a create method. *)
Ltac field_through_inserts :=
  unfold field;
  repeat first [rewrite lookup_insert_eq
               | rewrite lookup_insert_ne by done];
  reflexivity.

(** X25. What a create method returns carries the id under which it
    has been stored, whatever [id] the input carried: the get method of
    the kind, given the [id] of the returned record, returns that
    record. *)
Theorem create_then_get (x : obj) (t : Z) (s : MemStorage.t) :
  (exists r : obj,
     fst (createUser x t s) = Ret r
     /\ fst (getUser (field r "id") (snd (createUser x t s)))
        = Ret (Some r))
  /\ (exists r : obj,
        fst (createCompanyProfile x s) = Ret r
        /\ fst (getCompanyProfile (field r "id")
                  (snd (createCompanyProfile x s)))
           = Ret (Some r))
  /\ (exists r : obj,
        fst (createCreatorProfile x s) = Ret r
        /\ fst (getCreatorProfile (field r "id")
                  (snd (createCreatorProfile x s)))
           = Ret (Some r))
  /\ (exists r : obj,
        fst (createCampaign x t s) = Ret r
        /\ fst (getCampaign (field r "id") (snd (createCampaign x t s)))
           = Ret (Some r))
  /\ (exists r : obj,
        fst (createAd x t s) = Ret r
        /\ fst (getAd (field r "id") (snd (createAd x t s)))
           = Ret (Some r))
  /\ (exists r : obj,
        fst (createVideo x t s) = Ret r
        /\ fst (getVideo (field r "id") (snd (createVideo x t s)))
           = Ret (Some r))
  /\ (exists r : obj,
        fst (createVideoAd x t s) = Ret r
        /\ fst (getVideoAd (field r "id") (snd (createVideoAd x t s)))
           = Ret (Some r)).
Proof.
  repeat match goal with |- _ /\ _ => split end;
    unfold createUser, createCompanyProfile, createCreatorProfile,
      createCampaign, createAd, createVideo, createVideoAd,
      getUser, getCompanyProfile, getCreatorProfile, getCampaign, getAd,
      getVideo, getVideoAd;
    cbn [fst snd];
    (eexists; split; [reflexivity|]);
    match goal with
    | |- Ret (map_get (field ?r "id") _) = _ =>
        let Hid := fresh "Hid" in
        eassert (Hid : field r "id" = VNum _)
          by field_through_inserts;
        rewrite Hid
    end;
    cbn [map_get users companyProfiles creatorProfiles campaigns ads
         videos videoAds with_users with_companyProfiles
         with_creatorProfiles with_campaigns with_ads with_videos
         with_videoAds];
    now rewrite jsmap_get_set_eq.
Qed.

(** ** The summaries against the lists *)

Lemma filter_map_length {A B : Type} (q : B -> bool) (g : A -> B)
    (l : list A) :
  length (List.filter q (List.map g l))
  = length (List.filter (fun a => q (g a)) l).
Proof.
  induction l as [|a l IH]; simpl; [reflexivity|].
  destruct (q (g a)); simpl; now rewrite IH.
Qed.

Lemma filter_imap_length {A B : Type} (p : A -> bool) (q : B -> bool)
    (l : list A) :
  forall g : nat -> A -> B,
    (forall i a, q (g i a) = p a) ->
    length (List.filter q (imap g l)) = length (List.filter p l).
Proof.
  induction l as [|a l IH]; intros g Hg; [reflexivity|].
  rewrite imap_cons. simpl. rewrite Hg.
  destruct (p a); simpl; rewrite (IH (g ∘ S)); auto;
    intros i b; apply Hg.
Qed.

(** X26. The counts of the summaries are counts of what the lists
    show: [activeCampaigns] is the number of campaigns with status
    [active] in the answer of GET /api/campaigns for the same session,
    [totalVideos] and [processingVideos] are the number of videos, and
    of videos with status [processing], in the answer of
    GET /api/videos. *)
Theorem summaries_count_the_lists (rnd rnd' : Random) (req : Request)
    (w : World) (o : obj) :
  (fst (analytics_summary rnd req w) = json 200 (VObj o) ->
   exists l : list value,
     fst (list_campaigns rnd' req w) = json 200 (VArr l)
     /\ field o "activeCampaigns"
        = VNum (Z.of_nat
                  (length
                     (List.filter
                        (fun c => strict_eq (prop c "status")
                                            (VStr "active")) l))))
  /\ (fst (creator_summary rnd req w) = json 200 (VObj o) ->
      exists l : list value,
        fst (list_videos req w) = json 200 (VArr l)
        /\ field o "totalVideos" = VNum (Z.of_nat (length l))
        /\ field o "processingVideos"
           = VNum (Z.of_nat
                     (length
                        (List.filter
                           (fun v => strict_eq (prop v "status")
                                               (VStr "processing")) l)))).
Proof.
  unfold analytics_summary, creator_summary, list_campaigns, list_videos.
  destruct (not_authenticated req); [split; discriminate|].
  unfold try_catch, bind, lift, getUser, getCampaignsByUserId,
    getVideosByUserId, ret.
  cbn [fst snd storage with_storage].
  destruct (map_get (session_userId req) (users (storage w))) as [u|];
    cbn beta iota; [|split; discriminate].
  split.
  - destruct (strict_eq (field u "userType") (VStr "company"));
      cbn [negb fst]; [|discriminate].
    intros [= <-]. eexists. split; [reflexivity|].
    rewrite filter_map_length. cbn [prop].
    rewrite (filter_imap_length
               (fun c => strict_eq (field c "status") (VStr "active"))).
    + reflexivity.
    + intros i c. unfold field.
      now rewrite !lookup_insert_ne by done.
  - destruct (strict_eq (field u "userType") (VStr "individual"));
      cbn [negb fst]; [|discriminate].
    intros [= <-]. eexists. split; [reflexivity|].
    rewrite length_map, filter_map_length. cbn [prop].
    split; reflexivity.
Qed.

End Extras.
(** * The further properties on concrete runs *)

Module MoreRuns.
Import TestRuntime.
Import Scenarios.
Import MemStorage.

(** X1: Acme's ad is deleted and another ad is uploaded; the new ad
    gets the id 2. *)
Lemma ids_never_reused_witness :
  1 <= 1
  < next_id Ads
      (play [Routed (ById DELETE Ads
                       (by_id_request company_session "1" VUndefined));
             Routed (AdsUpload big_ad_upload)]
            (play ad_calls initial_world)).
Proof.
  assert (Hstored : stored Ads (VNum 1) (play ad_calls initial_world)
                    = Some stored_ad)
    by (vm_compute; reflexivity).
  exact (ids_never_reused ad_calls
           [Routed (ById DELETE Ads
                      (by_id_request company_session "1" VUndefined));
            Routed (AdsUpload big_ad_upload)]
           Ads 1 stored_ad Hstored).
Defined.

(** X2: Alice registers twice at the same time, the second time with
    her e-mail in another case and under another username. *)
Lemma registrations_unique_unless_interleaved_witness :
  register_checks (request anonymous "" alice None 6) acme_world
  = (None, acme_world)
  /\ register_checks (request anonymous "" alice_again None 7) acme_world
     = (None, acme_world)
  /\ users_unique (storage raced_world) = false.
Proof.
  assert (Hwf : users_wf (storage acme_world))
    by (vm_compute; reflexivity).
  assert (Hlow : toLowerCase "Alice@Example.COM"
                 = toLowerCase "alice@example.com")
    by (vm_compute; reflexivity).
  assert (Hemail : email_taken "alice@example.com" (storage acme_world)
                   = false)
    by (vm_compute; reflexivity).
  assert (HnA : username_taken "alice" (storage acme_world) = false)
    by (vm_compute; reflexivity).
  assert (HnB : username_taken "alice2" (storage acme_world) = false)
    by (vm_compute; reflexivity).
  destruct (proj2 registrations_unique_unless_interleaved
              (request anonymous "" alice None 6)
              (request anonymous "" alice_again None 7)
              acme_world "alice@example.com" "Alice@Example.COM"
              "alice" "alice2" Hwf eq_refl eq_refl eq_refl eq_refl Hlow
              eq_refl eq_refl Hemail HnA HnB)
    as (HcA & HcB & uA & uB & _ & _ & _ & _ & _ & _ & Hdup).
  split; [exact HcA|]. split; [exact HcB | exact Hdup].
Defined.


(** X4: Acme's record keeps [s3cretpass] under [confirmPassword]. *)
Lemma register_stores_confirm_password_witness :
  exists newUser : obj,
    JsMap.get 1 (users (storage
                          (snd (register (request anonymous "" acme None 5)
                                         initial_world))))
    = Some newUser
    /\ field newUser "confirmPassword" = VStr "s3cretpass".
Proof.
  destruct (register_stores_confirm_password
              (request anonymous "" acme None 5) initial_world
              "ads@acme.example" "acme" "s3cretpass" "company"
              users_wf_initial eq_refl eq_refl eq_refl eq_refl eq_refl
              eq_refl eq_refl)
    as (newUser & Hget & _ & Hconfirm).
  exists newUser. split; [exact Hget | exact Hconfirm].
Defined.

(** X5: Alice logs in and asks who she is. *)
Lemma login_then_me_witness :
  me (request (Some alice_session) "" VUndefined None 11)
     (play registrations initial_world)
  = (json 200 alice_public, play registrations initial_world).
Proof.
  assert (Hlogin : fst (login alice_login
                          (play registrations initial_world))
                   = (json 200 alice_public, Some alice_session))
    by (vm_compute; reflexivity).
  exact (login_then_me registrations alice_login
           (request (Some alice_session) "" VUndefined None 11)
           alice_public alice_session Hlogin eq_refl).
Defined.

(** X6: a PDF is refused on both routes. *)
Lemma upload_refused_before_handler_witness :
  exists err : string,
    ads_upload pdf_upload registered_world
    = (NextError err, registered_world)
    /\ videos_upload pdf_upload registered_world
       = (NextError err, registered_world).
Proof.
  exact (upload_refused_before_handler pdf_upload registered_world pdf
           eq_refl (or_intror (or_introl eq_refl))).
Defined.

(** X7: a video sent without a session is on disk after the 401. *)
Lemma unauthenticated_upload_keeps_file_witness :
  fst (ads_upload anonymous_upload registered_world)
  = Sent (json 401 (message "Not authenticated"))
  /\ "/srv/server/../uploads/videos/file-1000-42.mp4"
     ∈ disk (snd (ads_upload anonymous_upload registered_world)).
Proof.
  assert (Hsize : size clip <= fileSize)
    by (unfold fileSize; simpl; lia).
  destruct (unauthenticated_upload_keeps_file anonymous_upload
              registered_world clip eq_refl eq_refl eq_refl eq_refl Hsize)
    as [Hads _].
  rewrite Hads. split; [reflexivity|].
  apply elem_of_union_r, elem_of_singleton. reflexivity.
Defined.

(** X8: Acme's ad lies under [uploads/videos]. *)
Lemma ad_file_stored_under_videos_witness :
  exists ad : obj,
    fst (ads_upload big_ad_upload registered_world)
    = Sent (json 201 (VObj ad))
    /\ field ad "filePath"
       = VStr "/srv/server/../uploads/videos/file-1000-42.mp4".
Proof.
  assert (Hsize : size big_ad <= fileSize)
    by (unfold fileSize; simpl; lia).
  destruct (ad_file_stored_under_videos big_ad_upload registered_world
              big_ad eq_refl eq_refl eq_refl eq_refl Hsize)
    as (ad & Hres & Hpath & _).
  exists ad. split; [exact Hres | exact Hpath].
Defined.

(** X10: Alice deletes her video before its timer fires. *)
Lemma timer_of_deleted_video_only_logs_witness :
  processing_done video_timer 7
    (snd (by_id DELETE Videos
            (by_id_request creator_session "1" VUndefined) uploaded_world))
  = console_error "Error updating processed video:"
      (snd (by_id DELETE Videos
              (by_id_request creator_session "1" VUndefined)
              uploaded_world)).
Proof.
  assert (Hstored : stored Videos
                      (id_of (by_id_request creator_session "1" VUndefined))
                      uploaded_world
                    = Some uploaded_video)
    by (vm_compute; reflexivity).
  assert (Hown : strict_eq (field uploaded_video "userId")
                   (session_userId
                      (by_id_request creator_session "1" VUndefined))
                 = true)
    by (vm_compute; reflexivity).
  assert (Htm : timer_video video_timer
                = id_of (by_id_request creator_session "1" VUndefined))
    by (vm_compute; reflexivity).
  exact (timer_of_deleted_video_only_logs
           (by_id_request creator_session "1" VUndefined) uploaded_world
           uploaded_video video_timer 7 eq_refl Hstored Hown Htm).
Defined.

(** X12: Acme deletes its ad; Alice's video stays. *)
Lemma by_id_touches_one_kind_witness :
  records Videos
    (snd (by_id DELETE Ads
            (by_id_request company_session "1" VUndefined) both_world))
  = records Videos both_world
  /\ length (records Videos both_world) = 1%nat.
Proof.
  assert (Hk : Videos <> Ads) by discriminate.
  split; [|vm_compute; reflexivity].
  exact (by_id_touches_one_kind DELETE Ads Videos
           (by_id_request company_session "1" VUndefined) both_world
           Hk).
Defined.

(** X13: the id [abc]. *)
Lemma by_id_not_a_number_witness :
  status (fst (by_id GET Ads
                 (by_id_request company_session "abc" VUndefined)
                 ad_world)) = 404.
Proof.
  assert (Hnan : forall n : Z,
             id_of (by_id_request company_session "abc" VUndefined)
             <> VNum n)
    by (intros n; vm_compute; discriminate).
  apply (by_id_not_a_number GET Ads
           (by_id_request company_session "abc" VUndefined) ad_world
           eq_refl Hnan).
Defined.

(** X14: Acme deletes its ad and uploads another one; the id 1 is still
    not found. *)
Lemma deleted_id_stays_not_found_witness :
  status
    (fst (by_id GET Ads (by_id_request company_session "1" VUndefined)
            (play [Routed (AdsUpload big_ad_upload)]
               (snd (by_id DELETE Ads
                       (by_id_request company_session "1" VUndefined)
                       (play ad_calls initial_world))))))
  = 404.
Proof.
  assert (Hstored : stored Ads
                      (id_of (by_id_request company_session "1" VUndefined))
                      (play ad_calls initial_world)
                    = Some stored_ad)
    by (vm_compute; reflexivity).
  assert (Hown : strict_eq (field stored_ad "userId")
                   (session_userId
                      (by_id_request company_session "1" VUndefined))
                 = true)
    by (vm_compute; reflexivity).
  exact (deleted_id_stays_not_found ad_calls
           [Routed (AdsUpload big_ad_upload)] Ads GET
           (by_id_request company_session "1" VUndefined)
           (by_id_request company_session "1" VUndefined)
           stored_ad eq_refl Hstored Hown eq_refl eq_refl).
Defined.

(** X16: Alice, an [individual], lands on the home page. *)
Lemma individual_creator_sees_home_witness :
  Client.home_redirect
    (auth_status (request (Some alice_session) "" VUndefined None 11))
  = Some Client.DashboardCreatorPath
  /\ Client.login_redirect alice_public = Client.DashboardCreatorPath.
Proof.
  assert (Hlogin : fst (login alice_login
                          (play registrations initial_world))
                   = (json 200 alice_public, Some alice_session))
    by (vm_compute; reflexivity).
  assert (Htype : prop alice_public "userType" = VStr "individual")
    by (vm_compute; reflexivity).
  destruct (individual_creator_sees_home registrations alice_login
              (request (Some alice_session) "" VUndefined None 11)
              alice_public alice_session Hlogin Htype eq_refl)
    as (Hhome & Hmodal & _).
  split; [exact Hhome | exact Hmodal].
Defined.

(** X17: a clip of exactly 100MB from the ad page and a film of 1.5GB
    from the video page are stored by multer. *)
Lemma client_accepted_file_is_stored_witness :
  (exists p : string,
     upload_single "file" full_clip_upload registered_world
     = (Accepted (Some {| part := Client.file_part_of full_clip;
                          path := p |}),
        with_disk (disk registered_world ∪ {[p]}) registered_world))
  /\ (exists p : string,
        upload_single "file" film_upload registered_world
        = (Accepted (Some {| part := Client.file_part_of film;
                             path := p |}),
           with_disk (disk registered_world ∪ {[p]}) registered_world)).
Proof.
  assert (Hshort : Client.bytes film < fileSize)
    by (unfold fileSize; simpl; lia).
  split.
  - exact (client_accepted_file_is_stored full_clip None full_clip_upload
             registered_world (or_introl eq_refl) eq_refl).
  - exact (client_accepted_file_is_stored film None film_upload
             registered_world (or_intror (conj eq_refl Hshort)) eq_refl).
Defined.

(** X19: Acme's campaign, its dates as ISO strings, is refused, and
    no campaign is stored. *)
Lemma no_campaign_from_json_witness :
  status (fst (create_campaign campaign_request
                 (play (both_calls ++ [CreateCampaign campaign_request])
                       initial_world))) = 400
  /\ records Campaigns
       (play (both_calls ++ [CreateCampaign campaign_request])
             initial_world) = [].
Proof.
  assert (Hjson : campaigns_from_json
                    (both_calls ++ [CreateCampaign campaign_request])
                  = true)
    by (vm_compute; reflexivity).
  destruct (no_campaign_from_json
              (both_calls ++ [CreateCampaign campaign_request])
              campaign_request Hjson eq_refl)
    as [Hrefused Hnone].
  split; [now rewrite Hrefused | exact Hnone].
Defined.

(** X20: Acme gets the company summary and not the creator summary. *)
Lemma summaries_exclude_each_other_witness :
  status (fst (creator_summary fixed_random
                 (by_id_request company_session "" VUndefined)
                 both_world)) = 403.
Proof.
  assert (Hok : status (fst (analytics_summary fixed_random
                               (by_id_request company_session ""
                                              VUndefined)
                               both_world)) = 200)
    by (vm_compute; reflexivity).
  exact (proj1 (summaries_exclude_each_other fixed_random fixed_random
                  (by_id_request company_session "" VUndefined)
                  both_world) Hok).
Defined.

(** X21: Acme's ad is not in Alice's list. *)
Lemma uploaded_ad_listed_for_owner_only_witness :
  exists (ad : obj) (l : list value),
    fst (ads_upload big_ad_upload registered_world)
    = Sent (json 201 (VObj ad))
    /\ fst (list_ads (by_id_request creator_session "" VUndefined)
              (snd (ads_upload big_ad_upload registered_world)))
       = json 200 (VArr l)
    /\ ~ In (VObj ad) l.
Proof.
  assert (Hsize : size big_ad <= fileSize)
    by (unfold fileSize; simpl; lia).
  assert (Hone : 1 <> 0) by discriminate.
  assert (Htwo : 2 <> 0) by discriminate.
  destruct (uploaded_ad_listed_for_owner_only big_ad_upload
              (by_id_request creator_session "" VUndefined)
              registered_world big_ad 1 2 eq_refl Hone eq_refl eq_refl
              eq_refl Hsize eq_refl Htwo)
    as (ad & l & Hres & Hlist & Hin).
  exists ad, l. split; [exact Hres|]. split; [now rewrite Hlist|].
  intros Habs. apply Hin in Habs. discriminate Habs.
Defined.

(** X22: Acme hands its ad to Alice and is locked out of it. *)
Lemma patch_userId_hands_over_witness :
  status
    (fst (by_id DELETE Ads (by_id_request company_session "1" VUndefined)
            (snd (by_id PATCH Ads
                    (by_id_request company_session "1" takeover)
                    ad_world)))) = 403
  /\ status
       (fst (by_id GET Ads (by_id_request creator_session "1" VUndefined)
               (snd (by_id PATCH Ads
                       (by_id_request company_session "1" takeover)
                       ad_world)))) = 200.
Proof.
  assert (Hstored : stored Ads
                      (id_of (by_id_request company_session "1" takeover))
                      ad_world
                    = Some stored_ad)
    by (vm_compute; reflexivity).
  assert (Howner : field stored_ad "userId" = VNum 1)
    by (vm_compute; reflexivity).
  assert (Hone : 1 <> 0) by discriminate.
  assert (Htwo : 2 <> 0) by discriminate.
  assert (Hother : 2 <> 1) by discriminate.
  exact (patch_userId_hands_over Ads DELETE
           (by_id_request company_session "1" takeover)
           (by_id_request company_session "1" VUndefined)
           (by_id_request creator_session "1" VUndefined)
           ad_world stored_ad 1 2 eq_refl Hone Hstored Howner eq_refl
           Htwo Hother eq_refl eq_refl eq_refl eq_refl).
Defined.

(** X23: Alice's upload with broken [adPreferences]. *)
Lemma video_upload_bad_preferences_witness :
  fst (videos_upload bad_preferences_upload registered_world)
  = Sent (json 500 (message "Failed to upload video"))
  /\ storage (snd (videos_upload bad_preferences_upload registered_world))
     = storage registered_world.
Proof.
  assert (Hsize : size clip <= fileSize)
    by (unfold fileSize; simpl; lia).
  assert (Hparse : JSON_parse
                     (prop (body bad_preferences_upload) "adPreferences")
                   = None)
    by (vm_compute; reflexivity).
  rewrite (video_upload_bad_preferences bad_preferences_upload
             registered_world clip eq_refl eq_refl eq_refl eq_refl Hsize
             eq_refl Hparse).
  split; reflexivity.
Defined.

(** X26: Acme's summary counts no campaign, as its list shows none;
    Alice's summary counts her one video, which is being processed. *)
Lemma summaries_count_the_lists_witness :
  (exists l : list value,
     fst (list_campaigns fixed_random
            (by_id_request company_session "" VUndefined) both_world)
     = json 200 (VArr l)
     /\ length l = 0%nat
     /\ field acme_summary "activeCampaigns" = VNum 0)
  /\ (exists l : list value,
        fst (list_videos (by_id_request creator_session "" VUndefined)
               both_world)
        = json 200 (VArr l)
        /\ length l = 1%nat
        /\ field alice_summary "totalVideos" = VNum 1
        /\ field alice_summary "processingVideos" = VNum 1).
Proof.
  assert (Hacme : fst (analytics_summary fixed_random
                         (by_id_request company_session "" VUndefined)
                         both_world)
                  = json 200 (VObj acme_summary))
    by (vm_compute; reflexivity).
  assert (Halice : fst (creator_summary fixed_random
                          (by_id_request creator_session "" VUndefined)
                          both_world)
                   = json 200 (VObj alice_summary))
    by (vm_compute; reflexivity).
  destruct (proj1 (summaries_count_the_lists fixed_random fixed_random
                     (by_id_request company_session "" VUndefined)
                     both_world acme_summary) Hacme)
    as (l & Hlist & _).
  destruct (proj2 (summaries_count_the_lists fixed_random fixed_random
                     (by_id_request creator_session "" VUndefined)
                     both_world alice_summary) Halice)
    as (l' & Hlist' & _).
  split.
  - exists l. split; [exact Hlist|].
    split; [|vm_compute; reflexivity].
    vm_compute in Hlist. injection Hlist as <-. reflexivity.
  - exists l'. split; [exact Hlist'|].
    split; [|split; vm_compute; reflexivity].
    vm_compute in Hlist'. injection Hlist' as <-. reflexivity.
Defined.

End MoreRuns.
